(** * Tableau backup tool: a shallow embedding of [tableau-backup.py]

    The program:

    - [MD5]           the digest behind [hashlib.md5(...).hexdigest()];
    - [PosixPath]     the part of [pathlib] the tool uses ([Path(s)], [/], [str]);
    - [Py]            Python values, exceptions and the file system;
    - [Eff]           state and exceptions;
    - [TableauBackup] the methods of the class of the same name.

    The statements: [Layout], [Fetching], [Run], [Walk] and [More] hold
    their vocabulary, [Scenario] and [Cases] the concrete inputs, and the
    facts follow.

    Strings are byte strings; paths follow POSIX [pathlib].  The methods
    declared [async def] are modelled by their bodies, which is what runs
    when their coroutine is awaited; handing such a method to
    [executor.submit] only builds the coroutine object. *)

From Stdlib Require Import ZArith Strings.Byte Ascii String List Permutation Lia.
From stdpp Require Import base option list gmap strings.

Local Open Scope Z_scope.

(* ===================================================================== *)
(** ** MD5 (RFC 1321), as computed by [hashlib.md5(data).hexdigest()]     *)
(* ===================================================================== *)

Module MD5.

Definition word := Z.
Definition wrap (x : Z) : word := x mod 2 ^ 32.
Definition wadd (x y : word) : word := wrap (x + y).
Definition wnot (x : word) : word := Z.lxor x 4294967295.
Definition rotl (x : word) (c : Z) : word :=
  Z.lor (wrap (Z.shiftl x c)) (Z.shiftr x (32 - c)).

(** [K i = floor (2^32 * |sin (i + 1)|)]. *)
Definition K : list Z :=
  [ 3614090360; 3905402710; 606105819; 3250441966; 4118548399; 1200080426;
    2821735955; 4249261313; 1770035416; 2336552879; 4294925233; 2304563134;
    1804603682; 4254626195; 2792965006; 1236535329; 4129170786; 3225465664;
    643717713; 3921069994; 3593408605; 38016083; 3634488961; 3889429448;
    568446438; 3275163606; 4107603335; 1163531501; 2850285829; 4243563512;
    1735328473; 2368359562; 4294588738; 2272392833; 1839030562; 4259657740;
    2763975236; 1272893353; 4139469664; 3200236656; 681279174; 3936430074;
    3572445317; 76029189; 3654602809; 3873151461; 530742520; 3299628645;
    4096336452; 1126891415; 2878612391; 4237533241; 1700485571; 2399980690;
    4293915773; 2240044497; 1873313359; 4264355552; 2734768916; 1309151649;
    4149444226; 3174756917; 718787259; 3951481745 ].

Definition shift_amounts : list Z :=
  [ 7; 12; 17; 22; 7; 12; 17; 22; 7; 12; 17; 22; 7; 12; 17; 22;
    5; 9; 14; 20; 5; 9; 14; 20; 5; 9; 14; 20; 5; 9; 14; 20;
    4; 11; 16; 23; 4; 11; 16; 23; 4; 11; 16; 23; 4; 11; 16; 23;
    6; 10; 15; 21; 6; 10; 15; 21; 6; 10; 15; 21; 6; 10; 15; 21 ].

Definition state : Type := word * word * word * word.

Definition init : state := (1732584193, 4023233417, 2562383102, 271733878).

(** The message is padded with [0x80], zeros up to 56 modulo 64, and the
    bit length as a 64-bit little-endian integer. *)
Definition le_bytes (n : nat) (x : Z) : list Z :=
  map (fun i => (x / 2 ^ (8 * Z.of_nat i)) mod 256) (seq 0 n).

Definition pad (msg : list Z) : list Z :=
  let len := Z.of_nat (length msg) in
  msg ++ [128] ++ repeat 0 (Z.to_nat ((55 - len) mod 64))
      ++ le_bytes 8 ((8 * len) mod 2 ^ 64).

Definition le_word (bs : list Z) : word :=
  fold_right (fun b acc => b + 256 * acc) 0 bs.

Fixpoint words (n : nat) (bs : list Z) : list word :=
  match n with
  | O => []
  | S n' => le_word (take 4 bs) :: words n' (drop 4 bs)
  end.

Fixpoint blocks (n : nat) (bs : list Z) : list (list word) :=
  match n with
  | O => []
  | S n' => words 16 (take 64 bs) :: blocks n' (drop 64 bs)
  end.

Definition round (M : list word) (st : state) (i : nat) : state :=
  let '(a, b, c, d) := st in
  let zi := Z.of_nat i in
  let '(f, g) :=
    if zi <? 16 then (Z.lor (Z.land b c) (Z.land (wnot b) d), zi)
    else if zi <? 32 then
      (Z.lor (Z.land d b) (Z.land (wnot d) c), (5 * zi + 1) mod 16)
    else if zi <? 48 then (Z.lxor (Z.lxor b c) d, (3 * zi + 5) mod 16)
    else (Z.lxor c (Z.lor b (wnot d)), (7 * zi) mod 16) in
  let f' := wadd (wadd (wadd f a) (nth i K 0)) (nth (Z.to_nat g) M 0) in
  (d, wadd b (rotl f' (nth i shift_amounts 0)), b, c).

Definition compress (st : state) (M : list word) : state :=
  let '(a0, b0, c0, d0) := st in
  let '(a, b, c, d) := fold_left (round M) (seq 0 64) st in
  (wadd a0 a, wadd b0 b, wadd c0 c, wadd d0 d).

Definition digest_state (msg : list Z) : state :=
  let p := pad msg in
  fold_left compress (blocks (Nat.div (length p) 64) p) init.

Definition hex_digit (n : Z) : ascii :=
  nth (Z.to_nat n)
      [ "0"; "1"; "2"; "3"; "4"; "5"; "6"; "7";
        "8"; "9"; "a"; "b"; "c"; "d"; "e"; "f" ]%char "0"%char.

Definition hex_byte (b : Z) (rest : string) : string :=
  String (hex_digit (b / 16)) (String (hex_digit (b mod 16)) rest).

Definition hex_word (w : word) (rest : string) : string :=
  hex_byte (w mod 256)
    (hex_byte ((w / 256) mod 256)
       (hex_byte ((w / 65536) mod 256)
          (hex_byte ((w / 16777216) mod 256) rest))).

Definition hex_state (st : state) : string :=
  let '(a, b, c, d) := st in
  hex_word a (hex_word b (hex_word c (hex_word d ""))).

Definition byte_val (b : byte) : Z := Z.of_N (Byte.to_N b).

(** [hashlib.md5(data).hexdigest()] *)
Definition hexdigest (data : list byte) : string :=
  hex_state (digest_state (map byte_val data)).

Definition bytes_of_string (s : string) : list byte :=
  list_byte_of_string s.

End MD5.

(* ===================================================================== *)
(** ** POSIX [pathlib]: [Path(s)], [p / q], [str(p)]                      *)
(* ===================================================================== *)

Module PosixPath.

Local Open Scope string_scope.

(** A parsed path: its root ([""], ["/"] or ["//"]) and its components. *)
Record t := mk { root : string; parts : list string }.

Definition is_slash (c : ascii) : bool := Ascii.eqb c "/"%char.

(** [s.split('/')] *)
Fixpoint split_slash (s : string) : list string :=
  match s with
  | EmptyString => [EmptyString]
  | String c s' =>
      if is_slash c then EmptyString :: split_slash s'
      else match split_slash s' with
           | [] => [String c EmptyString]
           | x :: xs => String c x :: xs
           end
  end.

(** Empty components and ["."] are dropped; [".."] is kept. *)
Definition keep_part (s : string) : bool :=
  negb (String.eqb s "") && negb (String.eqb s ".").

(** One or three and more leading slashes give the root ["/"], exactly two
    give ["//"]. *)
Definition root_of (s : string) : string :=
  match s with
  | String c1 (String c2 (String c3 _)) =>
      if is_slash c1 then
        if is_slash c2 then if is_slash c3 then "/" else "//" else "/"
      else ""
  | String c1 (String c2 EmptyString) =>
      if is_slash c1 then if is_slash c2 then "//" else "/" else ""
  | String c1 EmptyString => if is_slash c1 then "/" else ""
  | EmptyString => ""
  end.

(** [Path(s)] *)
Definition Path (s : string) : t :=
  mk (root_of s) (List.filter keep_part (split_slash s)).

(** [p / q]: an absolute right operand replaces the left one. *)
Definition joinpath (p q : t) : t :=
  if String.eqb (root q) "" then mk (root p) (parts p ++ parts q) else q.

Fixpoint join_parts (ps : list string) : string :=
  match ps with
  | [] => ""
  | [x] => x
  | x :: rest => x ++ "/" ++ join_parts rest
  end.

(** [str(p)] *)
Definition str (p : t) : string :=
  match root p, parts p with
  | EmptyString, [] => "."
  | r, ps => r ++ join_parts ps
  end.

(** [Path(directory) / name], the only shape of join the tool uses. *)
Definition div (p : t) (name : string) : t := joinpath p (Path name).

(** The path itself preceded by its ancestors below the root, shortest
    first: what [mkdir(parents=True)] walks through. *)
Definition prefixes (p : t) : list t :=
  map (fun k => mk (root p) (take (S k) (parts p)))
      (seq 0 (length (parts p))).

(** [p.parent]: the path without its last component; a path without
    components is its own parent. *)
Definition parent (p : t) : t := mk (root p) (removelast (parts p)).

End PosixPath.

Infix "</>" := PosixPath.div (at level 40, left associativity).

(* ===================================================================== *)
(** ** Python values, exceptions and the file system                      *)
(* ===================================================================== *)

Module Py.

Local Open Scope string_scope.

(** The values the project dictionaries hold. *)
#[local] Unset Elimination Schemes.
Inductive value :=
| VNone
| VStr (s : string)
| VList (l : list value).
#[local] Set Elimination Schemes.

Inductive exn :=
| ServerResponseError (msg : string)
| KeyError (key : string)
| TypeError (msg : string)
| IndexError (msg : string)
| AttributeError (msg : string)
| ValueError (msg : string)
| FileExistsError (path : string)
| NotADirectoryError (path : string)
| IsADirectoryError (path : string)
| GitCommandError (msg : string)
| RuntimeError (msg : string).

(** [isinstance(e, ServerResponseError)]: the first [except] clause. *)
Definition is_ServerResponseError (e : exn) : bool :=
  match e with ServerResponseError _ => true | _ => false end.

(** [str(e)], as interpolated in the log messages. *)
Definition exn_str (e : exn) : string :=
  match e with
  | ServerResponseError m | TypeError m | IndexError m | AttributeError m
  | ValueError m | GitCommandError m | RuntimeError m => m
  | KeyError k => "'" ++ k ++ "'"
  | FileExistsError p => "[Errno 17] File exists: '" ++ p ++ "'"
  | NotADirectoryError p => "[Errno 20] Not a directory: '" ++ p ++ "'"
  | IsADirectoryError p => "[Errno 21] Is a directory: '" ++ p ++ "'"
  end.

Inductive res (A : Type) :=
| Ret (a : A)
| Raise (e : exn).
Arguments Ret {A} a.
Arguments Raise {A} e.

(** [d[k]] *)
Definition getitem (d : gmap string value) (k : string) : res value :=
  match d !! k with
  | Some v => Ret v
  | None => Raise (KeyError k)
  end.

(** [for x in v] *)
Definition iter (v : value) : res (list value) :=
  match v with
  | VList l => Ret l
  | VStr s => Ret (map (fun c => VStr (String c EmptyString))
                       (list_ascii_of_string s))
  | VNone => Raise (TypeError "'NoneType' object is not iterable")
  end.

(** [v[i]] for a non-negative index *)
Definition index (v : value) (i : nat) : res value :=
  match v with
  | VList l =>
      match nth_error l i with
      | Some x => Ret x
      | None => Raise (IndexError "list index out of range")
      end
  | VStr s =>
      match String.get i s with
      | Some c => Ret (VStr (String c EmptyString))
      | None => Raise (IndexError "string index out of range")
      end
  | VNone => Raise (TypeError "'NoneType' object is not subscriptable")
  end.

(** [s.replace(' ', '_')] on a string *)
Fixpoint replace_space (s : string) : string :=
  match s with
  | EmptyString => EmptyString
  | String c s' =>
      String (if Ascii.eqb c " "%char then "_"%char else c) (replace_space s')
  end.

(** [v.replace(' ', '_')] on a value *)
Definition replace (v : value) : res string :=
  match v with
  | VStr s => Ret (replace_space s)
  | VNone =>
      Raise (AttributeError "'NoneType' object has no attribute 'replace'")
  | VList _ =>
      Raise (AttributeError "'list' object has no attribute 'replace'")
  end.

(** *** The file system: from a path to a node.  The key is the normal
    form of the path ([str(Path(s))]); [..] and symbolic links are not
    resolved. *)
Inductive node :=
| File (data : list byte)
| Dir.

Definition norm (s : string) : string := PosixPath.str (PosixPath.Path s).

Definition lookup_path (fs : gmap string node) (s : string) : option node :=
  fs !! norm s.

(** [Path(s).exists()] *)
Definition exists_ (fs : gmap string node) (s : string) : bool :=
  match lookup_path fs s with Some _ => true | None => false end.

End Py.

(* ===================================================================== *)
(** ** State and exceptions                                               *)
(* ===================================================================== *)

Module Eff.

Import Py.

(** A computation over a state [S] that returns or raises; the state
    survives an exception. *)
Definition M (S A : Type) : Type := S -> S * res A.

Definition ret {S A} (a : A) : M S A := fun s => (s, Ret a).
Definition raise {S A} (e : exn) : M S A := fun s => (s, Raise e).
Definition bind {S A B} (m : M S A) (k : A -> M S B) : M S B :=
  fun s => match m s with
           | (s', Ret a) => k a s'
           | (s', Raise e) => (s', Raise e)
           end.
Definition lift {S A} (r : res A) : M S A := fun s => (s, r).

(** [try: m  except Exception as e: h e] *)
Definition try_except {S A} (m : M S A) (h : exn -> M S A) : M S A :=
  fun s => match m s with
           | (s', Raise e) => h e s'
           | r => r
           end.

(** [try: m  finally: f] *)
Definition try_finally {S A} (m : M S A) (f : M S unit) : M S A :=
  fun s => match m s with
           | (s', r) =>
               match f s' with
               | (s'', Ret _) => (s'', r)
               | (s'', Raise e) => (s'', Raise e)
               end
           end.

(** [for x in l: body x] *)
Fixpoint for_each {S A} (l : list A) (body : A -> M S unit) : M S unit :=
  match l with
  | [] => ret tt
  | x :: l' => bind (body x) (fun _ => for_each l' body)
  end.

(** [[body x for x in l]], evaluated left to right *)
Fixpoint map_m {S A B} (body : A -> M S B) (l : list A) : M S (list B) :=
  match l with
  | [] => ret []
  | x :: l' =>
      bind (body x) (fun y => bind (map_m body l') (fun ys => ret (y :: ys)))
  end.

End Eff.

Declare Scope eff_scope.
Delimit Scope eff_scope with eff.
Notation "'let*' x ':=' m 'in' k" := (Eff.bind m (fun x => k))
  (at level 10, x pattern, m at level 100, k at level 200) : eff_scope.
Notation "m ';;' k" := (Eff.bind m (fun _ => k))
  (at level 100, k at level 200, right associativity) : eff_scope.

(* ===================================================================== *)
(** ** [class TableauBackup]                                              *)
(* ===================================================================== *)

Module TableauBackup.

Import Py Eff PosixPath.
Local Open Scope string_scope.
Local Open Scope eff_scope.

Inductive kind := Workbook | Datasource.

(** Calling an [async def] method builds a coroutine object and runs
    nothing; the body runs when the coroutine is awaited.  The object
    records the method and its arguments. *)
Inductive coroutine :=
| Coro_download (k : kind) (directory : string) (content_id : value)
                (content_name : value) (username : option string)
| Coro_create_and_fill_child_dir
    (alle_ordner : gmap string (gmap string value)) (base_dir : string)
    (child_id : string) (username : option string).

Inductive level := INFO | WARNING | ERROR.

(** What a run does to the outside, in order.  [Visit] is a marker: the
    walker is about to await [process_project_content] for that id;
    [Committer] marks the entry of [_commit_and_push_changes]. *)
Inductive event :=
| Log (lvl : level) (msg : string)
| Mkdir (path : string)
| Submit (c : coroutine)
| Result (c : coroutine)
| RemoteDownload (k : kind) (content_id : string) (filepath : string)
| Visit (child_id : value)
| SignIn
| SignOut
| Clone (url : string) (to_path : string)
| ListProjects
| Committer
| GitAdd
| GitCommit (msg : string)
| GitPush.

Record world := World { fs : gmap string node; trace : list event }.

Definition emit (ev : event) : M world unit :=
  fun w => (World (fs w) (trace w ++ [ev])%list, Ret tt).

(** The server object: a download writes whatever it writes to the file
    system and returns or raises. *)
Record server := Server {
  workbooks_download :
    string -> string -> gmap string node -> gmap string node * option exn;
  datasources_download :
    string -> string -> gmap string node -> gmap string node * option exn
}.

(** The order in which [as_completed] hands back the futures of a pool:
    any order, and every future once. *)
Record scheduler := Scheduler {
  as_completed : list coroutine -> list coroutine;
  as_completed_perm : forall l, Permutation (as_completed l) l
}.

Record config := Config {
  tableau_server : string;
  git_repo : string;
  base_dir : string;
  git_author_name : string;
  git_author_email : string;
  cfg_max_workers : option Z;
  overwrite_existing : option bool
}.

Record t := Self {
  config_ : config;
  server_ : option server;
  project_cache : gmap string (gmap string value);
  max_workers : Z
}.

(** [__init__], given the loaded configuration *)
Definition init (cfg : config) : t :=
  Self cfg None ∅ (default 4%Z (cfg_max_workers cfg)).

(** [calculate_file_hash] *)
Definition calculate_file_hash (filepath : string) : M world string :=
  fun w =>
    if negb (exists_ (fs w) filepath) then (w, Ret "")
    else match lookup_path (fs w) filepath with
         | Some (File data) => (w, Ret (MD5.hexdigest data))
         | _ => (w, Raise (IsADirectoryError filepath))
         end.

(** [should_download_file] *)
Definition should_download_file
    (self : t) (filepath : string) (content_id : string) : M world bool :=
  fun w =>
    if negb (default false (overwrite_existing (config_ self)))
       && exists_ (fs w) filepath
    then (w, Ret false)
    else (w, Ret true).

Definition ext (k : kind) : string :=
  match k with Workbook => ".twbx" | Datasource => ".tdsx" end.

Definition noun (k : kind) : string :=
  match k with Workbook => "workbook" | Datasource => "datasource" end.

(** [f"{username}"] *)
Definition fmt (username : option string) : string :=
  default "None" username.

(** [self.server.workbooks.download(id, filepath=...)] and its data source
    twin *)
Definition remote_download
    (k : kind) (self : t) (content_id filepath : string) : M world unit :=
  match server_ self with
  | None =>
      raise (AttributeError
               ("'NoneType' object has no attribute '" ++ noun k ++ "s'"))
  | Some srv =>
      fun w =>
        let call := match k with
                    | Workbook => workbooks_download srv
                    | Datasource => datasources_download srv
                    end in
        let '(fs', r) := call content_id filepath (fs w) in
        (World fs' (trace w ++ [RemoteDownload k content_id filepath])%list,
         match r with None => Ret tt | Some e => Raise e end)
  end.

(** The body shared, word for word, by [download_workbook] and
    [download_datasource]; they differ in the extension, the server
    endpoint and the noun of the log messages. *)
Definition download
    (k : kind) (self : t) (directory content_id content_name : string)
    (username : option string) : M world bool :=
  let filepath := str (Path directory </> (content_name ++ ext k)) in
  let* go := should_download_file self filepath content_id in
  if negb go then
    emit (Log INFO ("Skipping existing " ++ noun k ++ ": " ++ content_name)) ;;
    ret false
  else
    try_except
      (let* original_hash := calculate_file_hash filepath in
       remote_download k self content_id filepath ;;
       let* new_hash := calculate_file_hash filepath in
       if negb (String.eqb original_hash new_hash) then
         emit (Log INFO ("Downloaded " ++ noun k ++ ": " ++ content_name)) ;;
         ret true
       else ret false)
      (fun e =>
         (if is_ServerResponseError e then
            emit (Log WARNING
                    ("Access denied: " ++ fmt username ++ " cannot download "
                     ++ content_name ++ ": " ++ exn_str e))
          else
            emit (Log ERROR
                    ("Failed to download " ++ noun k ++ " " ++ content_name
                     ++ ": " ++ exn_str e))) ;;
         ret false).

(** The body of [download_workbook] *)
Definition download_workbook := download Workbook.

(** The body of [download_datasource] *)
Definition download_datasource := download Datasource.

(** [directory.mkdir(parents=True, exist_ok=True)]: missing ancestors are
    created, an existing directory is accepted, a regular file in the way
    raises. *)
Fixpoint mkdir_prefixes
    (target : string) (ps : list PosixPath.t) (fs0 : gmap string node)
  : gmap string node * option exn :=
  match ps with
  | [] => (fs0, None)
  | p :: rest =>
      match lookup_path fs0 (str p) with
      | Some Dir => mkdir_prefixes target rest fs0
      | Some (File _) =>
          (fs0, Some (match rest with
                      | [] => FileExistsError target
                      | _ :: _ => NotADirectoryError target
                      end))
      | None => mkdir_prefixes target rest (<[norm (str p) := Dir]> fs0)
      end
  end.

Definition mkdir (directory : PosixPath.t) : M world unit :=
  fun w =>
    let '(fs', r) :=
      mkdir_prefixes (str directory) (prefixes directory) (fs w) in
    (World fs' (trace w ++ [Mkdir (str directory)])%list,
     match r with None => Ret tt | Some e => Raise e end).

(** [ThreadPoolExecutor(max_workers=n)] *)
Definition ThreadPoolExecutor (n : Z) : M world unit :=
  if (n <=? 0)%Z then raise (ValueError "max_workers must be greater than 0")
  else ret tt.

(** [alle_ordner.get(child_id)]: the keys are strings. *)
Definition dict_get
    (alle_ordner : gmap string (gmap string value)) (child_id : value)
  : res (option (gmap string value)) :=
  match child_id with
  | VStr s => Ret (alle_ordner !! s)
  | VNone => Ret None
  | VList _ => Raise (TypeError "unhashable type: 'list'")
  end.

(** [not proj] for the result of [dict.get] *)
Definition falsy (proj : option (gmap string value)) : bool :=
  match proj with
  | None => true
  | Some d => bool_decide (dom d = ∅)
  end.

Section Pool.

(** The completion order of the pools. *)
Variable sched : scheduler.

(** One turn of the submission loop: the arguments [content[1]] and
    [content[0]] are evaluated, the worker calls the [async def] method,
    and the future holds the coroutine object it returned. *)
Definition submit_download
    (directory : string) (username : option string)
    (task : kind * value) : M world coroutine :=
  let '(content_type, content) := task in
  let* content_id := lift (index content 1) in
  let* content_name := lift (index content 0) in
  let c := Coro_download content_type directory content_id content_name
                         username in
  emit (Submit c) ;;
  ret c.

(** [process_project_content] *)
Definition process_project_content
    (self : t) (project : gmap string value) (base_dir : string)
    (username : option string) : M world (list coroutine) :=
  let* name := lift (getitem project "Name") in
  let* dirname := lift (replace name) in
  let directory := Path base_dir </> dirname in
  mkdir directory ;;
  let* workbooks := lift (getitem project "Workbooks") in
  let* workbooks := lift (iter workbooks) in
  let* datasources := lift (getitem project "Datasources") in
  let* datasources := lift (iter datasources) in
  let download_tasks :=
    (map (pair Workbook) workbooks
       ++ map (pair Datasource) datasources)%list in
  ThreadPoolExecutor (max_workers self) ;;
  let* futures :=
    map_m (submit_download (str directory) username) download_tasks in
  let results := as_completed sched futures in
  for_each results (fun c => emit (Result c)) ;;
  ret results.

(** [for child in children: await rec(child)], for a recursion that may
    run out of fuel *)
Fixpoint await_each
    (rec : value -> world -> option (world * res unit))
    (children : list value) (w : world) : option (world * res unit) :=
  match children with
  | [] => Some (w, Ret tt)
  | child :: rest =>
      match rec child w with
      | None => None
      | Some (w', Raise e) => Some (w', Raise e)
      | Some (w', Ret _) => await_each rec rest w'
      end
  end.

(** What [create_and_fill_child_dir] does with a project it found,
    before it recurses. *)
Definition visit_project
    (self : t) (proj : gmap string value) (base_dir : string)
    (child_id : value) (username : option string)
  : M world (list value) :=
  emit (Visit child_id) ;;
  process_project_content self proj base_dir username ;;
  let* dirs := lift (getitem proj "Child Dirs") in
  lift (iter dirs).

(** [create_and_fill_child_dir]: the recursion has no bound of its own, so
    the model takes fuel and answers [None] when it runs out. *)
Fixpoint create_and_fill_child_dir
    (fuel : nat) (self : t)
    (alle_ordner : gmap string (gmap string value)) (base_dir : string)
    (child_id : value) (username : option string) (w : world)
  : option (world * res unit) :=
  match fuel with
  | O => None
  | S fuel' =>
      match dict_get alle_ordner child_id with
      | Raise e => Some (w, Raise e)
      | Ret proj =>
          if falsy proj then Some (w, Ret tt)
          else
            match visit_project self (default ∅ proj) base_dir child_id
                                username w with
            | (w1, Raise e) => Some (w1, Raise e)
            | (w1, Ret children) =>
                await_each
                  (fun child =>
                     create_and_fill_child_dir fuel' self alle_ordner
                                               base_dir child username)
                  children w1
            end
      end
  end.

(** *** The run *)

(** A project as the server lists it. *)
Record project_item := ProjectItem {
  id : string;
  name : string;
  parent_id : option string
}.

(** What the outside answers during one run: the environment variables,
    the server, the version-control client and the clock. *)
Record environment := Environment {
  TABLEAU_USERNAME : option string;
  TABLEAU_PASSWORD : option string;
  new_server : res server;
  sign_in : option exn;
  sign_out : option exn;
  clone_from : gmap string node -> gmap string node * option exn;
  pager_projects : res (list project_item);
  git_add : option exn;
  index_commit : option exn;
  git_push : option exn;
  now : string
}.

(** The run mutates the object ([self.server], [self.project_cache]). *)
Definition run_state : Type := t * world.

Definition in_world {A} (m : M world A) : M run_state A :=
  fun s => let '(w', r) := m (snd s) in ((fst s, w'), r).

Definition get_self : M run_state t := fun s => (s, Ret (fst s)).

Definition set_self (f : t -> t) : M run_state unit :=
  fun s => ((f (fst s), snd s), Ret tt).

Definition outcome (o : option exn) : M run_state unit :=
  match o with None => ret tt | Some e => raise e end.

(** [not s] for an optional string *)
Definition not_str (s : option string) : bool :=
  match s with
  | None | Some EmptyString => true
  | Some (String _ _) => false
  end.

(** [connect_to_tableau] *)
Definition connect_to_tableau (env : environment) : M run_state unit :=
  try_except
    (if not_str (TABLEAU_USERNAME env) || not_str (TABLEAU_PASSWORD env)
     then raise (ValueError
                   "Tableau credentials not found in environment variables")
     else
       let* srv := lift (new_server env) in
       set_self (fun self => Self (config_ self) (Some srv)
                                  (project_cache self) (max_workers self)) ;;
       in_world (emit SignIn) ;;
       outcome (sign_in env) ;;
       in_world (emit (Log INFO "Successfully connected to Tableau server")))
    (fun e =>
       in_world (emit (Log ERROR ("Failed to connect to Tableau server: "
                                  ++ exn_str e))) ;;
       raise e).

(** [_commit_and_push_changes] *)
Definition _commit_and_push_changes (env : environment)
  : M run_state unit :=
  in_world (emit Committer) ;;
  try_except
    (in_world (emit GitAdd) ;;
     outcome (git_add env) ;;
     let commit_msg := "Backup " ++ now env in
     in_world (emit (GitCommit commit_msg)) ;;
     outcome (index_commit env) ;;
     in_world (emit GitPush) ;;
     outcome (git_push env) ;;
     in_world (emit (Log INFO
                       "Successfully committed and pushed changes to Git")))
    (fun e =>
       in_world (emit (Log ERROR ("Failed to commit/push changes: "
                                  ++ exn_str e))) ;;
       raise e).

(** The dictionary comprehension that fills [self.project_cache]; a later
    project with the same id replaces an earlier one. *)
Definition cache_entry (proj : project_item) : gmap string value :=
  {[ "name" := VStr (name proj);
     "parent_id" := match parent_id proj with
                    | Some p => VStr p
                    | None => VNone
                    end ]}.

Definition build_project_cache (projects : list project_item)
  : gmap string (gmap string value) :=
  foldl (fun m proj => <[id proj := cache_entry proj]> m) ∅ projects.

(** [[proj for proj in projects if not proj.parent_id]] *)
Definition root_projects (projects : list project_item)
  : list project_item :=
  List.filter (fun proj => not_str (parent_id proj)) projects.

(** One turn of the loop over the roots: the worker calls the
    [async def] walker, and the future holds its coroutine object. *)
Definition submit_root
    (cache : gmap string (gmap string value)) (dir : string)
    (username : option string) (proj : project_item)
  : M run_state coroutine :=
  let c := Coro_create_and_fill_child_dir cache dir (id proj) username in
  in_world (emit (Submit c)) ;;
  ret c.

(** [git.Repo.clone_from(url, to_path)] *)
Definition clone (env : environment) (url to_path : string)
  : M world unit :=
  fun w =>
    let '(fs', r) := clone_from env (fs w) in
    (World fs' (trace w ++ [Clone url to_path])%list,
     match r with None => Ret tt | Some e => Raise e end).

(** [backup_tableau] *)
Definition backup_tableau (env : environment) : M run_state unit :=
  try_finally
    (try_except
       (connect_to_tableau env ;;
        let* self := get_self in
        let cfg := config_ self in
        in_world (clone env (git_repo cfg) (base_dir cfg)) ;;
        in_world (emit (Log INFO "Cloned Git repository")) ;;
        in_world (emit ListProjects) ;;
        let* projects := lift (pager_projects env) in
        set_self (fun self => Self (config_ self) (server_ self)
                                   (build_project_cache projects)
                                   (max_workers self)) ;;
        let* self := get_self in
        in_world (ThreadPoolExecutor (max_workers self)) ;;
        let* futures :=
          map_m (submit_root (project_cache self) (base_dir cfg)
                             (TABLEAU_USERNAME env))
                (root_projects projects) in
        for_each (as_completed sched futures)
                 (fun c => in_world (emit (Result c))) ;;
        _commit_and_push_changes env)
       (fun e =>
          in_world (emit (Log ERROR ("Backup failed: " ++ exn_str e))) ;;
          raise e))
    (let* self := get_self in
     match server_ self with
     | Some _ => in_world (emit SignOut) ;; outcome (sign_out env)
     | None => ret tt
     end).

End Pool.

(** *** The cached parent lookup *)

(** [@lru_cache(maxsize=1024)] on a method of one object: the calls it
    remembers, by argument, most recently used first. *)
Definition maxsize : nat := 1024.

(** The answer remembered for [key], and the other entries in their order. *)
Fixpoint lru_take (key : string) (cache : list (string * gmap string value))
  : option (gmap string value * list (string * gmap string value)) :=
  match cache with
  | [] => None
  | (k, v) :: rest =>
      if String.eqb k key then Some (v, rest)
      else match lru_take key rest with
           | Some (v', rest') => Some (v', (k, v) :: rest')
           | None => None
           end
  end.

(** [lookup_parent]: a remembered call is answered from the cache and
    becomes the most recent one; a new call evaluates
    [self.project_cache.get(parent_id, {})], is remembered, and pushes out
    the least recently used entry of a full cache. *)
Definition lookup_parent
    (self : t) (parent_id : string) (cache : list (string * gmap string value))
  : list (string * gmap string value) * gmap string value :=
  match lru_take parent_id cache with
  | Some (v, rest) => ((parent_id, v) :: rest, v)
  | None =>
      let v := default ∅ (project_cache self !! parent_id) in
      ((parent_id, v) :: take (maxsize - 1) cache, v)
  end.

(** *** Loading the configuration *)

(** The YAML library: [yaml.safe_load] on the bytes of a file and
    [yaml.dump] of a configuration. *)
Record yaml := Yaml {
  safe_load : list byte -> res config;
  dump : config -> list byte
}.

(** [os.getenv(key, fallback)] *)
Definition getenv_or (getenv : string -> option string) (key fallback : string)
  : string :=
  default fallback (getenv key).

(** The dictionary [default_config] *)
Definition default_config (getenv : string -> option string) : config :=
  Config (getenv_or getenv "TABLEAU_SERVER" "https://tableau.server.com")
         (getenv_or getenv "GIT_REPO" "https://git.user.com/projects/test_proj")
         "Tableau_Projects"
         (getenv_or getenv "GIT_AUTHOR_NAME" "User")
         (getenv_or getenv "GIT_AUTHOR_EMAIL" "user@outlook.com")
         (Some 4%Z) (Some false).

(** A regular file stands where a directory of the path should be. *)
Definition file_in_the_way (fs0 : gmap string node) (ps : list PosixPath.t)
  : bool :=
  existsb (fun q => match lookup_path fs0 (str q) with
                    | Some (File _) => true
                    | _ => false
                    end) ps.

(** [_load_config], for a path written the way [pathlib] prints it (no
    empty path, no trailing slash, no [".."]): [open] raises
    [NotADirectoryError] or [IsADirectoryError] past the handler (the
    current directory and the root are directories); [FileNotFoundError] is
    caught, the defaults are written to the path and returned. *)
Definition _load_config
    (y : yaml) (getenv : string -> option string) (config_path : string)
  : M world config :=
  fun w =>
    if file_in_the_way (fs w) (prefixes (parent (Path config_path))) then
      (w, Raise (NotADirectoryError config_path))
    else if bool_decide (parts (Path config_path) = []) then
      (w, Raise (IsADirectoryError config_path))
    else
      match lookup_path (fs w) config_path with
      | Some (File data) => (w, safe_load y data)
      | Some Dir => (w, Raise (IsADirectoryError config_path))
      | None =>
          let cfg := default_config getenv in
          (mkdir (parent (Path config_path)) ;;
           (fun w1 =>
              (World (<[norm config_path := File (dump y cfg)]> (fs w1))
                     (trace w1),
               Ret tt)) ;;
           ret cfg) w
      end.

(** [TableauBackup(config_path)] *)
Definition new
    (y : yaml) (getenv : string -> option string) (config_path : string)
  : M world t :=
  let* cfg := _load_config y getenv config_path in
  ret (init cfg).

(** [main], under [asyncio.run]: [args] is the value of [--config] when
    the option is given.  Here the coroutine of [backup_tableau] is
    awaited, so its body runs. *)
Definition main
    (sched : scheduler) (y : yaml) (getenv : string -> option string)
    (env : environment) (args : option string)
  : M world unit :=
  fun w =>
    match new y getenv (default "config.yaml" args) w with
    | (w1, Ret backup_tool) =>
        let '((_, w2), r) := backup_tableau sched env (backup_tool, w1) in
        (w2, r)
    | (w1, Raise e) => (w1, Raise e)
    end.

End TableauBackup.

(* ===================================================================== *)
(** ** Vocabulary of the statements                                        *)
(* ===================================================================== *)

Module Layout.

Import PosixPath.
Local Open Scope string_scope.

Fixpoint no_slash (s : string) : bool :=
  match s with
  | EmptyString => true
  | String c s' => negb (is_slash c) && no_slash s'
  end.

(** What [Path] keeps as a component: no slash, not empty, not ["."]. *)
Definition component (s : string) : Prop :=
  no_slash s = true /\ s <> "" /\ s <> ".".


(** The shape of every parsed path. *)
Definition wf (p : t) : Prop :=
  (root p = "" \/ root p = "/" \/ root p = "//")
  /\ Forall component (parts p).



End Layout.

Module Fetching.

Import Py Eff PosixPath TableauBackup.
Local Open Scope string_scope.

(** The file a fetch is about: [str(Path(directory) / f"{name}.twbx")] or
    its [.tdsx] twin. *)
Definition target (k : kind) (directory content_name : string) : string :=
  str (Path directory </> (content_name ++ ext k)).

(** The world after one more event. *)
Definition logged (w : world) (ev : event) : world :=
  World (fs w) (trace w ++ [ev]).

(** What the two [except] clauses log for the exception [e]. *)
Definition failure_record
    (k : kind) (cname : string) (user : option string) (e : exn) : event :=
  if is_ServerResponseError e then
    Log WARNING ("Access denied: " ++ fmt user ++ " cannot download "
                 ++ cname ++ ": " ++ exn_str e)
  else
    Log ERROR ("Failed to download " ++ noun k ++ " " ++ cname
               ++ ": " ++ exn_str e).

(** One content item and the arguments of its fetch. *)
Record item := Item {
  item_kind : kind;
  item_directory : string;
  item_id : string;
  item_name : string;
  item_user : option string
}.

(** The fetches of a list of items, awaited one after the other. *)
Definition fetch_each (self : t) (items : list item) : M world (list bool) :=
  map_m (fun it => download (item_kind it) self (item_directory it)
                            (item_id it) (item_name it) (item_user it))
        items.

End Fetching.

Module Run.

Import Py Eff PosixPath TableauBackup.
Local Open Scope string_scope.

Definition is_Ret {A} (r : res A) : bool :=
  match r with Ret _ => true | Raise _ => false end.

Definition is_None {A} (o : option A) : bool :=
  match o with None => true | Some _ => false end.

(** The run gets as far as the pool: credentials are set, the server
    answers, the sign-in, the clone and the listing succeed, and the pool
    can be built. *)
Definition setup_ok (env : environment) (self : t) (w : world) : bool :=
  negb (not_str (TABLEAU_USERNAME env))
  && negb (not_str (TABLEAU_PASSWORD env))
  && is_Ret (new_server env)
  && is_None (sign_in env)
  && is_None (snd (clone_from env (fs w)))
  && is_Ret (pager_projects env)
  && (0 <? max_workers self)%Z.

Definition is_committer (ev : event) : bool :=
  match ev with Committer => true | _ => false end.

(** What a pool, a walker or a fetch does. *)
Definition is_pool_work (ev : event) : bool :=
  match ev with
  | Submit _ | Result _ | Visit _ | Mkdir _ | RemoteDownload _ _ _ => true
  | _ => false
  end.

(** Not the work of a walker or of a fetch: no directory made, no project
    visited, no download asked of the server. *)
Definition idle (ev : event) : Prop :=
  match ev with
  | Visit _ | Mkdir _ | RemoteDownload _ _ _ => False
  | _ => True
  end.

(** How often the committer was entered. *)
Definition committer_calls (evs : list event) : nat :=
  length (List.filter is_committer evs).

(** The coroutine object the pool holds for a root project. *)
Definition root_task (env : environment) (self : t)
    (projects : list project_item) (proj : project_item) : coroutine :=
  Coro_create_and_fill_child_dir
    (build_project_cache projects) (base_dir (config_ self)) (id proj)
    (TABLEAU_USERNAME env).

(** What the committer does after it was entered. *)
Definition commit_tail (env : environment) : list event * res unit :=
  match git_add env with
  | Some e =>
      ([GitAdd; Log ERROR ("Failed to commit/push changes: " ++ exn_str e)%string],
       Raise e)
  | None =>
      match index_commit env with
      | Some e =>
          ([GitAdd; GitCommit ("Backup " ++ now env)%string;
            Log ERROR ("Failed to commit/push changes: " ++ exn_str e)%string],
           Raise e)
      | None =>
          match git_push env with
          | Some e =>
              ([GitAdd; GitCommit ("Backup " ++ now env)%string; GitPush;
                Log ERROR ("Failed to commit/push changes: " ++ exn_str e)%string],
               Raise e)
          | None =>
              ([GitAdd; GitCommit ("Backup " ++ now env)%string; GitPush;
                Log INFO "Successfully committed and pushed changes to Git"],
               Ret tt)
          end
      end
  end.

Definition setup_events (self : t) : list event :=
  [ SignIn; Log INFO "Successfully connected to Tableau server";
    Clone (git_repo (config_ self)) (base_dir (config_ self));
    Log INFO "Cloned Git repository"; ListProjects ].

Definition quiet (ev : event) : Prop :=
  is_committer ev = false /\ is_pool_work ev = false.

End Run.

Module Walk.

Import Py Eff PosixPath TableauBackup.
Local Open Scope string_scope.

(** The ids the walker visited, in order. *)
Definition visits (evs : list event) : list value :=
  omap (fun ev => match ev with Visit v => Some v | _ => None end) evs.

(** The directory of a project: [Path(base_dir) / name.replace(' ', '_')]. *)
Definition project_dir (base_dir name : string) : PosixPath.t :=
  Path base_dir </> replace_space name.

(** *** The index as a graph *)

(** The walker does not return at once on [i]. *)
Definition present (idx : gmap string (gmap string value)) (i : string)
  : Prop :=
  exists proj, idx !! i = Some proj /\ falsy (Some proj) = false.

(** [c] is listed under ['Child Dirs'] of [p]. *)
Definition child_of (idx : gmap string (gmap string value)) (p c : string)
  : Prop :=
  exists proj dirs l,
    idx !! p = Some proj /\ proj !! "Child Dirs" = Some dirs
    /\ iter dirs = Ret l /\ VStr c ∈ l.


(** No cycle among the child edges: every child ranks below its parent. *)
Definition acyclic (idx : gmap string (gmap string value)) : Prop :=
  exists rank : string -> nat,
    forall p c, child_of idx p c -> (rank c < rank p)%nat.

(** *** A forest, and the index that holds it *)

(** A listed id with no project behind it, or a project with its name and
    its children in the order of ['Child Dirs']. *)
#[local] Unset Elimination Schemes.
Inductive tree :=
| Absent (v : value)
| Node (i : string) (name : string) (children : list tree).
#[local] Set Elimination Schemes.

(** The entry of ['Child Dirs'] (or of the root list) that leads to [t]. *)
Definition ref (t : tree) : value :=
  match t with
  | Absent v => v
  | Node i _ _ => VStr i
  end.


Fixpoint names (t : tree) : list string :=
  match t with
  | Absent _ => []
  | Node _ n children => n :: flat_map names children
  end.


(** A content list the submission loop gets through: every entry has a
    second and a first element. *)
Definition contents (v : value) : Prop :=
  exists l,
    iter v = Ret l
    /\ Forall (fun c => exists a b, index c 1 = Ret a /\ index c 0 = Ret b) l.

(** The index holds the tree: every node is a project with a name, two
    content lists and the children of the tree under ['Child Dirs']; every
    absent leaf is an id the walker returns on. *)
#[local] Unset Elimination Schemes.
#[local] Set Elimination Schemes.

(** No regular file stands where [mkdir] has to go. *)
Definition mkdir_clear (fs0 : gmap string node) (d : PosixPath.t) : Prop :=
  forall q data, q ∈ prefixes d -> lookup_path fs0 (str q) <> Some (File data).

Definition dirs_clear (fs0 : gmap string node) (base_dir : string) (t : tree)
  : Prop :=
  Forall (fun n => mkdir_clear fs0 (project_dir base_dir n)) (names t).

(** *** What a computation may do *)

(** From [w] to [w']: the trace grew by events that satisfy [P], and no
    regular file appeared or changed. *)
Definition grows (P : event -> Prop) (w w' : world) : Prop :=
  (exists evs, trace w' = (trace w ++ evs)%list /\ Forall P evs)
  /\ forall k data, fs w' !! k = Some (File data) -> fs w !! k = Some (File data).

(** [m] only emits events that satisfy [P], leaves the files alone, and
    returns values that satisfy [Q]. *)
Definition sat {A} (P : event -> Prop) (Q : A -> Prop) (m : M world A) : Prop :=
  forall w,
    grows P w (fst (m w))
    /\ match snd (m w) with Ret a => Q a | Raise _ => True end.

(** What visiting the project [project] under [base_dir] may emit: the
    creation of its directory and the tasks of its pool, all of them for
    that directory. *)
Definition content_event (base_dir name : string) (ev : event) : Prop :=
  match ev with
  | Mkdir d => d = str (project_dir base_dir name)
  | Submit (Coro_download _ d _ _ _) | Result (Coro_download _ d _ _ _) =>
      d = str (project_dir base_dir name)
  | _ => False
  end.

(** What a walk over [idx] under [base_dir] may emit: visits of projects of
    the index, and the events of their content. *)
Definition walk_event
    (idx : gmap string (gmap string value)) (base_dir : string) (ev : event)
  : Prop :=
  match ev with
  | Visit v => exists i, v = VStr i /\ present idx i
  | _ =>
      exists i proj n,
        idx !! i = Some proj /\ proj !! "Name" = Some (VStr n)
        /\ content_event base_dir n ev
  end.

End Walk.

Module More.

Import Py Eff PosixPath TableauBackup.
Local Open Scope string_scope.

(** From [f] to [f']: nothing was removed or changed, and what was added is
    a directory. *)
Definition adds_dirs (f f' : gmap string node) : Prop :=
  forall k, f' !! k = f !! k \/ (f !! k = None /\ f' !! k = Some Dir).

(** [m] takes the file system along [R]. *)
Definition fs_step {A} (R : gmap string node -> gmap string node -> Prop)
    (m : M world A) : Prop :=
  forall w, R (fs w) (fs (fst (m w))).

(** A lower-case hexadecimal digit. *)
Definition is_hex (c : ascii) : bool :=
  existsb (Ascii.eqb c)
          [ "0"; "1"; "2"; "3"; "4"; "5"; "6"; "7";
            "8"; "9"; "a"; "b"; "c"; "d"; "e"; "f" ]%char.

(** The server call behind a fetch of kind [k]. *)
Definition endpoint (k : kind) (srv : server)
  : string -> string -> gmap string node -> gmap string node * option exn :=
  match k with
  | Workbook => workbooks_download srv
  | Datasource => datasources_download srv
  end.

(** The downloads asked of the server, in order. *)
Definition downloads (evs : list event) : list (kind * string * string) :=
  omap (fun ev => match ev with
                  | RemoteDownload k i p => Some (k, i, p)
                  | _ => None
                  end) evs.

(** The coroutine objects handed to a pool, in order. *)
Definition submitted (evs : list event) : list coroutine :=
  omap (fun ev => match ev with Submit c => Some c | _ => None end) evs.

(** The coroutine object of the fetch of one content item, when the item
    has a second and a first element. *)
Definition task_coroutine (directory : string) (user : option string)
    (task : kind * value) : option coroutine :=
  match index (snd task) 1, index (snd task) 0 with
  | Ret a, Ret b => Some (Coro_download (fst task) directory a b user)
  | _, _ => None
  end.

(** The coroutine objects of a list of content items, when every item has
    the two elements. *)
Fixpoint pool_of (directory : string) (user : option string)
    (tasks : list (kind * value)) : option (list coroutine) :=
  match tasks with
  | [] => Some []
  | task :: rest =>
      match task_coroutine directory user task, pool_of directory user rest with
      | Some c, Some cs => Some (c :: cs)
      | _, _ => None
      end
  end.

(** The content items of a project, workbooks first. *)
Definition tasks_of (wl dl : list value) : list (kind * value) :=
  (map (pair Workbook) wl ++ map (pair Datasource) dl)%list.

(** How often [SignOut] occurs. *)
Definition sign_outs (evs : list event) : nat :=
  length (List.filter (fun ev => match ev with SignOut => true | _ => false end)
                      evs).

(** The cache remembers [v] for [key]. *)
Definition remembers (key : string) (v : gmap string value)
    (cache : list (string * gmap string value)) : Prop :=
  exists rest, lru_take key cache = Some (v, rest).

(** How many entries were used more recently than [key]. *)
Fixpoint age (key : string) (cache : list (string * gmap string value))
  : nat :=
  match cache with
  | [] => 0
  | (k, _) :: rest => if String.eqb k key then 0 else S (age key rest)
  end.

(** The state of the cache after looking up [keys] one after the other. *)
Definition lookups (self : t) (keys : list string)
    (cache : list (string * gmap string value))
  : list (string * gmap string value) :=
  foldl (fun c key => fst (lookup_parent self key c)) cache keys.

(** A path in the form [pathlib] prints it, and without [".."]: the paths
    for which [norm] names the file [open] means. *)
Definition canonical (p : string) : Prop :=
  str (Path p) = p /\ ".." ∉ parts (Path p).

(** The keys a cache remembers, most recently used first. *)
Definition keys (cache : list (string * gmap string value)) : list string :=
  map fst cache.




End More.

(* ===================================================================== *)
(** ** Concrete scenarios                                                 *)
(* ===================================================================== *)

Module Scenario.

Import Py Eff PosixPath TableauBackup.
Local Open Scope string_scope.

(** Futures complete in the order of submission. *)
Definition fifo : scheduler :=
  Scheduler (fun l => l) (fun l => Permutation_refl l).

Definition cfg : config :=
  Config "https://tableau.server.com" "https://git.user.com/projects/test_proj"
         "out" "User" "user@outlook.com" (Some 4%Z) None.

Definition write (data : list byte)
  : string -> string -> gmap string node -> gmap string node * option exn :=
  fun _ filepath fs0 => (<[norm filepath := File data]> fs0, None).

(** A server whose downloads write three bytes and return. *)
Definition srv_ok : server :=
  Server (write ["a"; "b"; "c"]%byte) (write ["a"; "b"; "c"]%byte).

(** A server whose connection breaks after the first byte reached the
    file. *)
Definition broken
  : string -> string -> gmap string node -> gmap string node * option exn :=
  fun _ filepath fs0 =>
    (<[norm filepath := File ["a"]%byte]> fs0,
     Some (RuntimeError "Connection broken")).

Definition srv_broken : server := Server broken broken.

(** A server that refuses every download. *)
Definition denied
  : string -> string -> gmap string node -> gmap string node * option exn :=
  fun _ _ fs0 => (fs0, Some (ServerResponseError "403003: Forbidden")).

Definition srv_denied : server := Server denied denied.

Definition self_ok : t := Self cfg (Some srv_ok) ∅ 4%Z.
Definition self_broken : t := Self cfg (Some srv_broken) ∅ 4%Z.
Definition self_denied : t := Self cfg (Some srv_denied) ∅ 4%Z.

Definition w_empty : world := World ∅ [].

(** The workbook is already there, with the bytes the server holds. *)
Definition w_mirrored : world :=
  World {[ "out/Sales/Q1.twbx" := File ["a"; "b"; "c"]%byte ]} [].

(** The same bytes under another name. *)
Definition w_copy : world :=
  World {[ "elsewhere/copy.bin" := File ["a"; "b"; "c"]%byte ]} [].

Definition cfg_overwrite : config :=
  Config "https://tableau.server.com" "https://git.user.com/projects/test_proj"
         "out" "User" "user@outlook.com" (Some 4%Z) (Some true).

Definition self_overwrite : t := Self cfg_overwrite (Some srv_ok) ∅ 4%Z.

(** The listing of the end-to-end scenario: a root and one child. *)
Definition projects : list project_item :=
  [ ProjectItem "1" "Sales" None; ProjectItem "2" "Sales/EMEA" (Some "1") ].

Definition env_ok : environment :=
  Environment (Some "bob") (Some "secret") (Ret srv_ok) None None
              (fun fs0 => (fs0, None)) (Ret projects) None None None
              "2026-11-04 10:00:00".

(** The working directory of an earlier run is still there. *)
Definition env_second_run : environment :=
  Environment (Some "bob") (Some "secret") (Ret srv_ok) None None
              (fun fs0 =>
                 (fs0, Some (GitCommandError
                               "destination path 'out' already exists")))
              (Ret projects) None None None "2026-11-04 10:05:00".

(** A project dictionary of the shape the walker reads. *)
Definition project (name : string) (workbooks datasources children : list value)
  : gmap string value :=
  {[ "Name" := VStr name; "Workbooks" := VList workbooks;
     "Datasources" := VList datasources; "Child Dirs" := VList children ]}.

(** A content item: its name, then its id. *)
Definition content (name id : string) : value := VList [VStr name; VStr id].

(** A root with a workbook, one child with a data source, and a child id
    ("9") the index does not hold. *)
Definition idx_flat : gmap string (gmap string value) :=
  {[ "1" := project "Sales" [content "Q1" "101"] [] [VStr "2"; VStr "9"];
     "2" := project "EMEA Region" [] [content "Region" "201"] [] ]}.


Definition rank_flat (i : string) : nat :=
  if String.eqb i "1" then 1%nat else 0%nat.


(** A project that lists itself as its child. *)
Definition idx_loop : gmap string (gmap string value) :=
  {[ "1" := project "Loop" [] [] [VStr "1"] ]}.

End Scenario.

Module Cases.

Import Py Eff PosixPath TableauBackup Scenario.
Local Open Scope string_scope.



(** The second of three children has no ['Name']. *)
Definition idx_broken_child : gmap string (gmap string value) :=
  {[ "1" := project "Top" [] [] [VStr "2"; VStr "3"; VStr "4"];
     "2" := project "Left" [] [] [];
     "3" := {[ "Title" := VStr "Middle" ]};
     "4" := project "Right" [] [] [] ]}.

(** A project without ['Child Dirs']. *)
Definition idx_no_children_key : gmap string (gmap string value) :=
  {[ "1" := {[ "Name" := VStr "Top"; "Workbooks" := VList [];
               "Datasources" := VList [] ]} ]}.

(** A project with a workbook and a data source. *)
Definition sales : gmap string value :=
  project "Sales" [content "Q1" "101"] [content "Region" "201"] [].


(** A regular file stands where the directory of "Sales" should go. *)
Definition w_file_in_the_way : world :=
  World {[ "out/Sales" := File ["x"]%byte ]} [].


(** No password in the environment. *)
Definition env_no_password : environment :=
  Environment (Some "bob") None (Ret srv_ok) None None
              (fun fs0 => (fs0, None)) (Ret projects) None None None
              "2026-11-04 10:00:00".

(** The remote rejects the push. *)
Definition env_push_rejected : environment :=
  Environment (Some "bob") (Some "secret") (Ret srv_ok) None None
              (fun fs0 => (fs0, None)) (Ret projects) None None
              (Some (GitCommandError "failed to push some refs"))
              "2026-11-04 10:00:00".

(** The clone fails and the sign-out fails after it. *)
Definition env_sign_out_fails : environment :=
  Environment (Some "bob") (Some "secret") (Ret srv_ok) None
              (Some (RuntimeError "Connection reset"))
              (fun fs0 =>
                 (fs0, Some (GitCommandError
                               "destination path 'out' already exists")))
              (Ret projects) None None None "2026-11-04 10:05:00".

(** A YAML library on configurations of one base directory: the document
    is the base directory. *)
Definition yaml_base_dir : yaml :=
  Yaml (fun data =>
          Ret (Config "https://tableau.server.com"
                      "https://git.user.com/projects/test_proj"
                      (string_of_list_byte data)
                      "User" "user@outlook.com" (Some 4%Z) (Some false)))
       (fun cfg => list_byte_of_string (base_dir cfg)).

Definition no_env : string -> option string := fun _ => None.

Definition env_other : string -> option string :=
  fun k => if String.eqb k "GIT_AUTHOR_NAME" then Some "Alice" else None.

(** The name of the [i]-th of 1024 keys. *)
Definition key_of (i : nat) : string :=
  String (ascii_of_nat (65 + Nat.div i 32))
         (String (ascii_of_nat (65 + Nat.modulo i 32)) "").

(** A full memory: 1024 calls made before the project cache was built,
    the call with the id "1" the least recent of them. *)
Definition full_cache : list (string * gmap string value) :=
  (map (fun i => (key_of i, ∅)) (seq 0 1023) ++ [("1", ∅)])%list.

Definition self_listed : t :=
  Self cfg (Some srv_ok) (build_project_cache projects) 4%Z.

(** Futures complete in the reverse order of submission. *)
Definition lifo : scheduler :=
  Scheduler (fun l => rev l) (fun l => Permutation_sym (Permutation_rev l)).

(** The overwrite setting on, and a directory where the workbook "Sales"
    of the base directory should go. *)
Definition w_dir_at_target : world :=
  World {[ "out/Sales.twbx" := Dir ]} [].

End Cases.

(* ===================================================================== *)
(** * Facts                                                               *)
(* ===================================================================== *)

(** ** The digest: the test suite of RFC 1321 and two block boundaries *)

Example md5_empty :
  MD5.hexdigest [] = "d41d8cd98f00b204e9800998ecf8427e"%string.
Proof. vm_compute. reflexivity. Qed.

Example md5_abc :
  MD5.hexdigest (MD5.bytes_of_string "abc")
  = "900150983cd24fb0d6963f7d28e17f72"%string.
Proof. vm_compute. reflexivity. Qed.

Example md5_message_digest :
  MD5.hexdigest (MD5.bytes_of_string "message digest")
  = "f96b697d7cb7938d525a2f31aaf161d0"%string.
Proof. vm_compute. reflexivity. Qed.

Example md5_two_blocks :
  MD5.hexdigest (repeat "a"%byte 64)
  = "014842d480b571495a4a0363793f7367"%string.
Proof. vm_compute. reflexivity. Qed.

Example md5_pad_boundary :
  MD5.hexdigest (repeat "x"%byte 56)
  = "668a72d5ba17f08e62dabcafad6db14b"%string.
Proof. vm_compute. reflexivity. Qed.

Lemma hexdigest_length data : String.length (MD5.hexdigest data) = 32%nat.
Proof.
  unfold MD5.hexdigest.
  destruct (MD5.digest_state _) as [[[a b] c] d].
  reflexivity.
Qed.

Lemma hexdigest_nonempty data : MD5.hexdigest data <> ""%string.
Proof.
  intros H. pose proof (hexdigest_length data) as L.
  rewrite H in L. discriminate.
Qed.

(** ** Paths *)

Module PathFacts.
Import PosixPath Layout.
Local Open Scope string_scope.

Lemma split_slash_cons s : exists x xs, split_slash s = x :: xs.
Proof.
  induction s as [|c s [x [xs IH]]]; simpl; [by eauto|].
  destruct (is_slash c); [by eauto|]. rewrite IH. eauto.
Qed.

Lemma split_slash_no_slash s : no_slash s = true -> split_slash s = [s].
Proof.
  induction s as [|c s IH]; simpl; [done|].
  intros [Hc Hs]%andb_prop. apply negb_true_iff in Hc. rewrite Hc.
  by rewrite (IH Hs).
Qed.

Lemma split_slash_app x y :
  no_slash x = true ->
  split_slash (x ++ String "/" y) = x :: split_slash y.
Proof.
  induction x as [|c x IH]; simpl; [done|].
  intros [Hc Hs]%andb_prop. apply negb_true_iff in Hc. rewrite Hc.
  by rewrite (IH Hs).
Qed.

Lemma split_slash_parts s : Forall (fun x => no_slash x = true) (split_slash s).
Proof.
  induction s as [|c s IH]; simpl; [by repeat constructor|].
  destruct (is_slash c) eqn:Hc; [by constructor|].
  destruct (split_slash s) as [|x xs]; [by repeat constructor; simpl; rewrite ?Hc|].
  inversion IH; subst. constructor; [|done]. simpl. by rewrite Hc.
Qed.

Lemma keep_part_component s : no_slash s = true -> keep_part s = true -> component s.
Proof.
  unfold keep_part, component. intros Hs [H1 H2]%andb_prop.
  apply negb_true_iff, String.eqb_neq in H1, H2. done.
Qed.

Lemma component_keep s : component s -> keep_part s = true.
Proof.
  intros (_ & H1 & H2). unfold keep_part.
  apply String.eqb_neq in H1, H2. by rewrite H1, H2.
Qed.

Lemma root_of_cases s : root_of s = "" \/ root_of s = "/" \/ root_of s = "//".
Proof.
  destruct s as [|c1 [|c2 [|c3 s]]]; simpl; auto;
    repeat (match goal with |- context [if ?b then _ else _] => destruct b end); auto.
Qed.

Lemma Path_wf s : wf (Path s).
Proof.
  split; [apply root_of_cases|]. simpl.
  pose proof (split_slash_parts s) as H.
  induction H as [|x xs Hx _ IH]; simpl; [constructor|].
  destruct (keep_part x) eqn:Hk; [|done].
  constructor; [by apply keep_part_component|done].
Qed.

Lemma filter_split_join ps :
  Forall component ps -> List.filter keep_part (split_slash (join_parts ps)) = ps.
Proof.
  induction 1 as [|x xs Hx Hxs IH]; [done|].
  destruct xs as [|y ys].
  - simpl. destruct Hx as (Hn & ? & ?). rewrite (split_slash_no_slash _ Hn).
    simpl. by rewrite component_keep.
  - change (join_parts (x :: y :: ys)) with (x ++ String "/" (join_parts (y :: ys))).
    destruct Hx as (Hn & ? & ?). rewrite (split_slash_app _ _ Hn).
    cbn [List.filter]. rewrite component_keep by done. by rewrite IH.
Qed.

Lemma component_head s : component s -> exists c s', s = String c s' /\ is_slash c = false.
Proof.
  intros (Hn & Hne & _). destruct s as [|c s']; [done|].
  simpl in Hn. apply andb_prop in Hn as [Hc _]. apply negb_true_iff in Hc. eauto.
Qed.

Lemma join_parts_head x xs :
  component x -> exists c s', join_parts (x :: xs) = String c s' /\ is_slash c = false.
Proof.
  intros (c & s' & -> & Hc)%component_head.
  destruct xs; simpl; eauto.
Qed.

Lemma root_of_rel c s : is_slash c = false -> root_of (String c s) = "".
Proof. intros Hc. destruct s as [|c2 [|c3 s]]; simpl; by rewrite Hc. Qed.

Lemma split_slash_slash s : split_slash (String "/" s) = "" :: split_slash s.
Proof. reflexivity. Qed.

Lemma filter_keep_empty l :
  List.filter keep_part ("" :: l) = List.filter keep_part l.
Proof. reflexivity. Qed.

(** Parsing the string of a parsed path gives the path back. *)
Lemma str_rel_cons x xs : str (mk "" (x :: xs)) = join_parts (x :: xs).
Proof. reflexivity. Qed.

Lemma str_abs ps : str (mk "/" ps) = String "/" (join_parts ps).
Proof. reflexivity. Qed.

Lemma str_abs2 ps : str (mk "//" ps) = String "/" (String "/" (join_parts ps)).
Proof. reflexivity. Qed.

Lemma Path_str p : wf p -> Path (str p) = p.
Proof.
  destruct p as [r ps]. intros [Hr Hps]; simpl in Hr, Hps.
  destruct Hr as [-> | [-> | ->]].
  - destruct ps as [|x xs]; [done|].
    rewrite str_rel_cons. unfold Path.
    rewrite filter_split_join by done. f_equal.
    destruct (join_parts_head x xs) as (c & s' & -> & Hc); [by inversion Hps|].
    by apply root_of_rel.
  - rewrite str_abs. unfold Path.
    rewrite split_slash_slash, filter_keep_empty, filter_split_join by done.
    f_equal. destruct ps as [|x xs]; [done|].
    destruct (join_parts_head x xs) as (c & s' & -> & Hc); [by inversion Hps|].
    simpl. rewrite Hc. by destruct s'.
  - rewrite str_abs2. unfold Path.
    rewrite !split_slash_slash, !filter_keep_empty, filter_split_join by done.
    f_equal. destruct ps as [|x xs]; [done|].
    destruct (join_parts_head x xs) as (c & s' & -> & Hc); [by inversion Hps|].
    simpl. by rewrite Hc.
Qed.










End PathFacts.

(** ** The fingerprint and the download decision *)

Section Fetch.

Import Py Eff PosixPath TableauBackup Fetching.
Local Open Scope string_scope.

Lemma calculate_file_hash_pure filepath w :
  fst (calculate_file_hash filepath w) = w.
Proof.
  unfold calculate_file_hash.
  destruct (negb _); [done|]. by destruct (lookup_path _ _) as [[]|].
Qed.

Lemma calculate_file_hash_file filepath w data :
  lookup_path (fs w) filepath = Some (File data) ->
  calculate_file_hash filepath w = (w, Ret (MD5.hexdigest data)).
Proof. intros H. unfold calculate_file_hash, exists_. by rewrite H. Qed.

Lemma calculate_file_hash_absent filepath w :
  lookup_path (fs w) filepath = None ->
  calculate_file_hash filepath w = (w, Ret "").
Proof. intros H. unfold calculate_file_hash, exists_. by rewrite H. Qed.

Lemma calculate_file_hash_dir filepath w :
  lookup_path (fs w) filepath = Some Dir ->
  calculate_file_hash filepath w = (w, Raise (IsADirectoryError filepath)).
Proof. intros H. unfold calculate_file_hash, exists_. by rewrite H. Qed.

(** The fingerprint reads the file system and nothing else. *)
Lemma calculate_file_hash_fs filepath w1 w2 :
  lookup_path (fs w1) filepath = lookup_path (fs w2) filepath ->
  snd (calculate_file_hash filepath w1) = snd (calculate_file_hash filepath w2).
Proof.
  intros H. unfold calculate_file_hash, exists_. rewrite H.
  by destruct (lookup_path (fs w2) filepath) as [[]|].
Qed.

Lemma calculate_file_hash_inv filepath w w' h :
  calculate_file_hash filepath w = (w', Ret h) ->
  w' = w
  /\ (lookup_path (fs w) filepath = None /\ h = ""
      \/ exists data, lookup_path (fs w) filepath = Some (File data)
                      /\ h = MD5.hexdigest data).
Proof.
  unfold calculate_file_hash, exists_.
  destruct (lookup_path (fs w) filepath) as [[data|]|]; simpl;
    intros [= <- <-] || intros [=]; eauto.
Qed.

(** *** The three ways through [download] *)

Lemma download_skipped k self directory cid cname user w :
  should_download_file self (target k directory cname) cid w = (w, Ret false) ->
  download k self directory cid cname user w
  = (logged w (Log INFO ("Skipping existing " ++ noun k ++ ": " ++ cname)),
     Ret false).
Proof. intros H. unfold download, bind. fold (target k directory cname). by rewrite H. Qed.

Lemma download_returned k self directory cid cname user w w1 h0 h1 :
  should_download_file self (target k directory cname) cid w = (w, Ret true) ->
  calculate_file_hash (target k directory cname) w = (w, Ret h0) ->
  remote_download k self cid (target k directory cname) w = (w1, Ret tt) ->
  calculate_file_hash (target k directory cname) w1 = (w1, Ret h1) ->
  download k self directory cid cname user w
  = (if String.eqb h0 h1 then w1
     else logged w1 (Log INFO ("Downloaded " ++ noun k ++ ": " ++ cname)),
     Ret (negb (String.eqb h0 h1))).
Proof.
  intros H0 H1 H2 H3. unfold download, bind, try_except.
  fold (target k directory cname). rewrite H0. simpl. rewrite H1, H2, H3.
  by destruct (String.eqb h0 h1).
Qed.

Lemma download_remote_raised k self directory cid cname user w w1 h0 e :
  should_download_file self (target k directory cname) cid w = (w, Ret true) ->
  calculate_file_hash (target k directory cname) w = (w, Ret h0) ->
  remote_download k self cid (target k directory cname) w = (w1, Raise e) ->
  download k self directory cid cname user w
  = (logged w1 (failure_record k cname user e), Ret false).
Proof.
  intros H0 H1 H2. unfold download, bind, try_except.
  fold (target k directory cname). rewrite H0. simpl. rewrite H1, H2.
  unfold failure_record. by destruct (is_ServerResponseError e).
Qed.

(** [download] returns whatever happens inside. *)
Lemma download_total k self directory cid cname user w :
  exists w' b, download k self directory cid cname user w = (w', Ret b).
Proof.
  unfold download, bind, try_except. fold (target k directory cname).
  destruct (should_download_file _ _ _ w) as [w0 [go|e]] eqn:H0.
  2:{ unfold should_download_file in H0.
      destruct (_ && _) in H0; discriminate. }
  destruct go; simpl; [|by eauto].
  destruct (calculate_file_hash _ w0) as [wa [h0|e]]; simpl.
  2:{ destruct (is_ServerResponseError e); simpl; eauto. }
  destruct (remote_download _ _ _ _ wa) as [wb [[]|e]]; simpl.
  2:{ destruct (is_ServerResponseError e); simpl; eauto. }
  destruct (calculate_file_hash _ wb) as [wc [h1|e]]; simpl.
  2:{ destruct (is_ServerResponseError e); simpl; eauto. }
  destruct (String.eqb h0 h1); simpl; eauto.
Qed.


(** C5. The download decision is [false] exactly when overwriting is off
    and the target exists, [true] otherwise, and it leaves the world as it
    found it. *)
Theorem should_download_file_decision self filepath content_id w :
  exists b,
    should_download_file self filepath content_id w = (w, Ret b)
    /\ (b = false <->
        default false (overwrite_existing (config_ self)) = false
        /\ exists_ (fs w) filepath = true).
Proof.
  unfold should_download_file.
  destruct (default false _), (exists_ _ _); simpl;
    eexists; (split; [reflexivity|]); intuition congruence.
Qed.

(** C10. The download decision does not look at the content identifier:
    two identifiers give the same answer, and the answer is a function of
    the overwrite flag and of the existence of the target alone. *)
Theorem should_download_file_ignores_content_id :
  (forall self filepath id1 id2 w,
      should_download_file self filepath id1 w
      = should_download_file self filepath id2 w)
  /\ exists decision : bool -> bool -> bool,
      forall self filepath content_id w,
        should_download_file self filepath content_id w
        = (w, Ret (decision
                     (default false (overwrite_existing (config_ self)))
                     (exists_ (fs w) filepath))).
Proof.
  split; [done|].
  exists (fun overwrite present => negb (negb overwrite && present)).
  intros. unfold should_download_file. by destruct (_ && _).
Qed.

(** C6. Two files with the same bytes have the same fingerprint, wherever
    and whenever they are read; the fingerprint of a missing file is the
    empty string, which is the fingerprint of no file. *)
Theorem fingerprint_deterministic_sentinel_distinct :
  (forall w1 w2 p1 p2 data,
      lookup_path (fs w1) p1 = Some (File data) ->
      lookup_path (fs w2) p2 = Some (File data) ->
      calculate_file_hash p1 w1 = (w1, Ret (MD5.hexdigest data))
      /\ calculate_file_hash p2 w2 = (w2, Ret (MD5.hexdigest data)))
  /\ (forall w p,
         lookup_path (fs w) p = None ->
         calculate_file_hash p w = (w, Ret ""))
  /\ (forall w p data,
         lookup_path (fs w) p = Some (File data) ->
         snd (calculate_file_hash p w) <> Ret "").
Proof.
  split; [|split].
  - intros. split; by apply calculate_file_hash_file.
  - intros. by apply calculate_file_hash_absent.
  - intros w p data H. rewrite (calculate_file_hash_file _ _ _ H). simpl.
    intros [= E]. by apply hexdigest_nonempty in E.
Qed.

Lemma fingerprint_deterministic_sentinel_distinct_witness :
  calculate_file_hash "out/Sales/Q1.twbx" Scenario.w_mirrored
  = (Scenario.w_mirrored, Ret "900150983cd24fb0d6963f7d28e17f72")
  /\ calculate_file_hash "out/Sales/Q2.twbx" Scenario.w_mirrored
     = (Scenario.w_mirrored, Ret "")
  /\ snd (calculate_file_hash "out/Sales/Q1.twbx" Scenario.w_mirrored)
     <> Ret "".
Proof.
  destruct fingerprint_deterministic_sentinel_distinct as (Hsame & Habsent & Hne).
  split; [|split].
  - exact (proj1 (Hsame Scenario.w_mirrored Scenario.w_copy
                        "out/Sales/Q1.twbx" "elsewhere/copy.bin"
                        ["a"; "b"; "c"]%byte eq_refl eq_refl)).
  - exact (Habsent Scenario.w_mirrored "out/Sales/Q2.twbx" eq_refl).
  - exact (Hne Scenario.w_mirrored "out/Sales/Q1.twbx" ["a"; "b"; "c"]%byte
               eq_refl).
Defined.


(** *** The changed flag *)

(** C1, as the code has it.  A fetch that is not skipped and whose download
    call returns reports [changed = true] exactly when the digest taken
    after the call differs from the digest taken before it; so equal bytes
    before and after give [false], and a file that was missing and is there
    afterwards gives [true].  A fetch whose download call raises reports
    [false], whatever the call did to the file. *)
Theorem download_changed_flag k self directory cid cname user w w1 r :
  should_download_file self (target k directory cname) cid w = (w, Ret true) ->
  remote_download k self cid (target k directory cname) w = (w1, r) ->
  exists w' b,
    download k self directory cid cname user w = (w', Ret b)
    /\ match r with
       | Raise _ => b = false
       | Ret _ =>
           forall h0 h1,
             calculate_file_hash (target k directory cname) w = (w, Ret h0) ->
             calculate_file_hash (target k directory cname) w1 = (w1, Ret h1) ->
             fs w' = fs w1
             /\ (b = true <-> h0 <> h1)
             /\ (lookup_path (fs w) (target k directory cname)
                 = lookup_path (fs w1) (target k directory cname) ->
                 b = false)
             /\ (lookup_path (fs w) (target k directory cname) = None ->
                 lookup_path (fs w1) (target k directory cname) <> None ->
                 b = true)
       end.
Proof.
  intros Hgo Hdl.
  destruct (calculate_file_hash (target k directory cname) w)
    as [wa [h0|e0]] eqn:Hh0.
  2:{ (* the first fingerprint raises: the handler answers *)
      exists (logged wa (failure_record k cname user e0)), false. split.
      - unfold download, bind, try_except. fold (target k directory cname).
        rewrite Hgo. simpl. rewrite Hh0. unfold failure_record.
        by destruct (is_ServerResponseError e0).
      - destruct r; [|done]. intros h0 h1 [=]. }
  pose proof (calculate_file_hash_pure (target k directory cname) w) as Hp.
  rewrite Hh0 in Hp. simpl in Hp. subst wa.
  destruct r as [[]|e].
  - destruct (calculate_file_hash (target k directory cname) w1)
      as [wb [h1|e1]] eqn:Hh1.
    + pose proof (calculate_file_hash_pure (target k directory cname) w1) as Hq.
      rewrite Hh1 in Hq. simpl in Hq. subst wb.
      eexists _, _. split; [by eapply download_returned|].
      intros h0' h1' [= <-] [= <-]. split; [by destruct (String.eqb h0 h1)|].
      split; [|split].
      * destruct (String.eqb_spec h0 h1); simpl; split; congruence.
      * intros Hsame.
        pose proof (calculate_file_hash_fs _ _ _ Hsame) as E.
        rewrite Hh0, Hh1 in E. simpl in E. injection E as ->.
        by rewrite String.eqb_refl.
      * intros Hnone Hsome.
        apply calculate_file_hash_inv in Hh0 as [_ [[_ ->]|(d & Hd & _)]];
          [|congruence].
        apply calculate_file_hash_inv in Hh1 as [_ [[Hn _]|(d & Hd & ->)]];
          [done|].
        destruct (String.eqb_spec "" (MD5.hexdigest d)) as [E|]; [|done].
        symmetry in E. by apply hexdigest_nonempty in E.
    + exists (logged wb (failure_record k cname user e1)), false. split.
      * unfold download, bind, try_except. fold (target k directory cname).
        rewrite Hgo. simpl. rewrite Hh0, Hdl, Hh1. unfold failure_record.
        by destruct (is_ServerResponseError e1).
      * intros h0' h1' _ [=].
  - eexists _, _. split; [by eapply download_remote_raised|done].
Qed.

Lemma download_changed_flag_witness :
  exists w' b,
    download Workbook Scenario.self_overwrite "out/Sales" "101" "Q1"
             (Some "bob") Scenario.w_mirrored = (w', Ret b)
    /\ b = false.
Proof.
  destruct (download_changed_flag
              Workbook Scenario.self_overwrite "out/Sales" "101" "Q1"
              (Some "bob") Scenario.w_mirrored
              (logged Scenario.w_mirrored
                      (RemoteDownload Workbook "101" "out/Sales/Q1.twbx"))
              (Ret tt))
    as (w' & b & Hrun & Hflag).
  - reflexivity.
  - vm_compute. reflexivity.
  - exists w', b. split; [exact Hrun|].
    eapply (Hflag _ _ eq_refl eq_refl). reflexivity.
Defined.

(** C1 fails when the download call raises after it wrote to the file: the
    fetch is not skipped, the bytes (and the digests) differ before and
    after, and the fetch reports [changed = false]. *)
Lemma download_changed_flag_counterexample :
  should_download_file Scenario.self_broken "out/Sales/Q1.twbx" "101"
                       Scenario.w_empty
  = (Scenario.w_empty, Ret true)
  /\ exists w',
      download_workbook Scenario.self_broken "out/Sales" "101" "Q1"
                        (Some "bob") Scenario.w_empty
      = (w', Ret false)
      /\ lookup_path (fs Scenario.w_empty) "out/Sales/Q1.twbx" = None
      /\ lookup_path (fs w') "out/Sales/Q1.twbx" = Some (File ["a"]%byte)
      /\ snd (calculate_file_hash "out/Sales/Q1.twbx" Scenario.w_empty)
         <> snd (calculate_file_hash "out/Sales/Q1.twbx" w').
Proof.
  split; [reflexivity|]. eexists. split; [vm_compute; reflexivity|].
  split; [reflexivity|]. split; [reflexivity|]. vm_compute. discriminate.
Qed.

End Fetch.
(** ** The run *)

Section RunFacts.

Import Py Eff PosixPath TableauBackup Run.
Local Open Scope string_scope.
Local Open Scope list_scope.

Variable sched : scheduler.

Lemma for_each_emit_results (cs : list coroutine) (s : run_state) :
  for_each cs (fun c => in_world (emit (Result c))) s
  = ((fst s, World (fs (snd s)) (trace (snd s) ++ map Result cs)), Ret tt).
Proof.
  revert s. induction cs as [|c cs IH]; intros [self w]; simpl.
  - unfold ret. by rewrite app_nil_r; destruct w.
  - unfold bind, in_world, emit. simpl. rewrite IH. simpl.
    by rewrite <- app_assoc.
Qed.

Lemma map_m_submit_root cache dir user (ps : list project_item) (s : run_state) :
  map_m (submit_root cache dir user) ps s
  = ((fst s,
      World (fs (snd s))
            (trace (snd s)
             ++ map (fun p => Submit (Coro_create_and_fill_child_dir
                                        cache dir (id p) user)) ps)),
     Ret (map (fun p => Coro_create_and_fill_child_dir cache dir (id p) user)
              ps)).
Proof.
  revert s. induction ps as [|p ps IH]; intros [self w]; simpl.
  - unfold ret. by rewrite app_nil_r; destruct w.
  - unfold bind, submit_root, bind, in_world, emit, ret. simpl.
    rewrite IH. simpl. by rewrite <- app_assoc.
Qed.

Lemma commit_and_push_changes_run env (s : run_state) :
  _commit_and_push_changes env s
  = ((fst s,
      World (fs (snd s))
            (trace (snd s) ++ Committer :: fst (commit_tail env))),
     snd (commit_tail env)).
Proof.
  destruct s as [self w]. unfold _commit_and_push_changes, commit_tail.
  unfold bind, try_except, in_world, emit, outcome, ret, raise. simpl.
  destruct (git_add env), (index_commit env), (git_push env); simpl;
    rewrite <- ?app_assoc; reflexivity.
Qed.


Lemma commit_tail_quiet env : Forall quiet (fst (commit_tail env)).
Proof.
  unfold commit_tail.
  destruct (git_add env), (index_commit env), (git_push env); simpl;
    repeat constructor.
Qed.

(** A run whose setup succeeds: the setup, the pool, the committer, the
    sign-out. *)
Lemma backup_tableau_run env self w srv fs1 projects :
  not_str (TABLEAU_USERNAME env) = false ->
  not_str (TABLEAU_PASSWORD env) = false ->
  new_server env = Ret srv ->
  sign_in env = None ->
  clone_from env (fs w) = (fs1, None) ->
  pager_projects env = Ret projects ->
  (0 < max_workers self)%Z ->
  exists self' w' r tail,
    backup_tableau sched env (self, w) = ((self', w'), r)
    /\ trace w'
       = trace w
         ++ (setup_events self
             ++ map Submit (map (root_task env self projects)
                                (root_projects projects))
             ++ map Result (as_completed sched
                              (map (root_task env self projects)
                                   (root_projects projects))))
         ++ Committer :: tail
    /\ Forall quiet tail.
Proof.
  intros Hu Hp Hsrv Hin Hclone Hlist Hmw.
  unfold backup_tableau, try_finally, try_except at 1.
  unfold bind at 1. unfold connect_to_tableau, try_except.
  rewrite Hu, Hp. simpl. unfold bind at 1. unfold lift. rewrite Hsrv.
  unfold bind, set_self, in_world, emit, outcome, get_self, clone. simpl.
  rewrite Hin. unfold ret. simpl. rewrite Hclone. simpl.
  rewrite Hlist. simpl. unfold ThreadPoolExecutor.
  destruct (Z.leb_spec (max_workers self) 0) as [|_]; [lia|].
  unfold ret. simpl.
  rewrite map_m_submit_root. simpl.
  rewrite for_each_emit_results. simpl.
  rewrite commit_and_push_changes_run. simpl.
  pose proof (commit_tail_quiet env) as Hq.
  destruct (commit_tail env) as [tl [[]|e]]; simpl in *.
  - destruct (sign_out env) as [e|]; simpl.
    + eexists _, _, _, (tl ++ [SignOut]). split; [reflexivity|]. simpl. split.
      * unfold root_task. rewrite map_map.
        repeat (rewrite <- List.app_assoc; simpl). reflexivity.
      * apply Forall_app. split; [done|]. by repeat constructor.
    + eexists _, _, _, (tl ++ [SignOut]). split; [reflexivity|]. simpl. split.
      * unfold root_task. rewrite map_map.
        repeat (rewrite <- List.app_assoc; simpl). reflexivity.
      * apply Forall_app. split; [done|]. by repeat constructor.
  - unfold raise. simpl.
    destruct (sign_out env) as [e'|]; simpl.
    + eexists _, _, _, (tl ++ [Log ERROR ("Backup failed: " ++ exn_str e)%string; SignOut]).
      split; [reflexivity|]. simpl. split.
      * unfold root_task. rewrite map_map.
        repeat (rewrite <- List.app_assoc; simpl). reflexivity.
      * apply Forall_app. split; [done|]. by repeat constructor.
    + eexists _, _, _, (tl ++ [Log ERROR ("Backup failed: " ++ exn_str e)%string; SignOut]).
      split; [reflexivity|]. simpl. split.
      * unfold root_task. rewrite map_map.
        repeat (rewrite <- List.app_assoc; simpl). reflexivity.
      * apply Forall_app. split; [done|]. by repeat constructor.
Qed.


Lemma committer_calls_app evs1 evs2 :
  committer_calls (evs1 ++ evs2) = (committer_calls evs1 + committer_calls evs2)%nat.
Proof. unfold committer_calls. by rewrite List.filter_app, length_app. Qed.

Lemma committer_calls_quiet evs : Forall quiet evs -> committer_calls evs = 0%nat.
Proof.
  unfold committer_calls. induction 1 as [|ev evs [Hc _] _ IH]; [done|].
  simpl. by rewrite Hc.
Qed.

Lemma committer_calls_map_Submit cs : committer_calls (map Submit cs) = 0%nat.
Proof. unfold committer_calls. by induction cs. Qed.

Lemma committer_calls_map_Result cs : committer_calls (map Result cs) = 0%nat.
Proof. unfold committer_calls. by induction cs. Qed.

Ltac finish_failed_run :=
  unfold raise, bind, in_world, emit, get_self, ret, outcome; simpl;
  repeat match goal with
         | |- context [match server_ ?s with _ => _ end] =>
             destruct (server_ s); simpl
         | |- context [match sign_out ?e with _ => _ end] =>
             destruct (sign_out e); simpl
         end;
  (eexists _, _, _, _; split; [reflexivity|]; simpl;
   split; [repeat (rewrite <- List.app_assoc; simpl); reflexivity|];
   split; [done|repeat constructor]).

(** A run whose setup fails raises before it reaches the pool. *)
Lemma backup_tableau_setup_fails env self w :
  setup_ok env self w = false ->
  exists self' w' e evs,
    backup_tableau sched env (self, w) = ((self', w'), Raise e)
    /\ trace w' = trace w ++ evs
    /\ committer_calls evs = 0%nat
    /\ Forall idle evs.
Proof.
  unfold setup_ok. intros Hsetup.
  unfold backup_tableau, try_finally, try_except at 1.
  unfold bind at 1. unfold connect_to_tableau, try_except.
  destruct (not_str (TABLEAU_USERNAME env)); simpl in *;
    [finish_failed_run|].
  destruct (not_str (TABLEAU_PASSWORD env)); simpl in *;
    [finish_failed_run|].
  unfold bind at 1. unfold lift.
  destruct (new_server env) as [srv|e]; simpl in *;
    [|finish_failed_run].
  unfold bind, set_self, in_world, emit, outcome, get_self, clone. simpl.
  destruct (sign_in env) as [e|]; simpl in *; [finish_failed_run|].
  unfold ret. simpl.
  destruct (clone_from env (fs w)) as [fs1 [e|]]; simpl in *;
    [finish_failed_run|].
  destruct (pager_projects env) as [projects|e]; simpl in *;
    [|finish_failed_run].
  unfold ThreadPoolExecutor.
  destruct (Z.leb_spec (max_workers self) 0) as [Hle|Hlt].
  2:{ apply Z.ltb_lt in Hlt. congruence. }
  finish_failed_run.
Qed.


(** The pool of the run holds coroutine objects and the run never awaits
    them: a run makes no directory, visits no project and asks the server for
    no download. *)
Lemma run_never_walks env self w :
  exists self' w' r evs,
    backup_tableau sched env (self, w) = ((self', w'), r)
    /\ trace w' = trace w ++ evs
    /\ Forall idle evs.
Proof.
  destruct (setup_ok env self w) eqn:Hsetup.
  2:{ destruct (backup_tableau_setup_fails env self w Hsetup)
        as (self' & w' & e & evs & Hrun & Htr & _ & Hidle).
      by exists self', w', (Raise e), evs. }
  unfold setup_ok in Hsetup.
  repeat (apply andb_prop in Hsetup as [Hsetup ?]).
  destruct (new_server env) as [srv|] eqn:Hsrv; [|done].
  destruct (sign_in env) eqn:Hin; [done|].
  destruct (clone_from env (fs w)) as [fs1 [|]] eqn:Hclone; [done|].
  destruct (pager_projects env) as [projects|] eqn:Hlist; [|done].
  destruct (backup_tableau_run env self w srv fs1 projects)
    as (self' & w' & r & tail & Hrun & Htr & Hq);
    [by apply negb_true_iff..|done|done|done|done|by apply Z.ltb_lt|].
  exists self', w', r. eexists. split; [done|]. split; [exact Htr|].
  repeat (apply Forall_app; split); [by repeat constructor| | |].
  - apply List.Forall_forall. by intros ev (c & <- & _)%in_map_iff.
  - apply List.Forall_forall. by intros ev (c & <- & _)%in_map_iff.
  - constructor; [done|]. eapply Forall_impl; [exact Hq|].
    intros ev [_ Hev]. by destruct ev.
Qed.

(** C4, as the code has it.  A run whose setup succeeds enters the
    committer exactly once, after every task given to the pool was
    submitted and handed back, and nothing the pool does comes after it; a
    run whose setup fails never enters the committer. *)
Theorem committer_once_after_the_pool env self w :
  exists self' w' r evs,
    backup_tableau sched env (self, w) = ((self', w'), r)
    /\ trace w' = trace w ++ evs
    /\ if setup_ok env self w then
         committer_calls evs = 1%nat
         /\ exists before after,
             evs = before ++ Committer :: after
             /\ Forall (fun ev => is_pool_work ev = false) after
             /\ forall projects proj,
                 pager_projects env = Ret projects ->
                 proj ∈ root_projects projects ->
                 Submit (root_task env self projects proj) ∈ before
                 /\ Result (root_task env self projects proj) ∈ before
       else committer_calls evs = 0%nat.
Proof.
  destruct (setup_ok env self w) eqn:Hsetup.
  2:{ destruct (backup_tableau_setup_fails env self w Hsetup)
        as (self' & w' & e & evs & Hrun & Htr & Hc & _).
      by exists self', w', (Raise e), evs. }
  unfold setup_ok in Hsetup.
  repeat (apply andb_prop in Hsetup as [Hsetup ?]).
  destruct (new_server env) as [srv|] eqn:Hsrv; [|done].
  destruct (sign_in env) eqn:Hin; [done|].
  destruct (clone_from env (fs w)) as [fs1 [|]] eqn:Hclone; [done|].
  destruct (pager_projects env) as [projects|] eqn:Hlist; [|done].
  destruct (backup_tableau_run env self w srv fs1 projects)
    as (self' & w' & r & tail & Hrun & Htr & Hq);
    [by apply negb_true_iff..|done|done|done|done|by apply Z.ltb_lt|].
  exists self', w', r. eexists. split; [done|]. split; [exact Htr|].
  split.
  - rewrite !committer_calls_app, committer_calls_map_Submit,
      committer_calls_map_Result. simpl.
    change (Committer :: tail) with ([Committer] ++ tail).
    rewrite committer_calls_app, (committer_calls_quiet tail Hq). done.
  - eexists _, tail. split; [reflexivity|]. split.
    + eapply Forall_impl; [exact Hq|]. by intros ev [_ ?].
    + intros ? proj [= <-] Hproj.
      assert (root_task env self projects proj
              ∈ map (root_task env self projects) (root_projects projects))
        as Hin' by (by apply list_elem_of_fmap_2).
      split.
      * apply elem_of_app. right. apply elem_of_app. left.
        by apply list_elem_of_fmap_2.
      * apply elem_of_app. right. apply elem_of_app. right.
        apply list_elem_of_fmap_2.
        by rewrite (as_completed_perm sched).
Qed.

End RunFacts.

Lemma committer_once_after_the_pool_witness :
  exists self' w' r evs,
    TableauBackup.backup_tableau
      Scenario.fifo Scenario.env_ok
      (TableauBackup.init Scenario.cfg, Scenario.w_empty)
    = ((self', w'), r)
    /\ TableauBackup.trace w' = evs
    /\ Run.committer_calls evs = 1%nat.
Proof.
  destruct (committer_once_after_the_pool
              Scenario.fifo Scenario.env_ok
              (TableauBackup.init Scenario.cfg) Scenario.w_empty)
    as (self' & w' & r & evs & Hrun & Htr & Hc).
  exists self', w', r, evs. split; [exact Hrun|]. split; [exact Htr|].
  exact (proj1 Hc).
Defined.

(** C4 fails for a run whose clone raises: the run ends with the exception
    and the committer is never entered. *)
Lemma committer_once_counterexample :
  exists self' w' e,
    TableauBackup.backup_tableau
      Scenario.fifo Scenario.env_second_run
      (TableauBackup.init Scenario.cfg, Scenario.w_empty)
    = ((self', w'), Py.Raise e)
    /\ Run.committer_calls (TableauBackup.trace w') = 0%nat.
Proof. eexists _, _, _. split; vm_compute; reflexivity. Qed.
(** ** The walker *)

Section WalkFacts.

Import Py Eff PosixPath TableauBackup Layout Walk.
Local Open Scope string_scope.
Local Open Scope list_scope.

Variable sched : scheduler.

(** *** Composing what computations may do *)

Lemma grows_refl P w : grows P w w.
Proof. split; [|done]. exists []. by rewrite app_nil_r. Qed.

Lemma grows_trans P w1 w2 w3 : grows P w1 w2 -> grows P w2 w3 -> grows P w1 w3.
Proof.
  intros [(e1 & E1 & F1) K1] [(e2 & E2 & F2) K2]. split.
  - exists (e1 ++ e2). rewrite E2, E1, <- List.app_assoc. split; [done|].
    by apply Forall_app.
  - eauto.
Qed.

Lemma grows_impl (P P' : event -> Prop) w w' :
  (forall ev, P ev -> P' ev) -> grows P w w' -> grows P' w w'.
Proof.
  intros HP [(evs & E & F) K]. split; [|done]. exists evs. split; [done|].
  eapply Forall_impl; eauto.
Qed.

Lemma sat_ret {A} P (Q : A -> Prop) a : Q a -> sat P Q (ret a).
Proof. intros HQ w. split; [apply grows_refl|done]. Qed.

Lemma sat_raise {A} P (Q : A -> Prop) e : sat P Q (raise e).
Proof. intros w. split; [apply grows_refl|done]. Qed.

Lemma sat_lift {A} P (Q : A -> Prop) (r : res A) :
  (forall a, r = Ret a -> Q a) -> sat P Q (lift r).
Proof. intros HQ w. split; [apply grows_refl|]. simpl. destruct r; auto. Qed.

Lemma sat_bind {A B} P (Q : A -> Prop) (R : B -> Prop) m (k : A -> M world B) :
  sat P Q m -> (forall a, Q a -> sat P R (k a)) -> sat P R (bind m k).
Proof.
  intros Hm Hk w. unfold bind. specialize (Hm w).
  destruct (m w) as [w1 [a|e]]; simpl in *; [|by destruct Hm].
  destruct Hm as [G1 Ha]. specialize (Hk a Ha w1).
  destruct (k a w1) as [w2 r]; simpl in *. destruct Hk as [G2 Hr].
  split; [by eapply grows_trans|done].
Qed.

Lemma sat_emit (P : event -> Prop) ev : P ev -> sat P (fun _ => True) (emit ev).
Proof.
  intros HP w. split; [|done]. split; [|done]. exists [ev]. simpl.
  split; [done|]. by constructor.
Qed.

Lemma sat_weaken {A} (P P' : event -> Prop) (Q Q' : A -> Prop) m :
  (forall ev, P ev -> P' ev) -> (forall a, Q a -> Q' a) ->
  sat P Q m -> sat P' Q' m.
Proof.
  intros HP HQ Hm w. destruct (Hm w) as [G R]. split; [by eapply grows_impl|].
  destruct (snd (m w)); auto.
Qed.

Lemma sat_for_each {A} P (l : list A) (body : A -> M world unit) :
  (forall x, x ∈ l -> sat P (fun _ => True) (body x)) ->
  sat P (fun _ => True) (for_each l body).
Proof.
  induction l as [|x l IH]; intros Hb; simpl; [by apply sat_ret|].
  eapply sat_bind; [apply Hb; left|]. intros _ _. apply IH.
  intros y Hy. apply Hb. by right.
Qed.

Lemma sat_map_m {A B} P (Q : B -> Prop) (body : A -> M world B) (l : list A) :
  (forall x, x ∈ l -> sat P Q (body x)) ->
  sat P (Forall Q) (map_m body l).
Proof.
  induction l as [|x l IH]; intros Hb; simpl; [by apply sat_ret|].
  eapply sat_bind; [apply Hb; left|]. intros y Hy.
  eapply sat_bind; [apply IH; intros z Hz; apply Hb; by right|].
  intros ys Hys. apply sat_ret. by constructor.
Qed.

(** *** [mkdir] *)

Lemma mkdir_prefixes_files target ps fs0 k data :
  fst (mkdir_prefixes target ps fs0) !! k = Some (File data) ->
  fs0 !! k = Some (File data).
Proof.
  revert fs0. induction ps as [|p ps IH]; intros fs0; simpl; [done|].
  destruct (lookup_path fs0 (str p)) as [[d|]|] eqn:Hl; simpl; [done|by apply IH|].
  intros H%IH. destruct (decide (norm (str p) = k)) as [<-|Hne].
  - by rewrite lookup_insert_eq in H.
  - by rewrite lookup_insert_ne in H.
Qed.

Lemma sat_mkdir (P : event -> Prop) d :
  P (Mkdir (str d)) -> sat P (fun _ => True) (mkdir d).
Proof.
  intros HP w. unfold mkdir.
  destruct (mkdir_prefixes _ _ _) as [fs' r] eqn:Hm. simpl.
  split; [|by destruct r]. split.
  - exists [Mkdir (str d)]. split; [done|]. by constructor.
  - intros k data Hk. apply (mkdir_prefixes_files (str d) (prefixes d)).
    by rewrite Hm.
Qed.

Lemma sat_ThreadPoolExecutor P n : sat P (fun _ => True) (ThreadPoolExecutor n).
Proof.
  unfold ThreadPoolExecutor. destruct (n <=? 0)%Z;
    [apply sat_raise|by apply sat_ret].
Qed.


(** *** [process_project_content] *)

Lemma sat_submit_download base n user task :
  sat (content_event base n)
      (fun c => content_event base n (Result c))
      (submit_download (str (project_dir base n)) user task).
Proof.
  destruct task as [k content]. unfold submit_download.
  eapply sat_bind; [by apply (sat_lift _ (fun _ => True))|]. intros cid _.
  eapply sat_bind; [by apply (sat_lift _ (fun _ => True))|]. intros cname _.
  eapply sat_bind; [by apply sat_emit|]. intros _ _. by apply sat_ret.
Qed.

Lemma sat_process_project_content self project base user :
  sat (fun ev => exists n, project !! "Name" = Some (VStr n)
                           /\ content_event base n ev)
      (fun _ => True)
      (process_project_content sched self project base user).
Proof.
  unfold process_project_content, getitem.
  destruct (project !! "Name") as [[|n|l]|] eqn:Hname;
    try (intros w; split; [apply grows_refl|done]).
  eapply sat_weaken with (P := content_event base n) (Q := fun _ => True);
    [by eauto|done|].
  eapply sat_bind; [by apply (sat_lift _ (fun v => v = VStr n)); intros ? [=]|].
  intros ? ->. simpl replace.
  eapply sat_bind; [by apply (sat_lift _ (fun s => s = replace_space n)); intros ? [=]|].
  intros ? ->.
  eapply sat_bind; [by apply sat_mkdir|]. intros _ _.
  eapply sat_bind; [by apply (sat_lift _ (fun _ => True))|]. intros wb _.
  eapply sat_bind; [by apply (sat_lift _ (fun _ => True))|]. intros wbs _.
  eapply sat_bind; [by apply (sat_lift _ (fun _ => True))|]. intros ds _.
  eapply sat_bind; [by apply (sat_lift _ (fun _ => True))|]. intros dss _.
  eapply sat_bind; [apply sat_ThreadPoolExecutor|]. intros _ _.
  eapply sat_bind.
  { apply sat_map_m. intros task _. apply sat_submit_download. }
  intros futures Hf.
  eapply sat_bind; [|intros _ _; by apply sat_ret].
  apply sat_for_each. intros c Hc. apply sat_emit.
  rewrite List.Forall_forall in Hf. apply Hf. apply list_elem_of_In.
  by rewrite <- (as_completed_perm sched futures).
Qed.


(** *** The walker only emits walk events *)

Lemma await_each_grows P rec cs :
  (forall c w w' r, rec c w = Some (w', r) -> grows P w w') ->
  forall w w' r, await_each rec cs w = Some (w', r) -> grows P w w'.
Proof.
  intros Hrec. induction cs as [|c cs IH]; intros w w' r; simpl.
  - intros [= <- _]. apply grows_refl.
  - destruct (rec c w) as [[w1 [[]|e]]|] eqn:Hc; [|intros [= <- _]; eauto|done].
    intros H. eapply grows_trans; [by eapply Hrec|by eapply IH].
Qed.

Lemma dict_get_Some idx cid proj :
  dict_get idx cid = Ret (Some proj) ->
  exists i, cid = VStr i /\ idx !! i = Some proj.
Proof. destruct cid; simpl; intros [=]; eauto. Qed.

Lemma sat_visit_project self idx base user cid proj :
  dict_get idx cid = Ret (Some proj) ->
  falsy (Some proj) = false ->
  sat (walk_event idx base) (fun _ => True)
      (visit_project sched self proj base cid user).
Proof.
  intros (i & -> & Hi)%dict_get_Some Hf. unfold visit_project.
  eapply sat_bind;
    [apply sat_emit; exists i; split; [done|]; by exists proj|]. intros _ _.
  eapply sat_bind.
  { eapply sat_weaken; [| |apply sat_process_project_content]; [|done].
    intros ev (n & Hn & Hev). destruct ev; try done; simpl; eauto 10. }
  intros _ _.
  eapply sat_bind; [by apply (sat_lift _ (fun _ => True))|]. intros dirs _.
  by apply (sat_lift _ (fun _ => True)).
Qed.

Lemma walk_grows self idx base user fuel :
  forall cid w w' r,
    create_and_fill_child_dir sched fuel self idx base cid user w = Some (w', r) ->
    grows (walk_event idx base) w w'.
Proof.
  induction fuel as [|fuel IH]; intros cid w w' r; simpl; [done|].
  destruct (dict_get idx cid) as [proj|e] eqn:Hget;
    [|intros [= <- _]; apply grows_refl].
  destruct (falsy proj) eqn:Hf; [intros [= <- _]; apply grows_refl|].
  destruct proj as [proj|]; [|done]. simpl default.
  pose proof (sat_visit_project self idx base user cid proj Hget Hf w) as [G _].
  destruct (visit_project _ _ _ _ _ _ w) as [w1 [children|e]]; simpl in G.
  - intros H. eapply grows_trans; [exact G|].
    eapply await_each_grows; [|exact H]. intros c; apply IH.
  - by intros [= <- _].
Qed.


(** *** Where the directories and the files go *)






(** *** Walking a tree of the index *)


Lemma mkdir_prefixes_clear target ps fs0 :
  (forall q data, q ∈ ps -> lookup_path fs0 (str q) <> Some (File data)) ->
  snd (mkdir_prefixes target ps fs0) = None.
Proof.
  revert fs0. induction ps as [|p ps IH]; intros fs0 Hc; simpl; [done|].
  destruct (lookup_path fs0 (str p)) as [[d|]|] eqn:Hl.
  - exfalso. eapply Hc; [left|done].
  - apply IH. intros q data Hq. apply Hc. by right.
  - apply IH. intros q data Hq. unfold lookup_path.
    destruct (decide (norm (str p) = norm (str q))) as [E|Hne].
    + by rewrite E, lookup_insert_eq.
    + rewrite lookup_insert_ne by done. apply Hc. by right.
Qed.

Lemma mkdir_returns d w :
  mkdir_clear (fs w) d -> exists w', mkdir d w = (w', Ret tt).
Proof.
  intros Hc. unfold mkdir.
  pose proof (mkdir_prefixes_clear (str d) (prefixes d) (fs w) Hc) as Hm.
  destruct (mkdir_prefixes _ _ _) as [fs' r]. simpl in Hm. subst r. eauto.
Qed.

Lemma submit_download_returns d user k c a b w :
  index c 1 = Ret a -> index c 0 = Ret b ->
  submit_download d user (k, c) w
  = (World (fs w) (trace w ++ [Submit (Coro_download k d a b user)]),
     Ret (Coro_download k d a b user)).
Proof.
  intros Ha Hb. unfold submit_download, bind, lift, emit, ret.
  by rewrite Ha, Hb.
Qed.

Lemma map_m_submit_returns d user tasks :
  Forall (fun task : kind * value =>
            exists a b, index (snd task) 1 = Ret a /\ index (snd task) 0 = Ret b)
         tasks ->
  forall w, exists w' cs, map_m (submit_download d user) tasks w = (w', Ret cs).
Proof.
  induction 1 as [|[k c] tasks (a & b & Ha & Hb) _ IH]; intros w.
  - simpl. unfold ret. eauto.
  - cbn [map_m]. unfold bind at 1.
    rewrite (submit_download_returns d user k c a b w Ha Hb).
    unfold bind at 1.
    destruct (IH (World (fs w) (trace w ++ [Submit (Coro_download k d a b user)])))
      as (w' & cs & ->). unfold ret. eauto.
Qed.

Lemma for_each_emit_returns cs w :
  exists w', for_each cs (fun c => emit (Result c)) w = (w', Ret tt).
Proof.
  revert w. induction cs as [|c cs IH]; intros w; simpl; [unfold ret; eauto|].
  unfold bind, emit. simpl. apply IH.
Qed.

Lemma contents_tasks k v l :
  iter v = Ret l ->
  Forall (fun c => exists a b, index c 1 = Ret a /\ index c 0 = Ret b) l ->
  Forall (fun task : kind * value =>
            exists a b, index (snd task) 1 = Ret a /\ index (snd task) 0 = Ret b)
         (map (pair k) l).
Proof. intros _ H. induction H; simpl; constructor; auto. Qed.

Lemma process_project_content_returns self project base user n wb ds w :
  (0 < max_workers self)%Z ->
  project !! "Name" = Some (VStr n) ->
  project !! "Workbooks" = Some wb -> contents wb ->
  project !! "Datasources" = Some ds -> contents ds ->
  mkdir_clear (fs w) (project_dir base n) ->
  exists w' rs,
    process_project_content sched self project base user w = (w', Ret rs).
Proof.
  intros Hmw Hn Hwb (wl & Hwl & Hwf) Hds (dl & Hdl & Hdf) Hclear.
  unfold process_project_content, getitem. rewrite Hn, Hwb, Hds.
  unfold bind at 1. unfold lift at 1. unfold bind at 1. simpl replace.
  unfold lift at 1. unfold bind at 1. fold (project_dir base n).
  destruct (mkdir_returns _ _ Hclear) as (w1 & ->).
  unfold bind at 1. unfold lift at 1. unfold bind at 1. unfold lift at 1.
  rewrite Hwl. unfold bind at 1. unfold lift at 1. unfold bind at 1.
  unfold lift at 1. rewrite Hdl. unfold bind at 1. unfold ThreadPoolExecutor.
  destruct (Z.leb_spec (max_workers self) 0) as [|_]; [lia|]. unfold ret at 1.
  unfold bind at 1.
  destruct (map_m_submit_returns (str (project_dir base n)) user
              (map (pair Workbook) wl ++ map (pair Datasource) dl)) with (w := w1)
    as (w2 & cs & ->).
  { apply Forall_app. split; by eapply contents_tasks. }
  unfold bind. destruct (for_each_emit_returns (as_completed sched cs) w2)
    as (w3 & ->). unfold ret. eauto.
Qed.

Lemma visits_app evs1 evs2 : visits (evs1 ++ evs2) = visits evs1 ++ visits evs2.
Proof. unfold visits. by rewrite omap_app. Qed.

Lemma visits_cons ev evs :
  visits (ev :: evs)
  = match ev with Visit v => v :: visits evs | _ => visits evs end.
Proof. by destruct ev. Qed.

Lemma visits_content evs (P : event -> Prop) :
  (forall ev, P ev -> match ev with Visit _ => False | _ => True end) ->
  Forall P evs -> visits evs = [].
Proof.
  intros HP. induction 1 as [|ev evs Hev _ IH]; [done|].
  rewrite visits_cons, IH. apply HP in Hev. by destruct ev.
Qed.

Lemma mkdir_clear_stays fs0 fs1 d :
  (forall k data, fs1 !! k = Some (File data) -> fs0 !! k = Some (File data)) ->
  mkdir_clear fs0 d -> mkdir_clear fs1 d.
Proof.
  intros Hstay Hc q data Hq Hl. eapply Hc; [done|]. by apply Hstay.
Qed.

Lemma dirs_clear_stays fs0 fs1 base t :
  (forall k data, fs1 !! k = Some (File data) -> fs0 !! k = Some (File data)) ->
  dirs_clear fs0 base t -> dirs_clear fs1 base t.
Proof.
  intros Hstay Hc. unfold dirs_clear in *.
  eapply Forall_impl; [exact Hc|]. intros n. by apply mkdir_clear_stays.
Qed.




(** The visit of a node of the tree. *)
Lemma visit_project_returns
    self (idx : gmap string (gmap string value)) base user i n children proj wb
    ds dirs w :
  (0 < max_workers self)%Z ->
  idx !! i = Some proj ->
  falsy (Some proj) = false ->
  proj !! "Name" = Some (VStr n) ->
  proj !! "Workbooks" = Some wb -> contents wb ->
  proj !! "Datasources" = Some ds -> contents ds ->
  proj !! "Child Dirs" = Some dirs -> iter dirs = Ret (map ref children) ->
  mkdir_clear (fs w) (project_dir base n) ->
  exists w1 evs,
    visit_project sched self proj base (VStr i) user w
    = (w1, Ret (map ref children))
    /\ trace w1 = trace w ++ evs
    /\ visits evs = [VStr i]
    /\ forall k data, fs w1 !! k = Some (File data) -> fs w !! k = Some (File data).
Proof.
  intros Hmw Hi Hf Hn Hwb Hwc Hds Hdc Hdirs Hiter Hclear.
  unfold visit_project. unfold bind at 1. unfold emit at 1.
  set (w0 := World (fs w) (trace w ++ [Visit (VStr i)])).
  destruct (process_project_content_returns self proj base user n wb ds w0)
    as (w1 & rs & Hrun); [done..|].
  pose proof (sat_process_project_content self proj base user w0) as [G _].
  rewrite Hrun in G. simpl in G. destruct G as [(evs & Htr & Hevs) Hstay].
  unfold bind at 1. rewrite Hrun. unfold getitem. rewrite Hdirs.
  unfold bind, lift. rewrite Hiter.
  exists w1, (Visit (VStr i) :: evs). split; [done|]. split; [|split].
  - rewrite Htr. simpl. by rewrite <- List.app_assoc.
  - rewrite visits_cons. f_equal. eapply visits_content; [|exact Hevs].
    intros ev (n' & _ & Hev). by destruct ev.
  - exact Hstay.
Qed.



(** *** The nodes of a tree are the projects the walker can get to *)






(** *** Termination *)

Lemma visit_project_children self proj base cid user w w1 l :
  visit_project sched self proj base cid user w = (w1, Ret l) ->
  exists dirs, proj !! "Child Dirs" = Some dirs /\ iter dirs = Ret l.
Proof.
  unfold visit_project. unfold bind at 1. unfold emit at 1.
  unfold bind at 1.
  destruct (process_project_content _ _ _ _ _ _) as [w2 [rs|e]]; [|done].
  unfold bind, lift, getitem.
  destruct (proj !! "Child Dirs") as [dirs|]; [|done].
  destruct (iter dirs) as [l'|] eqn:Hiter; [|done].
  intros [= _ <-]. eauto.
Qed.

Lemma await_each_enough (rec : nat -> value -> world -> option (world * res unit)) m l :
  (forall c, c ∈ l ->
     forall w, exists w' r, forall f, (m <= f)%nat -> rec f c w = Some (w', r)) ->
  forall w, exists w' r,
    forall f, (m <= f)%nat -> await_each (rec f) l w = Some (w', r).
Proof.
  induction l as [|c l IH]; intros Hrec w; simpl; [by eauto|].
  destruct (Hrec c ltac:(left) w) as (w1 & r1 & H1).
  destruct r1 as [[]|e].
  - destruct (IH (fun c' Hc' => Hrec c' ltac:(by right)) w1) as (w2 & r2 & H2).
    exists w2, r2. intros f Hf. rewrite (H1 f Hf). by apply H2.
  - exists w1, (Raise e). intros f Hf. by rewrite (H1 f Hf).
Qed.

(** With a rank that falls along the child edges, a fuel above the rank of
    the start is enough, and more fuel gives the same result. *)
Lemma walk_enough_fuel self idx base user (rank : string -> nat) :
  (forall p c, child_of idx p c -> (rank c < rank p)%nat) ->
  forall m cid w,
    (match cid with VStr s => S (rank s) | _ => 0%nat end < m)%nat ->
    exists w' r,
      forall fuel, (m <= fuel)%nat ->
        create_and_fill_child_dir sched fuel self idx base cid user w
        = Some (w', r).
Proof.
  intros Hrank. induction m as [|m IH]; intros cid w Hm; [lia|].
  destruct (dict_get idx cid) as [proj|e] eqn:Hget.
  2:{ exists w, (Raise e). intros [|f] Hf; [lia|]. simpl. by rewrite Hget. }
  destruct (falsy proj) eqn:Hfalsy.
  { exists w, (Ret tt). intros [|f] Hf; [lia|]. simpl. by rewrite Hget, Hfalsy. }
  destruct proj as [proj|]; [|done].
  destruct (dict_get_Some _ _ _ Hget) as (i & -> & Hi).
  destruct (visit_project sched self proj base (VStr i) user w)
    as [w1 [l|e]] eqn:Hvisit.
  2:{ exists w1, (Raise e). intros [|f] Hf; [lia|]. simpl.
      rewrite Hi, Hfalsy. change (default ∅ (Some proj)) with proj.
      by rewrite Hvisit. }
  destruct (visit_project_children _ _ _ _ _ _ _ _ Hvisit) as (dirs & Hd & Hl).
  destruct (await_each_enough
              (fun f child =>
                 create_and_fill_child_dir sched f self idx base child user)
              m l) with (w := w1) as (w' & r & Hloop).
  { intros c Hc w0. apply IH. destruct c as [|c|]; [lia| |lia].
    assert (rank c < rank i)%nat; [|lia].
    apply Hrank. by exists proj, dirs, l. }
  exists w', r. intros [|f] Hf; [lia|]. simpl.
  rewrite Hi, Hfalsy. change (default ∅ (Some proj)) with proj.
  rewrite Hvisit. apply Hloop. lia.
Qed.

(** C9.  On an index without a cycle among its child edges the walk from
    any id ends, with a result or an exception, however deep the index is:
    some amount of fuel is enough, and more fuel gives the same answer. *)
Theorem walk_terminates_without_cycle self idx base user cid w :
  acyclic idx ->
  exists fuel w' r,
    forall fuel', (fuel <= fuel')%nat ->
      create_and_fill_child_dir sched fuel' self idx base cid user w
      = Some (w', r).
Proof.
  intros [rank Hrank].
  set (m := S (match cid with VStr s => S (rank s) | _ => 0%nat end)).
  destruct (walk_enough_fuel self idx base user rank Hrank m cid w)
    as (w' & r & H); [unfold m; lia|].
  by exists m, w', r.
Qed.

End WalkFacts.
(** ** The scenarios *)

Section ScenarioFacts.

Import Py Eff PosixPath TableauBackup Layout Walk Scenario.
Local Open Scope string_scope.
Local Open Scope list_scope.

Lemma contents_content (l : list (string * string)) :
  contents (VList (map (fun '(n, i) => content n i) l)).
Proof.
  eexists. split; [reflexivity|].
  induction l as [|[n i] l IH]; constructor; [|done]. by eexists _, _.
Qed.



Lemma acyclic_idx_flat : acyclic idx_flat.
Proof.
  exists rank_flat. intros p c (proj & dirs & l & Hp & Hd & Hl & Hc).
  unfold idx_flat in Hp.
  apply lookup_insert_Some in Hp as [[<- <-]|[_ Hp]].
  - vm_compute in Hd. injection Hd as <-. injection Hl as <-.
    apply elem_of_cons in Hc as [[= ->]|Hc]; [compute; lia|].
    apply elem_of_cons in Hc as [[= ->]|Hc]; [compute; lia|].
    by apply elem_of_nil in Hc.
  - apply lookup_singleton_Some in Hp as [<- <-].
    vm_compute in Hd. injection Hd as <-. injection Hl as <-.
    by apply elem_of_nil in Hc.
Qed.






(** The name [".."] is one component too, but its directory is the one
    above the base directory. *)
Lemma project_dir_parent_link :
  component ".." /\ str (project_dir "out" "..") = "out/..".
Proof. split; [|reflexivity]. split; [reflexivity|]. split; discriminate. Qed.

Lemma walk_terminates_without_cycle_witness :
  exists fuel w' r,
    forall fuel', (fuel <= fuel')%nat ->
      create_and_fill_child_dir fifo fuel' self_ok idx_flat "out" (VStr "1")
                                (Some "bob") w_empty
      = Some (w', r).
Proof.
  exact (walk_terminates_without_cycle
           fifo self_ok idx_flat "out" (Some "bob") (VStr "1") w_empty
           acyclic_idx_flat).
Defined.


(** On a cycle the walk never ends: no amount of fuel is enough. *)
Lemma walk_runs_out_of_fuel_on_a_cycle sched fuel :
  forall w,
    mkdir_clear (fs w) (project_dir "out" "Loop") ->
    create_and_fill_child_dir sched fuel self_ok idx_loop "out" (VStr "1")
                              (Some "bob") w
    = None.
Proof.
  induction fuel as [|fuel IH]; intros w Hclear; [done|].
  destruct (visit_project_returns
              sched self_ok idx_loop "out" (Some "bob") "1" "Loop"
              [Node "1" "Loop" []] (project "Loop" [] [] [VStr "1"])
              (VList []) (VList []) (VList [VStr "1"]) w)
    as (w1 & evs & Hvisit & _ & _ & Hstay);
    try reflexivity; try apply (contents_content []); [done|].
  cbn [create_and_fill_child_dir dict_get].
  change (idx_loop !! "1") with (Some (project "Loop" [] [] [VStr "1"])).
  change (falsy (Some (project "Loop" [] [] [VStr "1"]))) with false.
  cbn iota. change (default ∅ (Some ?p)) with p. rewrite Hvisit.
  cbn [map ref await_each]. rewrite IH; [done|].
  by eapply mkdir_clear_stays.
Qed.

End ScenarioFacts.

(** ** The project cache *)

Section CacheFacts.

Import Py Eff PosixPath TableauBackup Walk.
Local Open Scope string_scope.
Local Open Scope list_scope.

Lemma build_project_cache_snoc projects p :
  build_project_cache (projects ++ [p])
  = <[id p := cache_entry p]> (build_project_cache projects).
Proof. unfold build_project_cache. by rewrite foldl_app. Qed.

(** Every entry of the cache is the two-key dictionary of a listed
    project. *)
Lemma build_project_cache_lookup projects i proj :
  build_project_cache projects !! i = Some proj ->
  exists p, p ∈ projects /\ id p = i /\ proj = cache_entry p.
Proof.
  induction projects as [|p projects IH] using rev_ind; [done|].
  rewrite build_project_cache_snoc.
  intros [[<- <-]|[_ H]]%lookup_insert_Some.
  - exists p. split; [|done]. apply elem_of_app. right. by left.
  - destruct (IH H) as (q & Hq & ? & ?). exists q. split; [|done].
    apply elem_of_app. by left.
Qed.

Lemma build_project_cache_listed projects p :
  p ∈ projects -> is_Some (build_project_cache projects !! id p).
Proof.
  induction projects as [|q projects IH] using rev_ind;
    [by intros ?%elem_of_nil|].
  rewrite build_project_cache_snoc. intros Hp.
  destruct (decide (id q = id p)) as [E|Hne].
  - rewrite E, lookup_insert_eq. by eexists.
  - rewrite lookup_insert_ne by done. apply IH.
    apply elem_of_app in Hp as [Hp|Hp]; [done|].
    apply list_elem_of_singleton in Hp. by subst.
Qed.

Lemma cache_entry_keys p :
  cache_entry p !! "Name" = None
  /\ cache_entry p !! "Workbooks" = None
  /\ cache_entry p !! "Datasources" = None
  /\ cache_entry p !! "Child Dirs" = None
  /\ falsy (Some (cache_entry p)) = false.
Proof.
  unfold cache_entry.
  do 4 (split; [by rewrite lookup_insert_ne, lookup_singleton_ne by done|]).
  simpl. apply bool_decide_eq_false. rewrite dom_insert_L. set_solver.
Qed.

(** The walker on the cache the run builds: it finds the project, looks for
    its ['Name'] and raises. *)
Lemma walk_on_project_cache sched self projects p base user fuel w :
  p ∈ projects ->
  create_and_fill_child_dir sched (S fuel) self (build_project_cache projects)
                            base (VStr (id p)) user w
  = Some (Fetching.logged w (Visit (VStr (id p))), Raise (KeyError "Name")).
Proof.
  intros Hp. destruct (build_project_cache_listed projects p Hp) as [proj Hproj].
  destruct (build_project_cache_lookup _ _ _ Hproj) as (q & _ & _ & ->).
  destruct (cache_entry_keys q) as (Hname & _ & _ & _ & Hf).
  cbn [create_and_fill_child_dir dict_get]. rewrite Hproj, Hf.
  change (default ∅ (Some ?d)) with d.
  unfold visit_project, bind, emit, process_project_content, bind, lift, getitem.
  by rewrite Hname.
Qed.

(** The roots are the listed projects whose parent id is [None] or empty,
    in the order of the listing. *)
Lemma root_projects_spec projects p :
  p ∈ root_projects projects <-> p ∈ projects /\ not_str (parent_id p) = true.
Proof.
  unfold root_projects. rewrite !list_elem_of_In, List.filter_In. done.
Qed.

(** C3, at the listing of the end-to-end scenario.  The roots are the
    projects without a parent id, one here; but the entry the cache holds
    for a project has two keys, its name and its parent id, and neither
    children nor content: the walker given this cache raises [KeyError] on
    ['Name'] at the root. *)
Theorem project_cache_entry_has_no_children_or_content :
  root_projects Scenario.projects = [ProjectItem "1" "Sales" None]
  /\ build_project_cache Scenario.projects !! "1"
     = Some {[ "name" := VStr "Sales"; "parent_id" := VNone ]}
  /\ dom (cache_entry (ProjectItem "1" "Sales" None))
     = ({[ "name"; "parent_id" ]} : gset string)
  /\ cache_entry (ProjectItem "1" "Sales" None) !! "Child Dirs" = None
  /\ cache_entry (ProjectItem "1" "Sales" None) !! "Workbooks" = None
  /\ cache_entry (ProjectItem "1" "Sales" None) !! "Datasources" = None
  /\ create_and_fill_child_dir
       Scenario.fifo 3 (init Scenario.cfg)
       (build_project_cache Scenario.projects) "out" (VStr "1") (Some "bob")
       Scenario.w_empty
     = Some (Fetching.logged Scenario.w_empty (Visit (VStr "1")),
             Raise (KeyError "Name")).
Proof.
  split; [reflexivity|]. split; [reflexivity|]. split.
  { unfold cache_entry. rewrite dom_insert_L, dom_singleton_L. done. }
  destruct (cache_entry_keys (ProjectItem "1" "Sales" None))
    as (_ & Hw & Hd & Hc & _).
  repeat (split; [done|]).
  apply (walk_on_project_cache Scenario.fifo (init Scenario.cfg)
           Scenario.projects (ProjectItem "1" "Sales" None) "out" (Some "bob")
           2 Scenario.w_empty).
  by left.
Qed.

End CacheFacts.
(** ** Failures stay inside the fetch *)

Section ContainFacts.

Import Py Eff PosixPath TableauBackup Fetching Run Scenario.
Local Open Scope string_scope.
Local Open Scope list_scope.

Lemma fetch_each_returns self items w :
  exists w' bs,
    fetch_each self items w = (w', Ret bs) /\ length bs = length items.
Proof.
  revert w. unfold fetch_each.
  induction items as [|it items IH]; intros w; simpl; [by eexists _, []|].
  unfold bind at 1.
  destruct (download_total (item_kind it) self (item_directory it) (item_id it)
                           (item_name it) (item_user it) w) as (w1 & b & ->).
  unfold bind at 1. destruct (IH w1) as (w2 & bs & -> & Hlen).
  exists w2, (b :: bs). split; [done|]. simpl. by rewrite Hlen.
Qed.

(** C2, as the code has it.  A fetch never raises: whatever the download
    call raises is caught in it, logged (as a warning that names the user
    for a [ServerResponseError], as an error otherwise) and answered with
    [False], the answer of a skipped or unchanged item as well.  So the
    fetches of any list of items, one after the other, all give an outcome,
    and a run whose setup succeeds enters the committer whatever the server
    does with the downloads. *)
Theorem download_failure_stays_inside :
  (forall k self directory cid cname user w,
      exists w' b, download k self directory cid cname user w = (w', Ret b))
  /\ (forall k self directory cid cname user w w1 h0 e,
        should_download_file self (target k directory cname) cid w
        = (w, Ret true) ->
        calculate_file_hash (target k directory cname) w = (w, Ret h0) ->
        remote_download k self cid (target k directory cname) w
        = (w1, Raise e) ->
        download k self directory cid cname user w
        = (logged w1 (failure_record k cname user e), Ret false))
  /\ (forall self items w,
        exists w' bs,
          fetch_each self items w = (w', Ret bs) /\ length bs = length items)
  /\ (forall sched env self w,
        setup_ok env self w = true ->
        exists self' w' r before after,
          backup_tableau sched env (self, w) = ((self', w'), r)
          /\ trace w' = trace w ++ before ++ Committer :: after).
Proof.
  split; [apply download_total|]. split; [apply download_remote_raised|].
  split; [apply fetch_each_returns|].
  intros sched env self w Hsetup. unfold setup_ok in Hsetup.
  repeat (apply andb_prop in Hsetup as [Hsetup ?]).
  destruct (new_server env) as [srv|] eqn:Hsrv; [|done].
  destruct (sign_in env) eqn:Hin; [done|].
  destruct (clone_from env (fs w)) as [fs1 [|]] eqn:Hclone; [done|].
  destruct (pager_projects env) as [projects|] eqn:Hlist; [|done].
  destruct (backup_tableau_run sched env self w srv fs1 projects)
    as (self' & w' & r & tail & Hrun & Htr & _);
    [by apply negb_true_iff..|done|done|done|done|by apply Z.ltb_lt|].
  by eexists self', w', r, _, tail.
Qed.

Lemma download_failure_stays_inside_witness :
  download_workbook self_denied "out/Sales" "101" "Q1" (Some "bob") w_empty
  = (World ∅ [ RemoteDownload Workbook "101" "out/Sales/Q1.twbx";
               Log WARNING
                   "Access denied: bob cannot download Q1: 403003: Forbidden" ],
     Ret false)
  /\ exists self' w' r before after,
      backup_tableau fifo env_ok (init cfg, w_empty) = ((self', w'), r)
      /\ trace w' = before ++ Committer :: after.
Proof.
  destruct download_failure_stays_inside as (_ & Hcaught & _ & Hrun). split.
  - exact (Hcaught Workbook self_denied "out/Sales" "101" "Q1" (Some "bob")
                   w_empty
                   (logged w_empty
                           (RemoteDownload Workbook "101" "out/Sales/Q1.twbx"))
                   "" (ServerResponseError "403003: Forbidden")
                   eq_refl eq_refl eq_refl).
  - exact (Hrun fifo env_ok (init cfg) w_empty eq_refl).
Defined.

(** C2 fails where it says that the outcome carries the error kind: a fetch
    the server refused, a fetch whose connection broke, a fetch that brought
    the bytes already there and a skipped fetch all give the same outcome,
    [False], so nothing computed from the outcome tells the refusal from the
    success. *)
Lemma fetch_outcome_counterexample :
  snd (download_workbook self_denied "out/Sales" "101" "Q1" (Some "bob") w_empty)
  = Ret false
  /\ snd (download_workbook self_broken "out/Sales" "101" "Q1" (Some "bob")
                            w_empty)
     = Ret false
  /\ snd (download_workbook self_overwrite "out/Sales" "101" "Q1" (Some "bob")
                            w_mirrored)
     = Ret false
  /\ snd (download_workbook self_ok "out/Sales" "101" "Q1" (Some "bob")
                            w_mirrored)
     = Ret false
  /\ ~ exists error_kind : res bool -> option exn,
        error_kind
          (snd (download_workbook self_denied "out/Sales" "101" "Q1"
                                  (Some "bob") w_empty))
        = Some (ServerResponseError "403003: Forbidden")
        /\ error_kind
             (snd (download_workbook self_overwrite "out/Sales" "101" "Q1"
                                     (Some "bob") w_mirrored))
           = None.
Proof.
  assert (snd (download_workbook self_denied "out/Sales" "101" "Q1"
                                 (Some "bob") w_empty) = Ret false) as H1
    by (vm_compute; reflexivity).
  assert (snd (download_workbook self_overwrite "out/Sales" "101" "Q1"
                                 (Some "bob") w_mirrored) = Ret false) as H3
    by (vm_compute; reflexivity).
  split; [exact H1|]. split; [vm_compute; reflexivity|].
  split; [exact H3|]. split; [vm_compute; reflexivity|].
  intros (error_kind & Hd & Hu). rewrite H1 in Hd. rewrite H3 in Hu.
  congruence.
Qed.

End ContainFacts.
(** ** More on the fetch *)

Section FetchMore.

Import Py Eff PosixPath TableauBackup Fetching More.
Local Open Scope string_scope.
Local Open Scope list_scope.


Lemma should_download_file_false self filepath cid w :
  default false (overwrite_existing (config_ self)) = false ->
  exists_ (fs w) filepath = true ->
  should_download_file self filepath cid w = (w, Ret false).
Proof. unfold should_download_file. by intros -> ->. Qed.

(** X1.  With overwriting off, a fetch whose target exists (as a file or as
    a directory) answers [False] after one log line: the server is not
    asked and the file system stays as it is. *)
Theorem skipped_fetch_touches_nothing k self directory cid cname user w :
  default false (overwrite_existing (config_ self)) = false ->
  exists_ (fs w) (target k directory cname) = true ->
  exists w',
    download k self directory cid cname user w = (w', Ret false)
    /\ fs w' = fs w
    /\ trace w'
       = trace w
         ++ [Log INFO ("Skipping existing " ++ noun k ++ ": " ++ cname)%string]
    /\ downloads (trace w') = downloads (trace w).
Proof.
  intros Hov Hex. eexists. split.
  - apply download_skipped. by apply should_download_file_false.
  - split; [done|]. split; [done|]. unfold downloads. simpl.
    by rewrite omap_app, app_nil_r.
Qed.

Lemma skipped_fetch_touches_nothing_witness :
  exists w',
    download Workbook Scenario.self_broken "out/Sales" "101" "Q1"
             (Some "bob") Scenario.w_mirrored = (w', Ret false)
    /\ fs w' = fs Scenario.w_mirrored.
Proof.
  destruct (skipped_fetch_touches_nothing
              Workbook Scenario.self_broken "out/Sales" "101" "Q1"
              (Some "bob") Scenario.w_mirrored eq_refl eq_refl)
    as (w' & Hrun & Hfs & _).
  by exists w'.
Defined.

(** X2.  A fetch on an object that never connected ([self.server] is
    [None]) does not fail: the [AttributeError] is caught, logged as an
    error, and the fetch answers [False] with the file system as it was. *)
Theorem fetch_without_connection k self directory cid cname user w h0 :
  server_ self = None ->
  should_download_file self (target k directory cname) cid w = (w, Ret true) ->
  calculate_file_hash (target k directory cname) w = (w, Ret h0) ->
  download k self directory cid cname user w
  = (logged w
       (Log ERROR ("Failed to download " ++ noun k ++ " " ++ cname ++ ": "
                   ++ "'NoneType' object has no attribute '" ++ noun k
                   ++ "s'")%string),
     Ret false).
Proof.
  intros Hsrv Hgo Hh.
  rewrite (download_remote_raised k self directory cid cname user w w h0
             (AttributeError ("'NoneType' object has no attribute '"
                              ++ noun k ++ "s'")%string) Hgo Hh).
  - reflexivity.
  - unfold remote_download. by rewrite Hsrv.
Qed.

Lemma fetch_without_connection_witness :
  download Workbook (init Scenario.cfg) "out/Sales" "101" "Q1" (Some "bob")
           Scenario.w_empty
  = (World ∅
       [Log ERROR
          "Failed to download workbook Q1: 'NoneType' object has no attribute 'workbooks'"],
     Ret false).
Proof.
  exact (fetch_without_connection
           Workbook (init Scenario.cfg) "out/Sales" "101" "Q1" (Some "bob")
           Scenario.w_empty "" eq_refl eq_refl eq_refl).
Defined.



(** What a fetch leaves of the file system. *)
Lemma download_fs_cases k self directory cid cname user w :
  fs (fst (download k self directory cid cname user w)) = fs w
  \/ exists srv,
      server_ self = Some srv
      /\ fs (fst (download k self directory cid cname user w))
         = fst (endpoint k srv cid (target k directory cname) (fs w)).
Proof.
  unfold download, bind, try_except. fold (target k directory cname).
  unfold should_download_file.
  destruct (_ && _); simpl; [by left|].
  destruct (calculate_file_hash (target k directory cname) w)
    as [wa [h0|e0]] eqn:Hh0.
  2:{ pose proof (calculate_file_hash_pure (target k directory cname) w) as Hp.
      rewrite Hh0 in Hp. simpl in Hp. subst wa. left.
      by destruct (is_ServerResponseError e0). }
  pose proof (calculate_file_hash_pure (target k directory cname) w) as Hp.
  rewrite Hh0 in Hp. simpl in Hp. subst wa.
  unfold remote_download.
  destruct (server_ self) as [srv|]; [|by left].
  right. exists srv. split; [done|]. unfold endpoint.
  destruct (match k with
            | Workbook => workbooks_download srv
            | Datasource => datasources_download srv
            end cid (target k directory cname) (fs w)) as [fs1 [e|]] eqn:Hcall;
    simpl.
  - by destruct (is_ServerResponseError e).
  - set (w1 := World fs1 _).
    destruct (calculate_file_hash (target k directory cname) w1)
      as [wb [h1|e1]] eqn:Hh1;
      pose proof (calculate_file_hash_pure (target k directory cname) w1) as Hq;
      rewrite Hh1 in Hq; simpl in Hq; subst wb.
    + by destruct (String.eqb h0 h1).
    + by destruct (is_ServerResponseError e1).
Qed.

Ltac count_downloads :=
  unfold downloads; simpl; rewrite ?omap_app; simpl; rewrite ?app_nil_r;
  try done.

(** X4.  A fetch changes the file system through the server call and
    through nothing else, and it calls the server at most once: either no
    download was asked and the file system is what it was, or one download
    was asked, for the id of the item and the path of its target, and the
    file system is what that call made of it. *)
Theorem fetch_writes_through_the_server_only k self directory cid cname user w :
  (fs (fst (download k self directory cid cname user w)) = fs w
   /\ downloads (trace (fst (download k self directory cid cname user w)))
      = downloads (trace w))
  \/ exists srv,
      server_ self = Some srv
      /\ fs (fst (download k self directory cid cname user w))
         = fst (endpoint k srv cid (target k directory cname) (fs w))
      /\ downloads (trace (fst (download k self directory cid cname user w)))
         = downloads (trace w) ++ [(k, cid, target k directory cname)].
Proof.
  unfold download, bind, try_except. fold (target k directory cname).
  unfold should_download_file.
  destruct (_ && _); simpl; [left; split; [done|count_downloads]|].
  destruct (calculate_file_hash (target k directory cname) w)
    as [wa [h0|e0]] eqn:Hh0;
    pose proof (calculate_file_hash_pure (target k directory cname) w) as Hp;
    rewrite Hh0 in Hp; simpl in Hp; subst wa.
  2:{ left. destruct (is_ServerResponseError e0); simpl;
        (split; [done|count_downloads]). }
  unfold remote_download.
  destruct (server_ self) as [srv|]; [|left; split; [done|count_downloads]].
  right. exists srv. split; [done|]. unfold endpoint.
  destruct (match k with
            | Workbook => workbooks_download srv
            | Datasource => datasources_download srv
            end cid (target k directory cname) (fs w)) as [fs1 [e|]] eqn:Hcall;
    simpl.
  - destruct (is_ServerResponseError e); simpl;
      (split; [done|count_downloads]).
  - set (w1 := World fs1 _).
    destruct (calculate_file_hash (target k directory cname) w1)
      as [wb [h1|e1]] eqn:Hh1;
      pose proof (calculate_file_hash_pure (target k directory cname) w1) as Hq;
      rewrite Hh1 in Hq; simpl in Hq; subst wb.
    + destruct (String.eqb h0 h1); simpl; (split; [done|count_downloads]).
    + destruct (is_ServerResponseError e1); simpl;
        (split; [done|count_downloads]).
Qed.


(** *** Fetching twice *)

Lemma lookup_path_insert fs0 p n : lookup_path (<[norm p := n]> fs0) p = Some n.
Proof. unfold lookup_path. by rewrite lookup_insert_eq. Qed.

Lemma should_download_file_pure self filepath cid w w0 r :
  should_download_file self filepath cid w = (w0, r) -> w0 = w.
Proof. unfold should_download_file. destruct (_ && _); by intros [= <- _]. Qed.

Lemma remote_download_inv k self cid filepath w w1 r :
  remote_download k self cid filepath w = (w1, r) ->
  (server_ self = None /\ w1 = w /\ exists e, r = Raise e)
  \/ exists srv,
      server_ self = Some srv
      /\ fs w1 = fst (endpoint k srv cid filepath (fs w))
      /\ (r = Ret tt <-> snd (endpoint k srv cid filepath (fs w)) = None).
Proof.
  unfold remote_download, endpoint.
  destruct (server_ self) as [srv|]; [|intros [= <- <-]; left; eauto].
  cbv zeta.
  destruct (match k with
            | Workbook => workbooks_download srv
            | Datasource => datasources_download srv
            end cid filepath (fs w)) as [fs1 [e|]] eqn:Hcall;
    intros [= <- <-]; right; exists srv; rewrite Hcall; repeat split;
    simpl; intros; congruence.
Qed.

(** A fetch answers [True] only after the server call returned, and leaves
    the file system the call made. *)
Lemma download_true_called k self directory cid cname user w w' :
  download k self directory cid cname user w = (w', Ret true) ->
  exists w1,
    remote_download k self cid (target k directory cname) w = (w1, Ret tt)
    /\ fs w' = fs w1.
Proof.
  unfold download, bind, try_except. fold (target k directory cname).
  destruct (should_download_file _ _ _ w) as [w0 [go|e]] eqn:Hgo;
    [|by apply should_download_file_pure in Hgo as ->].
  apply should_download_file_pure in Hgo as ->.
  destruct go; simpl; [|done].
  destruct (calculate_file_hash _ w) as [wa [h0|e0]] eqn:Hh0; simpl.
  2:{ by destruct (is_ServerResponseError e0). }
  pose proof (calculate_file_hash_pure (target k directory cname) w) as Hp.
  rewrite Hh0 in Hp. simpl in Hp. subst wa.
  destruct (remote_download _ _ _ _ w) as [wb [[]|e]]; simpl.
  2:{ by destruct (is_ServerResponseError e). }
  destruct (calculate_file_hash _ wb) as [wc [h1|e1]] eqn:Hh1; simpl.
  2:{ by destruct (is_ServerResponseError e1). }
  pose proof (calculate_file_hash_pure (target k directory cname) wb) as Hq.
  rewrite Hh1 in Hq. simpl in Hq. subst wc.
  destruct (String.eqb h0 h1); simpl; [done|]. intros [= <-]. by exists wb.
Qed.

(** *** What a computation reads *)

Lemma reads_fs_bind {A B} (m : M world A) (k : A -> M world B) :
  (forall w wA, fs w = fs wA ->
     snd (m w) = snd (m wA) /\ fs (fst (m w)) = fs (fst (m wA))) ->
  (forall a w wA, fs w = fs wA ->
     snd (k a w) = snd (k a wA) /\ fs (fst (k a w)) = fs (fst (k a wA))) ->
  forall w wA, fs w = fs wA ->
    snd (bind m k w) = snd (bind m k wA)
    /\ fs (fst (bind m k w)) = fs (fst (bind m k wA)).
Proof.
  intros Hm Hk w wA Hfs. unfold bind. destruct (Hm w wA Hfs) as [Hr Hf].
  destruct (m w) as [w1 r1], (m wA) as [w1A r1A]; simpl in *. subst r1A.
  destruct r1; [by apply Hk|done].
Qed.

Lemma reads_fs_try_except {A} (m : M world A) (h : exn -> M world A) :
  (forall w wA, fs w = fs wA ->
     snd (m w) = snd (m wA) /\ fs (fst (m w)) = fs (fst (m wA))) ->
  (forall e w wA, fs w = fs wA ->
     snd (h e w) = snd (h e wA) /\ fs (fst (h e w)) = fs (fst (h e wA))) ->
  forall w wA, fs w = fs wA ->
    snd (try_except m h w) = snd (try_except m h wA)
    /\ fs (fst (try_except m h w)) = fs (fst (try_except m h wA)).
Proof.
  intros Hm Hh w wA Hfs. unfold try_except. destruct (Hm w wA Hfs) as [Hr Hf].
  destruct (m w) as [w1 r1], (m wA) as [w1A r1A]; simpl in *. subst r1A.
  destruct r1; [done|by apply Hh].
Qed.

(** The answer of a fetch and the file system it leaves depend on the file
    system it finds, not on the trace. *)
Lemma download_reads_fs_only k self directory cid cname user w wA :
  fs w = fs wA ->
  snd (download k self directory cid cname user w)
  = snd (download k self directory cid cname user wA)
  /\ fs (fst (download k self directory cid cname user w))
     = fs (fst (download k self directory cid cname user wA)).
Proof.
  revert w wA. unfold download. fold (target k directory cname).
  assert (forall w wA, fs w = fs wA ->
            snd (calculate_file_hash (target k directory cname) w)
            = snd (calculate_file_hash (target k directory cname) wA)
            /\ fs (fst (calculate_file_hash (target k directory cname) w))
               = fs (fst (calculate_file_hash (target k directory cname) wA)))
    as Hhash.
  { intros w wA Hfs. rewrite !calculate_file_hash_pure. split; [|done].
    apply calculate_file_hash_fs. by rewrite Hfs. }
  apply reads_fs_bind.
  { intros w wA Hfs. unfold should_download_file. rewrite Hfs.
    by destruct (_ && _). }
  intros go. destruct go; cbn [negb].
  2:{ intros w wA Hfs. by simpl. }
  apply reads_fs_try_except.
  - apply reads_fs_bind; [exact Hhash|]. intros h0.
    apply reads_fs_bind.
    { intros w wA Hfs. unfold remote_download.
      destruct (server_ self) as [srv|]; [|done]. rewrite Hfs.
      by destruct (match k with
                   | Workbook => workbooks_download srv
                   | Datasource => datasources_download srv
                   end cid (target k directory cname) (fs wA)) as [f1 [e|]]. }
    intros _. apply reads_fs_bind; [exact Hhash|]. intros h1.
    destruct (negb (String.eqb h0 h1)); [|by intros w wA Hfs].
    apply reads_fs_bind; [by intros w wA Hfs|]. by intros _ w wA Hfs.
  - intros e. apply reads_fs_bind; [|by intros _ w wA Hfs].
    by destruct (is_ServerResponseError e); intros w wA Hfs.
Qed.

(** X5.  Against a server that writes the same bytes each time, a second
    fetch of the same item answers [False] and leaves the file system as the
    first one left it, whatever the overwrite setting and whatever was there
    before. *)
Theorem refetch_reports_unchanged k self srv directory cid cname user w data :
  server_ self = Some srv ->
  (forall fs0,
      endpoint k srv cid (target k directory cname) fs0
      = (<[norm (target k directory cname) := File data]> fs0, None)) ->
  exists w1 b1 w2,
    download k self directory cid cname user w = (w1, Ret b1)
    /\ download k self directory cid cname user w1 = (w2, Ret false)
    /\ fs w2 = fs w1.
Proof.
  intros Hsrv Hwrite.
  destruct (download_total k self directory cid cname user w) as (w1 & b1 & H1).
  destruct (download_total k self directory cid cname user w1) as (w2 & b2 & H2).
  exists w1, b1, w2. split; [done|].
  (* what a fetch leaves: the old file system or the written one *)
  assert (forall wx,
             fs (fst (download k self directory cid cname user wx)) = fs wx
             \/ fs (fst (download k self directory cid cname user wx))
                = <[norm (target k directory cname) := File data]> (fs wx))
    as Hleaves.
  { intros wx.
    destruct (download_fs_cases
                k self directory cid cname user wx) as [H|(srv' & Hs & H)];
      [by left|].
    right. rewrite Hsrv in Hs. injection Hs as <-. by rewrite H, Hwrite. }
  assert (lookup_path (fs w1) (target k directory cname) = Some (File data) ->
          b2 = false /\ fs w2 = fs w1) as Hgood.
  { intros Hl.
    assert (<[norm (target k directory cname) := File data]> (fs w1) = fs w1)
      as Hid by (by apply insert_id).
    assert (fs w2 = fs w1) as Hfs.
    { pose proof (Hleaves w1) as Hw. rewrite H2 in Hw. simpl in Hw.
      destruct Hw as [->| ->]; done. }
    split; [|done]. destruct b2; [|done]. exfalso.
    destruct (download_true_called _ _ _ _ _ _ _ _ H2) as (wr & Hr & Hfr).
    destruct (should_download_file self (target k directory cname) cid w1)
      as [w0 [[]|e]] eqn:Hgo;
      pose proof (should_download_file_pure _ _ _ _ _ _ Hgo); subst w0.
    - pose proof (download_returned k self directory cid cname user w1 wr
                    (MD5.hexdigest data) (MD5.hexdigest data) Hgo) as Hret.
      rewrite H2 in Hret. rewrite String.eqb_refl in Hret.
      assert ((w2, Ret true) = (wr, Ret (negb true))) as [=].
      apply Hret; [by apply calculate_file_hash_file|done|].
      apply calculate_file_hash_file. unfold lookup_path.
      rewrite <- Hfr, Hfs. exact Hl.
    - rewrite (download_skipped _ _ _ _ _ _ _ Hgo) in H2. by injection H2.
    - unfold should_download_file in Hgo. by destruct (_ && _) in Hgo. }
  assert (b1 = true ->
          lookup_path (fs w1) (target k directory cname) = Some (File data))
    as Htrue.
  { intros ->.
    destruct (download_true_called _ _ _ _ _ _ _ _ H1) as (wr & Hr & Hfr).
    apply remote_download_inv in Hr as [(Hn & _)|(srv' & Hs & Hfs' & _)];
      [congruence|].
    rewrite Hsrv in Hs. injection Hs as <-. rewrite Hwrite in Hfs'.
    simpl in Hfs'. unfold lookup_path. by rewrite Hfr, Hfs', lookup_insert_eq. }
  pose proof (Hleaves w) as Hw. rewrite H1 in Hw. simpl in Hw.
  destruct Hw as [Hsame|Hwritten].
  - destruct b1; [by destruct (Hgood (Htrue eq_refl)) as [-> ?]|].
    destruct (download_reads_fs_only k self directory cid cname user w1 w Hsame)
      as [Hr Hf]. rewrite H1, H2 in Hr, Hf. simpl in Hr, Hf.
    by injection Hr as ->.
  - destruct Hgood as [-> ?]; [|done].
    unfold lookup_path. by rewrite Hwritten, lookup_insert_eq.
Qed.

Lemma srv_ok_writes k cid filepath fs0 :
  endpoint k Scenario.srv_ok cid filepath fs0
  = (<[norm filepath := File ["a"; "b"; "c"]%byte]> fs0, None).
Proof. by destruct k. Qed.

Lemma refetch_reports_unchanged_witness :
  exists w1 w2,
    download Workbook Scenario.self_overwrite "out/Sales" "101" "Q1"
             (Some "bob") Scenario.w_empty = (w1, Ret true)
    /\ download Workbook Scenario.self_overwrite "out/Sales" "101" "Q1"
                (Some "bob") w1 = (w2, Ret false)
    /\ fs w2 = fs w1.
Proof.
  destruct (refetch_reports_unchanged
              Workbook Scenario.self_overwrite Scenario.srv_ok "out/Sales"
              "101" "Q1" (Some "bob") Scenario.w_empty ["a"; "b"; "c"]%byte
              eq_refl (srv_ok_writes _ _ _))
    as (w1 & b1 & w2 & H1 & H2 & Hfs).
  exists w1, w2. split; [|split; [exact H2|exact Hfs]].
  rewrite H1. f_equal.
  assert (snd (download Workbook Scenario.self_overwrite "out/Sales" "101" "Q1"
                        (Some "bob") Scenario.w_empty) = Ret true) as Hb
    by (vm_compute; reflexivity).
  rewrite H1 in Hb. exact Hb.
Defined.

(** *** The shape of a fingerprint *)

Lemma is_hex_digit z : is_hex (MD5.hex_digit z) = true.
Proof.
  unfold MD5.hex_digit. generalize (Z.to_nat z). intros n.
  do 16 (destruct n as [|n]; [reflexivity|]). by destruct n.
Qed.

Lemma hexdigest_is_hex data :
  forallb is_hex (list_ascii_of_string (MD5.hexdigest data)) = true.
Proof.
  unfold MD5.hexdigest. destruct (MD5.digest_state _) as [[[a b] c] d].
  unfold MD5.hex_state, MD5.hex_word, MD5.hex_byte.
  cbn [list_ascii_of_string forallb]. by rewrite !is_hex_digit.
Qed.

(** X6.  A fingerprint is the empty string, for a path that does not
    exist, or 32 lower-case hexadecimal digits, for a file; on a directory
    the fingerprint raises [IsADirectoryError].  The world is the same
    afterwards. *)
Theorem fingerprint_shape filepath w :
  match lookup_path (fs w) filepath with
  | None => calculate_file_hash filepath w = (w, Ret "")
  | Some Dir =>
      calculate_file_hash filepath w = (w, Raise (IsADirectoryError filepath))
  | Some (File data) =>
      exists h,
        calculate_file_hash filepath w = (w, Ret h)
        /\ String.length h = 32%nat
        /\ forallb is_hex (list_ascii_of_string h) = true
  end.
Proof.
  destruct (lookup_path (fs w) filepath) as [[data|]|] eqn:Hl.
  - exists (MD5.hexdigest data). split; [by apply calculate_file_hash_file|].
    split; [apply hexdigest_length|apply hexdigest_is_hex].
  - by apply calculate_file_hash_dir.
  - by apply calculate_file_hash_absent.
Qed.

End FetchMore.
(** ** More on the content of a project *)

Section ContentMore.

Import Py Eff PosixPath TableauBackup Layout Walk Fetching More.
Local Open Scope string_scope.
Local Open Scope list_scope.

Variable sched : scheduler.

(** *** Directories *)

Lemma adds_dirs_refl f : adds_dirs f f.
Proof. intros k. by left. Qed.

Lemma adds_dirs_trans f1 f2 f3 :
  adds_dirs f1 f2 -> adds_dirs f2 f3 -> adds_dirs f1 f3.
Proof.
  intros H12 H23 k. destruct (H12 k) as [E1|[N1 D1]], (H23 k) as [E2|[N2 D2]].
  - left. congruence.
  - right. split; congruence.
  - right. split; congruence.
  - congruence.
Qed.

Lemma adds_dirs_insert f k : f !! k = None -> adds_dirs f (<[k := Dir]> f).
Proof.
  intros Hk j. destruct (decide (k = j)) as [<-|Hne].
  - right. by rewrite lookup_insert_eq.
  - left. by rewrite lookup_insert_ne.
Qed.

Lemma adds_dirs_keeps f f' k n : adds_dirs f f' -> f !! k = Some n -> f' !! k = Some n.
Proof. intros H Hk. destruct (H k) as [E|[N _]]; congruence. Qed.

Lemma mkdir_prefixes_adds target ps fs0 :
  adds_dirs fs0 (fst (mkdir_prefixes target ps fs0)).
Proof.
  revert fs0. induction ps as [|p ps IH]; intros fs0; simpl;
    [apply adds_dirs_refl|].
  destruct (lookup_path fs0 (str p)) as [[d|]|] eqn:Hl; simpl;
    [apply adds_dirs_refl|apply IH|].
  eapply adds_dirs_trans; [|apply IH]. by apply adds_dirs_insert.
Qed.

Lemma mkdir_prefixes_made target ps fs0 :
  snd (mkdir_prefixes target ps fs0) = None ->
  forall q, q ∈ ps ->
    lookup_path (fst (mkdir_prefixes target ps fs0)) (str q) = Some Dir.
Proof.
  revert fs0. induction ps as [|p ps IH]; intros fs0 Hok q Hq;
    [by apply elem_of_nil in Hq|].
  simpl in *.
  destruct (lookup_path fs0 (str p)) as [[d|]|] eqn:Hl; simpl in *; [done| |].
  - apply elem_of_cons in Hq as [->|Hq]; [|by apply IH].
    eapply adds_dirs_keeps; [apply mkdir_prefixes_adds|exact Hl].
  - apply elem_of_cons in Hq as [->|Hq]; [|by apply IH].
    eapply adds_dirs_keeps; [apply mkdir_prefixes_adds|].
    by rewrite lookup_insert_eq.
Qed.

Lemma mkdir_prefixes_again target ps fs0 :
  (forall q, q ∈ ps -> lookup_path fs0 (str q) = Some Dir) ->
  mkdir_prefixes target ps fs0 = (fs0, None).
Proof.
  induction ps as [|p ps IH]; intros Hd; simpl; [done|].
  rewrite (Hd p) by by left. apply IH. intros q Hq. apply Hd. by right.
Qed.

Lemma mkdir_prefixes_blocked target ps fs0 q data :
  q ∈ ps -> lookup_path fs0 (str q) = Some (File data) ->
  snd (mkdir_prefixes target ps fs0) = Some (FileExistsError target)
  \/ snd (mkdir_prefixes target ps fs0) = Some (NotADirectoryError target).
Proof.
  revert fs0. induction ps as [|p ps IH]; intros fs0 Hq Hl;
    [by apply elem_of_nil in Hq|].
  simpl. destruct (lookup_path fs0 (str p)) as [[d|]|] eqn:Hp; simpl.
  - destruct ps; auto.
  - apply elem_of_cons in Hq as [->|Hq]; [congruence|]. by apply IH.
  - apply elem_of_cons in Hq as [->|Hq]; [congruence|]. apply IH; [done|].
    unfold lookup_path in *. rewrite lookup_insert_ne; [done|]. congruence.
Qed.

(** *** The pool of a project *)

Lemma map_m_submit_eval d user tasks cs w :
  pool_of d user tasks = Some cs ->
  map_m (submit_download d user) tasks w
  = (World (fs w) (trace w ++ map Submit cs), Ret cs).
Proof.
  revert cs w. induction tasks as [|[k c] tasks IH]; intros cs w.
  - intros [= <-]. simpl. unfold ret. by rewrite app_nil_r; destruct w.
  - cbn [pool_of]. unfold task_coroutine at 1. simpl fst. simpl snd.
    destruct (index c 1) as [a|] eqn:Ha; [|done].
    destruct (index c 0) as [b|] eqn:Hb; [|done].
    destruct (pool_of d user tasks) as [cs'|] eqn:Hcs; [|done].
    intros [= <-]. cbn [map_m]. unfold bind at 1.
    rewrite (submit_download_returns d user k c a b w Ha Hb).
    unfold bind at 1. rewrite (IH cs' _ eq_refl). unfold ret. simpl.
    by rewrite <- List.app_assoc.
Qed.

Lemma map_m_submit_inv d user tasks cs w w' :
  map_m (submit_download d user) tasks w = (w', Ret cs) ->
  pool_of d user tasks = Some cs.
Proof.
  revert cs w w'. induction tasks as [|[k c] tasks IH]; intros cs w w'.
  - simpl. by intros [= _ <-].
  - cbn [map_m]. unfold bind at 1. unfold submit_download at 1.
    unfold bind at 1. unfold lift at 1. cbn [pool_of].
    unfold task_coroutine at 1. simpl fst. simpl snd.
    destruct (index c 1) as [a|] eqn:Ha; [|done].
    unfold bind at 1. unfold lift at 1.
    destruct (index c 0) as [b|] eqn:Hb; [|done].
    unfold bind at 1. unfold emit at 1. unfold ret at 1. unfold bind at 1.
    destruct (map_m _ tasks _) as [w1 [cs'|e]] eqn:Hm; [|done].
    unfold ret. intros [= _ <-]. by rewrite (IH _ _ _ Hm).
Qed.

Lemma for_each_emit_eval cs w :
  for_each cs (fun c => emit (Result c)) w
  = (World (fs w) (trace w ++ map Result cs), Ret tt).
Proof.
  revert w. induction cs as [|c cs IH]; intros w; simpl.
  - unfold ret. by rewrite app_nil_r; destruct w.
  - unfold bind, emit. rewrite IH. simpl. by rewrite <- List.app_assoc.
Qed.


(** *** [process_project_content], step by step *)

Lemma process_project_content_inv self project base user w w' rs :
  process_project_content sched self project base user w = (w', Ret rs) ->
  exists n wv wl dv dl cs,
    project !! "Name" = Some (VStr n)
    /\ project !! "Workbooks" = Some wv /\ iter wv = Ret wl
    /\ project !! "Datasources" = Some dv /\ iter dv = Ret dl
    /\ (0 < max_workers self)%Z
    /\ pool_of (str (project_dir base n)) user (tasks_of wl dl) = Some cs
    /\ snd (mkdir_prefixes (str (project_dir base n))
                           (prefixes (project_dir base n)) (fs w)) = None
    /\ rs = as_completed sched cs
    /\ w' = World (fst (mkdir_prefixes (str (project_dir base n))
                                       (prefixes (project_dir base n)) (fs w)))
                  (trace w ++ Mkdir (str (project_dir base n))
                     :: map Submit cs ++ map Result (as_completed sched cs)).
Proof.
  unfold process_project_content, getitem.
  unfold bind at 1. unfold lift at 1.
  destruct (project !! "Name") as [[|n|l]|] eqn:Hn; try done.
  unfold bind at 1. unfold lift at 1. simpl replace.
  unfold bind at 1. fold (project_dir base n). unfold mkdir at 1.
  destruct (mkdir_prefixes _ _ (fs w)) as [fs1 [e|]] eqn:Hmk; [done|].
  unfold bind at 1. unfold lift at 1.
  destruct (project !! "Workbooks") as [wv|] eqn:Hwv; [|done].
  unfold bind at 1. unfold lift at 1.
  destruct (iter wv) as [wl|] eqn:Hwl; [|done].
  unfold bind at 1. unfold lift at 1.
  destruct (project !! "Datasources") as [dv|] eqn:Hdv; [|done].
  unfold bind at 1. unfold lift at 1.
  destruct (iter dv) as [dl|] eqn:Hdl; [|done].
  unfold bind at 1. unfold ThreadPoolExecutor.
  destruct (Z.leb_spec (max_workers self) 0) as [|Hmw]; [done|].
  unfold ret at 1. unfold bind at 1. fold (tasks_of wl dl).
  destruct (map_m _ (tasks_of wl dl) _) as [w2 [cs|e]] eqn:Hm; [|done].
  pose proof (map_m_submit_inv _ _ _ _ _ _ Hm) as Hpool.
  rewrite (map_m_submit_eval _ _ _ _ _ Hpool) in Hm. injection Hm as <-.
  unfold bind. rewrite for_each_emit_eval. unfold ret. simpl.
  intros [= <- <-]. exists n, wv, wl, dv, dl, cs.
  rewrite Hmk. repeat (split; [done|]).
  f_equal. by rewrite <- !List.app_assoc.
Qed.

(** The directory [mkdir] leaves, and whether it raised. *)
Lemma mkdir_eval d w :
  mkdir d w
  = (World (fst (mkdir_prefixes (str d) (prefixes d) (fs w)))
           (trace w ++ [Mkdir (str d)]),
     match snd (mkdir_prefixes (str d) (prefixes d) (fs w)) with
     | None => Ret tt
     | Some e => Raise e
     end).
Proof. unfold mkdir. by destruct (mkdir_prefixes _ _ _). Qed.

Lemma process_project_content_eval
    self project base user w n wv wl dv dl cs :
  project !! "Name" = Some (VStr n) ->
  project !! "Workbooks" = Some wv -> iter wv = Ret wl ->
  project !! "Datasources" = Some dv -> iter dv = Ret dl ->
  (0 < max_workers self)%Z ->
  pool_of (str (project_dir base n)) user (tasks_of wl dl) = Some cs ->
  mkdir_clear (fs w) (project_dir base n) ->
  process_project_content sched self project base user w
  = (World (fst (mkdir_prefixes (str (project_dir base n))
                                (prefixes (project_dir base n)) (fs w)))
           (trace w ++ Mkdir (str (project_dir base n))
              :: map Submit cs ++ map Result (as_completed sched cs)),
     Ret (as_completed sched cs)).
Proof.
  intros Hn Hwv Hwl Hdv Hdl Hmw Hpool Hclear.
  pose proof (mkdir_prefixes_clear (str (project_dir base n))
                (prefixes (project_dir base n)) (fs w) Hclear) as Hmk.
  unfold process_project_content, getitem. rewrite Hn, Hwv, Hdv.
  unfold bind at 1. unfold lift at 1. unfold bind at 1. simpl replace.
  unfold lift at 1. unfold bind at 1. fold (project_dir base n).
  rewrite mkdir_eval, Hmk.
  unfold bind at 1. unfold lift at 1. unfold bind at 1. unfold lift at 1.
  rewrite Hwl. unfold bind at 1. unfold lift at 1. unfold bind at 1.
  unfold lift at 1. rewrite Hdl. unfold bind at 1. unfold ThreadPoolExecutor.
  destruct (Z.leb_spec (max_workers self) 0) as [|_]; [lia|]. unfold ret at 1.
  unfold bind at 1. fold (tasks_of wl dl).
  rewrite (map_m_submit_eval _ _ _ _ _ Hpool).
  unfold bind. rewrite for_each_emit_eval. unfold ret. simpl.
  f_equal. f_equal. by rewrite <- !List.app_assoc.
Qed.




Lemma downloads_app evs1 evs2 :
  downloads (evs1 ++ evs2) = downloads evs1 ++ downloads evs2.
Proof. unfold downloads. by rewrite omap_app. Qed.


(** X8.  When [process_project_content] returns, the directory of the
    project and every directory above it exist, and the file system has
    only gained directories: nothing was removed or changed, and no regular
    file was written. *)
Theorem process_project_content_makes_directory
    self project base user w w' rs :
  process_project_content sched self project base user w = (w', Ret rs) ->
  exists n,
    project !! "Name" = Some (VStr n)
    /\ (forall q, q ∈ prefixes (project_dir base n) ->
          lookup_path (fs w') (str q) = Some Dir)
    /\ adds_dirs (fs w) (fs w').
Proof.
  intros (n & wv & wl & dv & dl & cs & Hn & _ & _ & _ & _ & _ & _ & Hmk & _
          & ->)%process_project_content_inv.
  exists n. split; [done|]. split.
  - intros q Hq. by apply mkdir_prefixes_made.
  - apply mkdir_prefixes_adds.
Qed.

(** X10.  A regular file at the place of the project's directory, or of a
    directory above it, makes [process_project_content] raise
    [FileExistsError] or [NotADirectoryError] before it reads the content
    lists: nothing is handed to the pool, and the file system has at most
    gained directories. *)
Theorem process_project_content_blocked
    self project base user w n q data :
  project !! "Name" = Some (VStr n) ->
  q ∈ prefixes (project_dir base n) ->
  lookup_path (fs w) (str q) = Some (File data) ->
  exists w' e,
    process_project_content sched self project base user w = (w', Raise e)
    /\ (e = FileExistsError (str (project_dir base n))
        \/ e = NotADirectoryError (str (project_dir base n)))
    /\ trace w' = trace w ++ [Mkdir (str (project_dir base n))]
    /\ adds_dirs (fs w) (fs w').
Proof.
  intros Hn Hq Hl.
  unfold process_project_content, getitem. rewrite Hn.
  unfold bind at 1. unfold lift at 1. unfold bind at 1. simpl replace.
  unfold lift at 1. unfold bind at 1. fold (project_dir base n).
  rewrite mkdir_eval.
  destruct (mkdir_prefixes_blocked (str (project_dir base n)) _ _ _ _ Hq Hl)
    as [-> | ->]; eexists _, _; (split; [reflexivity|]);
    (split; [by auto|]); (split; [done|]); apply mkdir_prefixes_adds.
Qed.



End ContentMore.
(** ** More on the walker *)

Section WalkMore.

Import Py Eff PosixPath TableauBackup Layout Walk Fetching More.
Local Open Scope string_scope.
Local Open Scope list_scope.

Variable sched : scheduler.

(** *** Steps of the file system *)

Lemma fs_step_bind {A B} (m : M world A) (k : A -> M world B) :
  fs_step adds_dirs m -> (forall a, fs_step adds_dirs (k a)) ->
  fs_step adds_dirs (bind m k).
Proof.
  intros Hm Hk w. unfold bind. specialize (Hm w).
  destruct (m w) as [w1 [a|e]]; simpl in *; [|done].
  eapply adds_dirs_trans; [exact Hm|apply Hk].
Qed.

Lemma fs_step_still {A} (m : M world A) :
  (forall w, fs (fst (m w)) = fs w) -> fs_step adds_dirs m.
Proof. intros H w. rewrite H. apply adds_dirs_refl. Qed.

Lemma fs_step_for_each {A} (l : list A) (body : A -> M world unit) :
  (forall x, fs_step adds_dirs (body x)) ->
  fs_step adds_dirs (for_each l body).
Proof.
  intros Hb. induction l as [|x l IH]; simpl; [by apply fs_step_still|].
  by apply fs_step_bind.
Qed.

Lemma fs_step_map_m {A B} (body : A -> M world B) (l : list A) :
  (forall x, fs_step adds_dirs (body x)) ->
  fs_step adds_dirs (map_m body l).
Proof.
  intros Hb. induction l as [|x l IH]; simpl; [by apply fs_step_still|].
  apply fs_step_bind; [done|]. intros y.
  apply fs_step_bind; [done|]. intros ys. by apply fs_step_still.
Qed.

Lemma fs_step_mkdir d : fs_step adds_dirs (mkdir d).
Proof. intros w. rewrite mkdir_eval. apply mkdir_prefixes_adds. Qed.

Lemma fs_step_process_project_content self project base user :
  fs_step adds_dirs (process_project_content sched self project base user).
Proof.
  unfold process_project_content.
  apply fs_step_bind; [by apply fs_step_still|]. intros name.
  apply fs_step_bind; [by apply fs_step_still|]. intros dirname.
  apply fs_step_bind; [apply fs_step_mkdir|]. intros _.
  apply fs_step_bind; [by apply fs_step_still|]. intros wv.
  apply fs_step_bind; [by apply fs_step_still|]. intros wl.
  apply fs_step_bind; [by apply fs_step_still|]. intros dv.
  apply fs_step_bind; [by apply fs_step_still|]. intros dl.
  apply fs_step_bind.
  { apply fs_step_still. intros w. unfold ThreadPoolExecutor.
    by destruct (_ <=? _)%Z. }
  intros _. apply fs_step_bind.
  { apply fs_step_map_m. intros [k c]. unfold submit_download.
    apply fs_step_bind; [by apply fs_step_still|]. intros a.
    apply fs_step_bind; [by apply fs_step_still|]. intros b.
    apply fs_step_bind; by intros; apply fs_step_still. }
  intros futures. apply fs_step_bind; [|by intros; apply fs_step_still].
  apply fs_step_for_each. intros c. by apply fs_step_still.
Qed.

Lemma fs_step_visit_project self proj base cid user :
  fs_step adds_dirs (visit_project sched self proj base cid user).
Proof.
  unfold visit_project.
  apply fs_step_bind; [by apply fs_step_still|]. intros _.
  apply fs_step_bind; [apply fs_step_process_project_content|]. intros _.
  apply fs_step_bind; by intros; apply fs_step_still.
Qed.

Lemma await_each_adds_dirs rec cs :
  (forall c w w' r, rec c w = Some (w', r) -> adds_dirs (fs w) (fs w')) ->
  forall w w' r,
    await_each rec cs w = Some (w', r) -> adds_dirs (fs w) (fs w').
Proof.
  intros Hrec. induction cs as [|c cs IH]; intros w w' r; simpl.
  - intros [= <- _]. apply adds_dirs_refl.
  - destruct (rec c w) as [[w1 [[]|e]]|] eqn:Hc; [|intros [= <- _]; eauto|done].
    intros H. eapply adds_dirs_trans; [by eapply Hrec|by eapply IH].
Qed.

Lemma downloads_cons ev evs :
  downloads (ev :: evs)
  = match ev with
    | RemoteDownload k i p => (k, i, p) :: downloads evs
    | _ => downloads evs
    end.
Proof. by destruct ev. Qed.

Lemma downloads_walk_events idx base evs :
  Forall (walk_event idx base) evs -> downloads evs = [].
Proof.
  induction 1 as [|ev evs Hev _ IH]; [done|].
  rewrite downloads_cons, IH. destruct ev; try done.
  by destruct Hev as (i & proj & n & _ & _ & []).
Qed.

(** X13.  Whatever the index holds and however the walk ends, the walker
    only adds directories to the file system: it removes and changes
    nothing, and no regular file is written, so no content reaches the
    disk through the walk. *)
Theorem walk_only_adds_directories self idx base user fuel cid w w' r :
  create_and_fill_child_dir sched fuel self idx base cid user w = Some (w', r) ->
  adds_dirs (fs w) (fs w')
  /\ downloads (trace w') = downloads (trace w).
Proof.
  intros Hwalk. split.
  - revert cid w w' r Hwalk.
    induction fuel as [|fuel IH]; intros cid w w' r; simpl; [done|].
    destruct (dict_get idx cid) as [proj|e] eqn:Hget;
      [|intros [= <- _]; apply adds_dirs_refl].
    destruct (falsy proj) eqn:Hf; [intros [= <- _]; apply adds_dirs_refl|].
    pose proof (fs_step_visit_project self (default ∅ proj) base cid user w)
      as Hv.
    destruct (visit_project _ _ _ _ _ _ w) as [w1 [children|e]]; simpl in Hv.
    + intros H. eapply adds_dirs_trans; [exact Hv|].
      eapply await_each_adds_dirs; [|exact H]. intros c; apply IH.
    + by intros [= <- _].
  - destruct (walk_grows _ _ _ _ _ _ _ _ _ _ Hwalk) as [(evs & -> & Hev) _].
    by rewrite downloads_app, (downloads_walk_events _ _ _ Hev), app_nil_r.
Qed.


(** X14.  A failure in the walk of one child ends the walk of the parent
    with the same exception, in the world the child left: the children
    listed after it are not walked. *)
Theorem walk_child_failure_ends_the_walk
    self idx base user fuel cid proj w w1 before child after w2 w3 e :
  dict_get idx cid = Ret (Some proj) ->
  falsy (Some proj) = false ->
  visit_project sched self proj base cid user w
  = (w1, Ret (before ++ child :: after)) ->
  await_each (fun c => create_and_fill_child_dir sched fuel self idx base c user)
             before w1
  = Some (w2, Ret tt) ->
  create_and_fill_child_dir sched fuel self idx base child user w2
  = Some (w3, Raise e) ->
  create_and_fill_child_dir sched (S fuel) self idx base cid user w
  = Some (w3, Raise e).
Proof.
  intros Hget Hf Hvisit Hbefore Hchild. simpl. rewrite Hget, Hf.
  change (default ∅ (Some proj)) with proj. rewrite Hvisit.
  clear Hvisit. revert w1 Hbefore.
  induction before as [|b before IH]; intros w1; simpl.
  - intros [= ->]. by rewrite Hchild.
  - destruct (create_and_fill_child_dir _ _ _ _ _ b _ w1)
      as [[wb [[]|eb]]|]; [|done|done]. apply IH.
Qed.

(** X16.  A project without the key ['Child Dirs'] ends the walk with
    [KeyError], after its content was processed: a project without children
    has to carry an empty list. *)
Theorem walk_missing_child_dirs self idx base user fuel cid proj w w1 rs :
  dict_get idx cid = Ret (Some proj) ->
  falsy (Some proj) = false ->
  proj !! "Child Dirs" = None ->
  process_project_content sched self proj base user
                          (logged w (Visit cid))
  = (w1, Ret rs) ->
  create_and_fill_child_dir sched (S fuel) self idx base cid user w
  = Some (w1, Raise (KeyError "Child Dirs")).
Proof.
  intros Hget Hf Hnone Hrun. simpl. rewrite Hget, Hf.
  change (default ∅ (Some proj)) with proj.
  unfold visit_project. unfold bind at 1. unfold emit at 1.
  fold (logged w (Visit cid)). unfold bind at 1. rewrite Hrun.
  unfold bind, lift, getitem. by rewrite Hnone.
Qed.

End WalkMore.

(** ** More on the run *)

Section RunMore.

Import Py Eff PosixPath TableauBackup Run Walk Fetching More.
Local Open Scope string_scope.
Local Open Scope list_scope.

Variable sched : scheduler.

Lemma sign_outs_app evs1 evs2 :
  sign_outs (evs1 ++ evs2) = (sign_outs evs1 + sign_outs evs2)%nat.
Proof. unfold sign_outs. by rewrite List.filter_app, length_app. Qed.

Lemma sign_outs_map_Submit cs : sign_outs (map Submit cs) = 0%nat.
Proof. unfold sign_outs. by induction cs. Qed.

Lemma sign_outs_map_Result cs : sign_outs (map Result cs) = 0%nat.
Proof. unfold sign_outs. by induction cs. Qed.

Lemma sign_outs_commit_tail env : sign_outs (fst (commit_tail env)) = 0%nat.
Proof.
  unfold commit_tail.
  by destruct (git_add env), (index_commit env), (git_push env).
Qed.

Lemma submitted_app evs1 evs2 :
  submitted (evs1 ++ evs2) = submitted evs1 ++ submitted evs2.
Proof. unfold submitted. apply omap_app. Qed.

Lemma submitted_map_Submit cs : submitted (map Submit cs) = cs.
Proof. induction cs as [|c cs IH]; [done|]. simpl. by f_equal. Qed.

Lemma submitted_map_Result cs : submitted (map Result cs) = [].
Proof. by induction cs. Qed.

Lemma submitted_commit_tail env : submitted (fst (commit_tail env)) = [].
Proof.
  unfold commit_tail.
  by destruct (git_add env), (index_commit env), (git_push env).
Qed.

(** A run whose setup succeeds, in full. *)
Lemma backup_tableau_eval env self w srv fs1 projects :
  not_str (TABLEAU_USERNAME env) = false ->
  not_str (TABLEAU_PASSWORD env) = false ->
  new_server env = Ret srv ->
  sign_in env = None ->
  clone_from env (fs w) = (fs1, None) ->
  pager_projects env = Ret projects ->
  (0 < max_workers self)%Z ->
  backup_tableau sched env (self, w)
  = ((Self (config_ self) (Some srv) (build_project_cache projects)
           (max_workers self),
      World fs1
            (trace w
             ++ setup_events self
             ++ map Submit (map (root_task env self projects)
                                (root_projects projects))
             ++ map Result (as_completed sched
                              (map (root_task env self projects)
                                   (root_projects projects)))
             ++ Committer :: fst (commit_tail env)
             ++ match snd (commit_tail env) with
                | Raise e => [Log ERROR ("Backup failed: " ++ exn_str e)]
                | Ret _ => []
                end
             ++ [SignOut])),
     match sign_out env with
     | Some e => Raise e
     | None => snd (commit_tail env)
     end).
Proof.
  intros Hu Hp Hsrv Hin Hclone Hlist Hmw.
  unfold backup_tableau, try_finally, try_except at 1.
  unfold bind at 1. unfold connect_to_tableau, try_except.
  rewrite Hu, Hp. simpl. unfold bind at 1. unfold lift. rewrite Hsrv.
  unfold bind, set_self, in_world, emit, outcome, get_self, clone. simpl.
  rewrite Hin. unfold ret. simpl. rewrite Hclone. simpl.
  rewrite Hlist. simpl. unfold ThreadPoolExecutor.
  destruct (Z.leb_spec (max_workers self) 0) as [|_]; [lia|].
  unfold ret. simpl.
  rewrite map_m_submit_root. simpl.
  rewrite for_each_emit_results. simpl.
  rewrite commit_and_push_changes_run. simpl.
  unfold root_task. rewrite map_map.
  destruct (commit_tail env) as [tl [[]|e]]; simpl;
    unfold raise; simpl; destruct (sign_out env); simpl;
    repeat (rewrite <- List.app_assoc; simpl); reflexivity.
Qed.

Lemma setup_ok_inv env self w :
  setup_ok env self w = true ->
  exists srv fs1 projects,
    not_str (TABLEAU_USERNAME env) = false
    /\ not_str (TABLEAU_PASSWORD env) = false
    /\ new_server env = Ret srv
    /\ sign_in env = None
    /\ clone_from env (fs w) = (fs1, None)
    /\ pager_projects env = Ret projects
    /\ (0 < max_workers self)%Z.
Proof.
  unfold setup_ok. intros Hsetup.
  repeat (apply andb_prop in Hsetup as [Hsetup ?]).
  destruct (new_server env) as [srv|] eqn:Hsrv; [|done].
  destruct (sign_in env) eqn:Hin; [done|].
  destruct (clone_from env (fs w)) as [fs1 [|]] eqn:Hclone; [done|].
  destruct (pager_projects env) as [projects|] eqn:Hlist; [|done].
  exists srv, fs1, projects.
  repeat split; try done; try (by apply negb_true_iff). by apply Z.ltb_lt.
Qed.

Ltac close_signed :=
  match goal with
  | |- exists evs0, ?l = _ ++ [SignOut] /\ _ => exists (removelast l)
  end;
  simpl; (split; [done|]); (split; [done|]); (split; [by eexists|]);
  intros ? [=]; by subst.

Ltac finish_report :=
  unfold raise, bind, in_world, emit, get_self, ret, outcome; simpl;
  repeat match goal with
         | |- context [match server_ ?s with _ => _ end] =>
             destruct (server_ s) eqn:?; simpl
         | |- context [match sign_out ?e with _ => _ end] =>
             destruct (sign_out e) eqn:?; simpl
         end;
  eexists _, _, _, _; (split; [reflexivity|]); simpl;
  (split; [repeat (rewrite <- List.app_assoc; simpl); reflexivity|]);
  (split; [by auto|]).

(** Every run: what it did to the files, and whether it signed out. *)
Lemma backup_tableau_report env self w :
  exists self' w' r evs,
    backup_tableau sched env (self, w) = ((self', w'), r)
    /\ trace w' = trace w ++ evs
    /\ (fs w' = fs w \/ fs w' = fst (clone_from env (fs w)))
    /\ if negb (not_str (TABLEAU_USERNAME env))
          && negb (not_str (TABLEAU_PASSWORD env))
          && is_Ret (new_server env)
       then exists evs0,
              evs = evs0 ++ [SignOut] /\ sign_outs evs0 = 0%nat
              /\ is_Some (server_ self')
              /\ forall e, sign_out env = Some e -> r = Raise e
       else server_ self = None ->
            sign_outs evs = 0%nat /\ server_ self' = None.
Proof.
  destruct (setup_ok env self w) eqn:Hsetup.
  { destruct (setup_ok_inv env self w Hsetup)
      as (srv & fs1 & projects & Hu & Hp & Hsrv & Hin & Hclone & Hlist & Hmw).
    rewrite (backup_tableau_eval env self w srv fs1 projects) by done.
    rewrite Hu, Hp, Hsrv, Hclone. simpl.
    eexists _, _, _, _. split; [reflexivity|]. simpl. split; [reflexivity|].
    split; [by right|].
    exists (setup_events self
            ++ map Submit (map (root_task env self projects)
                               (root_projects projects))
            ++ map Result (as_completed sched
                             (map (root_task env self projects)
                                  (root_projects projects)))
            ++ Committer :: fst (commit_tail env)
            ++ match snd (commit_tail env) with
               | Raise e => [Log ERROR ("Backup failed: " ++ exn_str e)]
               | Ret _ => []
               end).
    split.
    { unfold setup_events. simpl.
      repeat (rewrite <- List.app_assoc; simpl). reflexivity. }
    split.
    - rewrite !sign_outs_app, sign_outs_map_Submit, sign_outs_map_Result.
      change (Committer :: ?l) with ([Committer] ++ l).
      rewrite !sign_outs_app, sign_outs_commit_tail.
      by destruct (snd (commit_tail env)).
    - split; [by eexists|]. by intros e ->. }
  revert Hsetup. unfold setup_ok.
  unfold backup_tableau, try_finally, try_except at 1.
  unfold bind at 1. unfold connect_to_tableau, try_except.
  destruct (not_str (TABLEAU_USERNAME env)); simpl;
    [intros _; finish_report; try done; by intros [=]|].
  destruct (not_str (TABLEAU_PASSWORD env)); simpl;
    [intros _; finish_report; try done; by intros [=]|].
  unfold bind at 1. unfold lift.
  destruct (new_server env) as [srv|e]; simpl;
    [|intros _; finish_report; try done; by intros [=]].
  unfold bind, set_self, in_world, emit, outcome, get_self, clone. simpl.
  destruct (sign_in env) as [e|]; simpl.
  { intros _. finish_report.
    all: close_signed. }
  unfold ret. simpl.
  destruct (clone_from env (fs w)) as [fs1 [e|]]; simpl.
  { intros _. finish_report.
    all: close_signed. }
  destruct (pager_projects env) as [projects|e]; simpl.
  2:{ intros _. finish_report. all: close_signed. }
  unfold ThreadPoolExecutor.
  destruct (Z.leb_spec (max_workers self) 0) as [Hle|Hlt].
  2:{ apply Z.ltb_lt in Hlt. congruence. }
  intros _. finish_report. all: close_signed.
Qed.

Lemma idle_no_walk evs :
  Forall idle evs -> downloads evs = [] /\ visits evs = [].
Proof.
  induction 1 as [|ev evs Hev _ [IHd IHv]]; [done|].
  destruct ev; try done.
Qed.

(** X17.  Whatever the outside answers, a run asks the server for no
    download and visits no project, and the only change it makes to the
    files is the one the clone makes: the tasks of its pool are coroutine
    objects nobody awaits. *)
Theorem run_fetches_nothing env self w :
  exists self' w' r,
    backup_tableau sched env (self, w) = ((self', w'), r)
    /\ downloads (trace w') = downloads (trace w)
    /\ visits (trace w') = visits (trace w)
    /\ (fs w' = fs w \/ fs w' = fst (clone_from env (fs w))).
Proof.
  destruct (backup_tableau_report env self w)
    as (self' & w' & r & evs & Hrun & Htr & Hfs & _).
  destruct (run_never_walks sched env self w)
    as (self2 & w2 & r2 & evs2 & Hrun2 & Htr2 & Hidle).
  rewrite Hrun in Hrun2. injection Hrun2 as <- <- <-.
  destruct (idle_no_walk evs2 Hidle) as [Hd Hv].
  exists self', w', r. split; [done|].
  rewrite Htr2, downloads_app, visits_app, Hd, Hv, !app_nil_r. done.
Qed.

(** X18.  Signing out follows the server object, not the sign-in: on an
    object that was never connected, a run ends with exactly one sign-out
    when the credentials are there and the server object could be made, also
    when the sign-in itself or anything after it failed, and with none
    otherwise. *)
Theorem run_signs_out_once env self w :
  server_ self = None ->
  exists self' w' r evs,
    backup_tableau sched env (self, w) = ((self', w'), r)
    /\ trace w' = trace w ++ evs
    /\ if negb (not_str (TABLEAU_USERNAME env))
          && negb (not_str (TABLEAU_PASSWORD env))
          && is_Ret (new_server env)
       then sign_outs evs = 1%nat /\ last evs = Some SignOut
            /\ is_Some (server_ self')
       else sign_outs evs = 0%nat /\ server_ self' = None.
Proof.
  intros Hnone.
  destruct (backup_tableau_report env self w)
    as (self' & w' & r & evs & Hrun & Htr & _ & Hout).
  exists self', w', r, evs. split; [done|]. split; [done|].
  destruct (negb (not_str (TABLEAU_USERNAME env))
            && negb (not_str (TABLEAU_PASSWORD env))
            && is_Ret (new_server env)).
  - destruct Hout as (evs0 & -> & H0 & Hsome & _).
    rewrite sign_outs_app, H0, last_snoc. done.
  - by apply Hout.
Qed.

(** X19.  An exception of the sign-out replaces the outcome of the run:
    when the server object was made and the sign-out raises, the run raises
    that exception, whether the backup before it succeeded or failed. *)
Theorem sign_out_failure_replaces_the_outcome env self w srv e :
  not_str (TABLEAU_USERNAME env) = false ->
  not_str (TABLEAU_PASSWORD env) = false ->
  new_server env = Ret srv ->
  sign_out env = Some e ->
  exists self' w',
    backup_tableau sched env (self, w) = ((self', w'), Raise e).
Proof.
  intros Hu Hp Hsrv Hout.
  destruct (backup_tableau_report env self w)
    as (self' & w' & r & evs & Hrun & _ & _ & Hrep).
  rewrite Hu, Hp, Hsrv in Hrep. simpl in Hrep.
  destruct Hrep as (_ & _ & _ & _ & Hr).
  exists self', w'. by rewrite Hrun, (Hr e Hout).
Qed.

(** X20.  A failure of the committer is fatal and logged twice: when the
    setup succeeded and [add], [commit] or [push] raises, the run logs the
    failure in the committer and again in [backup_tableau], signs out, and
    raises the exception. *)
Theorem commit_failure_is_logged_twice env self w e :
  setup_ok env self w = true ->
  git_add env = Some e
  \/ (git_add env = None /\ index_commit env = Some e)
  \/ (git_add env = None /\ index_commit env = None /\ git_push env = Some e) ->
  exists self' w' r evs,
    backup_tableau sched env (self, w) = ((self', w'), r)
    /\ trace w'
       = trace w ++ evs
         ++ [ Log ERROR ("Failed to commit/push changes: " ++ exn_str e);
              Log ERROR ("Backup failed: " ++ exn_str e);
              SignOut ]
    /\ (sign_out env = None -> r = Raise e).
Proof.
  intros Hsetup Hfail.
  destruct (setup_ok_inv env self w Hsetup)
    as (srv & fs1 & projects & Hu & Hp & Hsrv & Hin & Hclone & Hlist & Hmw).
  rewrite (backup_tableau_eval env self w srv fs1 projects) by done.
  assert (exists tl,
            commit_tail env
            = (tl ++ [Log ERROR ("Failed to commit/push changes: "
                                 ++ exn_str e)],
               Raise e)) as [tl Htl].
  { unfold commit_tail.
    destruct Hfail as [->|[[-> ->]|(-> & -> & ->)]].
    - by exists [GitAdd].
    - by exists [GitAdd; GitCommit ("Backup " ++ now env)].
    - by exists [GitAdd; GitCommit ("Backup " ++ now env); GitPush]. }
  rewrite Htl. simpl.
  eexists _, _, _,
    (setup_events self
     ++ map Submit (map (root_task env self projects) (root_projects projects))
     ++ map Result (as_completed sched
                      (map (root_task env self projects)
                           (root_projects projects)))
     ++ Committer :: tl).
  split; [reflexivity|]. split.
  - simpl. repeat (rewrite <- List.app_assoc; simpl). reflexivity.
  - by intros ->.
Qed.

(** X21.  Without a user name or a password the run stops before it
    touches anything: on an object that was never connected it logs the
    failure twice, neither signs in nor clones nor signs out, leaves the
    object and the files as they were, and raises [ValueError]. *)
Theorem run_without_credentials env self w :
  server_ self = None ->
  not_str (TABLEAU_USERNAME env) || not_str (TABLEAU_PASSWORD env) = true ->
  backup_tableau sched env (self, w)
  = ((self,
      World (fs w)
            (trace w
             ++ [ Log ERROR ("Failed to connect to Tableau server: "
                             ++ "Tableau credentials not found in "
                             ++ "environment variables");
                  Log ERROR ("Backup failed: "
                             ++ "Tableau credentials not found in "
                             ++ "environment variables") ])),
     Raise (ValueError
              "Tableau credentials not found in environment variables")).
Proof.
  intros Hnone Hcreds.
  unfold backup_tableau, try_finally, try_except at 1.
  unfold bind at 1. unfold connect_to_tableau, try_except.
  rewrite Hcreds.
  unfold raise, bind, in_world, emit, get_self, ret. simpl.
  rewrite Hnone. by rewrite <- List.app_assoc.
Qed.

(** X22.  The pool of a run gets one task per root project, in the order
    of the listing, and each task holds the whole project cache; a project
    with a parent gets no task of its own.  After the run the object holds
    that cache. *)
Theorem run_submits_one_task_per_root env self w projects :
  setup_ok env self w = true ->
  pager_projects env = Ret projects ->
  exists self' w' r evs,
    backup_tableau sched env (self, w) = ((self', w'), r)
    /\ trace w' = trace w ++ evs
    /\ submitted evs
       = map (fun proj =>
                Coro_create_and_fill_child_dir
                  (build_project_cache projects) (base_dir (config_ self))
                  (id proj) (TABLEAU_USERNAME env))
             (List.filter (fun proj => not_str (parent_id proj)) projects)
    /\ project_cache self' = build_project_cache projects.
Proof.
  intros Hsetup Hlist.
  destruct (setup_ok_inv env self w Hsetup)
    as (srv & fs1 & projects' & Hu & Hp & Hsrv & Hin & Hclone & Hlist' & Hmw).
  rewrite Hlist in Hlist'. injection Hlist' as <-.
  rewrite (backup_tableau_eval env self w srv fs1 projects) by done.
  eexists _, _, _,
    (setup_events self
     ++ map Submit (map (root_task env self projects) (root_projects projects))
     ++ map Result (as_completed sched
                      (map (root_task env self projects)
                           (root_projects projects)))
     ++ [Committer] ++ fst (commit_tail env)
     ++ match snd (commit_tail env) with
        | Raise e => [Log ERROR ("Backup failed: " ++ exn_str e)]
        | Ret _ => []
        end
     ++ [SignOut]).
  split; [reflexivity|]. split; [reflexivity|]. split; [|done].
  rewrite !submitted_app, submitted_map_Submit, submitted_map_Result,
    submitted_commit_tail.
  by destruct (snd (commit_tail env)); simpl; rewrite app_nil_r.
Qed.

End RunMore.

(** ** The configuration and the two caches *)

Section ConfigMore.

Import Py Eff PosixPath TableauBackup Layout Walk Fetching More PathFacts.
Local Open Scope string_scope.
Local Open Scope list_scope.

(** *** Paths *)

Lemma wf_take r ps k : wf (mk r ps) -> wf (mk r (take k ps)).
Proof.
  intros [Hr Hps]. split; [done|]. simpl in *. by apply Forall_take.
Qed.

Lemma removelast_take {A} (l : list A) : removelast l = take (length l - 1) l.
Proof.
  induction l as [|x [|y l] IH]; [done|done|].
  change (removelast (x :: y :: l)) with (x :: removelast (y :: l)).
  rewrite IH. simpl. by rewrite Nat.sub_0_r.
Qed.

Lemma prefixes_inv p q :
  q ∈ prefixes p ->
  exists k, (k < length (parts p))%nat /\ q = mk (root p) (take (S k) (parts p)).
Proof.
  unfold prefixes. intros (k & -> & Hk)%list_elem_of_fmap.
  apply list_elem_of_In, in_seq in Hk. exists k. split; [lia|done].
Qed.

(** The string of an ancestor is not the string of the path. *)
Lemma prefixes_parent_str s q :
  q ∈ prefixes (parent (Path s)) -> norm (str q) = str q /\ str q <> norm s.
Proof.
  intros (k & Hk & ->)%prefixes_inv. simpl in *.
  pose proof (Path_wf s) as Hwf.
  assert (wf (mk (root_of s)
                 (take (S k) (removelast (parts (Path s)))))) as Hq.
  { rewrite removelast_take, take_take. by apply (wf_take _ _ _ Hwf). }
  split; [unfold norm; by rewrite Path_str|].
  unfold norm. intros E. apply (f_equal Path) in E.
  rewrite !Path_str in E by done.
  apply (f_equal (fun p => length (parts p))) in E. simpl in E.
  rewrite removelast_take, length_take in Hk.
  rewrite removelast_take, take_take, length_take in E.
  change (List.filter keep_part (split_slash s)) with (parts (Path s)) in *.
  lia.
Qed.

Lemma file_in_the_way_clear fs0 d :
  mkdir_clear fs0 d -> file_in_the_way fs0 (prefixes d) = false.
Proof.
  intros Hc. unfold file_in_the_way.
  apply not_true_is_false. intros (q & Hq & Hfile)%existsb_exists.
  apply list_elem_of_In in Hq.
  destruct (lookup_path fs0 (str q)) as [[data|]|] eqn:Hl; try done.
  by eapply Hc.
Qed.

(** *** [_load_config] *)

(** The first load of a missing file. *)
Lemma load_config_missing_eval y getenv p w :
  parts (Path p) <> [] ->
  mkdir_clear (fs w) (parent (Path p)) ->
  lookup_path (fs w) p = None ->
  _load_config y getenv p w
  = (World (<[norm p := File (dump y (default_config getenv))]>
              (fst (mkdir_prefixes (str (parent (Path p)))
                                   (prefixes (parent (Path p))) (fs w))))
           (trace w ++ [Mkdir (str (parent (Path p)))]),
     Ret (default_config getenv)).
Proof.
  intros Hparts Hclear Hnone. unfold _load_config.
  rewrite (file_in_the_way_clear _ _ Hclear).
  rewrite bool_decide_eq_false_2 by done. rewrite Hnone.
  unfold bind at 1. rewrite mkdir_eval.
  by rewrite (mkdir_prefixes_clear _ _ _ Hclear).
Qed.

(** X23.  The first load of a missing configuration file answers the
    defaults, those of the environment where it sets them, and leaves them
    behind: the directories above the file are there, the file holds the
    dump of the defaults, and nothing else was changed or removed. *)
Theorem load_config_writes_defaults y getenv p w :
  canonical p ->
  parts (Path p) <> [] ->
  mkdir_clear (fs w) (parent (Path p)) ->
  lookup_path (fs w) p = None ->
  exists w',
    _load_config y getenv p w = (w', Ret (default_config getenv))
    /\ fs w' !! p = Some (File (dump y (default_config getenv)))
    /\ (forall q, q ∈ prefixes (parent (Path p)) ->
          lookup_path (fs w') (str q) = Some Dir)
    /\ (forall k, k <> p ->
          fs w' !! k = fs w !! k
          \/ (fs w !! k = None /\ fs w' !! k = Some Dir))
    /\ trace w' = trace w ++ [Mkdir (str (parent (Path p)))].
Proof.
  intros [Hcan _] Hparts Hclear Hnone.
  assert (norm p = p) as Hnorm by done.
  rewrite (load_config_missing_eval y getenv p w Hparts Hclear Hnone).
  eexists. split; [reflexivity|]. simpl. rewrite Hnorm.
  split; [by rewrite lookup_insert_eq|]. split; [|split; [|done]].
  - intros q Hq. destruct (prefixes_parent_str p q Hq) as [Hq1 Hq2].
    unfold lookup_path. rewrite Hq1, lookup_insert_ne by congruence.
    rewrite <- Hq1. apply mkdir_prefixes_made; [|done].
    by apply mkdir_prefixes_clear.
  - intros k Hk. rewrite lookup_insert_ne by done.
    apply mkdir_prefixes_adds.
Qed.

(** X24.  Once the file is written the environment no longer counts: when
    the YAML library reads back what it dumped, a second object made from
    the same path is equal to the first, whatever the environment says by
    then, and making it changes nothing. *)
Theorem new_object_from_written_defaults y getenv getenv' p w :
  canonical p ->
  parts (Path p) <> [] ->
  mkdir_clear (fs w) (parent (Path p)) ->
  lookup_path (fs w) p = None ->
  safe_load y (dump y (default_config getenv)) = Ret (default_config getenv) ->
  exists w' self,
    new y getenv p w = (w', Ret self)
    /\ new y getenv' p w' = (w', Ret self)
    /\ server_ self = None
    /\ project_cache self = ∅
    /\ max_workers self = 4%Z.
Proof.
  intros [Hcan _] Hparts Hclear Hnone Hround.
  assert (norm p = p) as Hnorm by done.
  unfold new, bind.
  rewrite (load_config_missing_eval y getenv p w Hparts Hclear Hnone).
  eexists _, _. split; [reflexivity|]. split; [|done].
  unfold _load_config. simpl.
  rewrite file_in_the_way_clear.
  2:{ intros q data Hq. destruct (prefixes_parent_str p q Hq) as [Hq1 Hq2].
      unfold lookup_path. rewrite Hq1, lookup_insert_ne by congruence.
      rewrite <- Hq1.
      change (fst (mkdir_prefixes ?t ?ps ?f) !! norm (str q))
        with (lookup_path (fst (mkdir_prefixes t ps f)) (str q)).
      rewrite (mkdir_prefixes_made _ _ _
                 (mkdir_prefixes_clear _ _ _ Hclear) q Hq).
      done. }
  rewrite bool_decide_eq_false_2 by done.
  unfold lookup_path. rewrite lookup_insert_eq, Hround. done.
Qed.

End ConfigMore.

Section CacheMore.

Import Py Eff PosixPath TableauBackup Walk More.
Local Open Scope string_scope.
Local Open Scope list_scope.

(** *** The project cache *)

(** X25.  The project cache holds, for an id, the entry of the last
    listed project with that id, and nothing for an id no project has. *)
Theorem project_cache_last_listed projects i :
  build_project_cache projects !! i
  = cache_entry
      <$> last (List.filter (fun p => String.eqb (id p) i) projects).
Proof.
  induction projects as [|p projects IH] using rev_ind; [done|].
  rewrite build_project_cache_snoc, List.filter_app. simpl.
  destruct (String.eqb_spec (id p) i) as [<-|Hne].
  - by rewrite lookup_insert_eq, last_snoc.
  - by rewrite lookup_insert_ne, app_nil_r.
Qed.

(** *** The memory of [lookup_parent] *)

Lemma lru_take_head key v rest :
  lru_take key ((key, v) :: rest) = Some (v, rest).
Proof. simpl. by rewrite String.eqb_refl. Qed.

Lemma lru_take_Some key cache v rest :
  lru_take key cache = Some (v, rest) ->
  Permutation cache ((key, v) :: rest).
Proof.
  revert rest. induction cache as [|[k u] cache IH]; intros rest; [done|].
  simpl. destruct (String.eqb_spec k key) as [->|Hne].
  - by intros [= -> ->].
  - destruct (lru_take key cache) as [[v' rest']|]; [|done].
    intros [= -> <-]. rewrite (IH rest' eq_refl). apply perm_swap.
Qed.

Lemma lru_take_None key cache :
  lru_take key cache = None <-> key ∉ keys cache.
Proof.
  unfold keys. induction cache as [|[k u] cache IH]; simpl.
  - split; [intros _; apply not_elem_of_nil|done].
  - rewrite not_elem_of_cons. destruct (String.eqb_spec k key) as [->|Hne].
    + split; [done|]. by intros [? _].
    + destruct (lru_take key cache) as [[v' rest']|].
      * split; [done|]. intros [_ H]. by apply IH in H.
      * split; [|done]. intros _. split; [done|]. by apply IH.
Qed.

Lemma lookup_parent_keeps_shape self key cache :
  (length cache <= maxsize)%nat -> NoDup (keys cache) ->
  (length (fst (lookup_parent self key cache)) <= maxsize)%nat
  /\ NoDup (keys (fst (lookup_parent self key cache))).
Proof.
  intros Hlen Hnd. unfold lookup_parent.
  destruct (lru_take key cache) as [[v rest]|] eqn:Htake; simpl.
  - apply lru_take_Some in Htake. split.
    + apply Permutation_length in Htake. simpl in Htake. lia.
    + unfold keys in *.
      by rewrite <- (Permutation_map fst Htake : _ ≡ₚ key :: map fst rest).
  - apply lru_take_None in Htake. split.
    + rewrite length_take. unfold maxsize. lia.
    + unfold keys in *. simpl.
      change (map fst (take (maxsize - 1) cache))
        with (fst <$> take (maxsize - 1) cache).
      rewrite fmap_take. constructor.
      * intros Hin. apply Htake. by apply (subseteq_take _ _ _ Hin).
      * eapply sublist_NoDup; [|apply sublist_take]. done.
Qed.

(** X26.  An answer of [lookup_parent] is kept with the argument alone:
    a second call with the same id is answered from memory and leaves the
    memory as it is, whatever the project cache of the object holds by
    then. *)
Theorem lookup_parent_answers_from_memory self self' key cache :
  lookup_parent self' key (fst (lookup_parent self key cache))
  = lookup_parent self key cache.
Proof.
  unfold lookup_parent at 2 3.
  destruct (lru_take key cache) as [[v rest]|]; simpl;
    unfold lookup_parent; by rewrite lru_take_head.
Qed.

(** X27.  However many calls were made, [lookup_parent] remembers at most
    1024 of them, and each id once. *)
Theorem lookup_parent_memory_bounded self ids :
  (length (lookups self ids []) <= maxsize)%nat
  /\ NoDup (keys (lookups self ids [])).
Proof.
  unfold lookups.
  assert (forall cache,
             (length cache <= maxsize)%nat /\ NoDup (keys cache) ->
             (length (foldl (fun c key => fst (lookup_parent self key c))
                            cache ids) <= maxsize)%nat
             /\ NoDup (keys (foldl (fun c key => fst (lookup_parent self key c))
                                   cache ids))) as H.
  { induction ids as [|key ids IH]; intros cache [Hlen Hnd]; [done|].
    simpl. apply IH. by apply lookup_parent_keeps_shape. }
  apply H. split; [unfold maxsize; simpl; lia|constructor].
Qed.

(** X28.  A new id on a full memory pushes out the least recently used
    one: the next call with that id is evaluated again, on the project
    cache the object holds by then. *)
Theorem lookup_parent_forgets_least_recent self self' key cache k v :
  length cache = maxsize ->
  NoDup (keys cache) ->
  key ∉ keys cache ->
  last cache = Some (k, v) ->
  snd (lookup_parent self' k (fst (lookup_parent self key cache)))
  = default ∅ (project_cache self' !! k).
Proof.
  intros Hlen Hnd Hnew Hlast.
  apply last_Some in Hlast as [front ->].
  rewrite length_app in Hlen. simpl in Hlen.
  pose proof (proj2 (lru_take_None key _) Hnew) as Hmiss.
  unfold keys in Hnd, Hnew. rewrite map_app in Hnd, Hnew. simpl in Hnd, Hnew.
  apply NoDup_app in Hnd as (_ & Hdisj & _).
  unfold lookup_parent at 2. rewrite Hmiss. simpl.
  rewrite take_app_length' by (unfold maxsize in *; lia).
  unfold lookup_parent.
  assert (lru_take k ((key, default ∅ (project_cache self !! key)) :: front)
          = None) as ->; [|done].
  apply lru_take_None. unfold keys. simpl. apply not_elem_of_cons. split.
  - intros ->. apply Hnew. apply elem_of_app. right. by left.
  - intros Hin. apply (Hdisj k Hin). by left.
Qed.

End CacheMore.

(** ** The program *)

Section MainMore.

Import Py Eff PosixPath TableauBackup Layout Run Walk Fetching More PathFacts.
Local Open Scope string_scope.
Local Open Scope list_scope.

Variable sched : scheduler.

(** X29.  A first start without credentials still writes the
    configuration: with no file at the path and no user name or password in
    the environment, the program leaves the dump of the defaults at the
    path, then fails with [ValueError] without signing in, cloning or
    signing out. *)
Theorem main_first_start_without_credentials y getenv env args w :
  canonical (default "config.yaml" args) ->
  parts (Path (default "config.yaml" args)) <> [] ->
  mkdir_clear (fs w) (parent (Path (default "config.yaml" args))) ->
  lookup_path (fs w) (default "config.yaml" args) = None ->
  not_str (TABLEAU_USERNAME env) || not_str (TABLEAU_PASSWORD env) = true ->
  exists w',
    main sched y getenv env args w
    = (w', Raise (ValueError
                    "Tableau credentials not found in environment variables"))
    /\ fs w' !! default "config.yaml" args
       = Some (File (dump y (default_config getenv)))
    /\ trace w'
       = trace w
         ++ [ Mkdir (str (parent (Path (default "config.yaml" args))));
              Log ERROR ("Failed to connect to Tableau server: "
                         ++ "Tableau credentials not found in "
                         ++ "environment variables");
              Log ERROR ("Backup failed: "
                         ++ "Tableau credentials not found in "
                         ++ "environment variables") ].
Proof.
  intros [Hcan _] Hparts Hclear Hnone Hcreds.
  assert (norm (default "config.yaml" args) = default "config.yaml" args)
    as Hnorm by done.
  unfold main, new, bind at 1.
  rewrite (load_config_missing_eval y getenv _ w Hparts Hclear Hnone).
  unfold ret at 1.
  unfold backup_tableau, try_finally, try_except at 1.
  unfold bind at 1. unfold connect_to_tableau, try_except.
  rewrite Hcreds.
  unfold raise, bind, in_world, emit, get_self, ret. simpl.
  eexists. split; [reflexivity|]. simpl. rewrite Hnorm.
  split; [by rewrite lookup_insert_eq|].
  by repeat (rewrite <- List.app_assoc; simpl).
Qed.

End MainMore.


(** ** The work of a walk *)

Section WalkWork.

Import Py Eff PosixPath TableauBackup Layout Run Walk Fetching More.
Local Open Scope string_scope.
Local Open Scope list_scope.

Variable sched : scheduler.







End WalkWork.

Section ContentAgain.

Import Py Eff PosixPath TableauBackup Layout Run Walk Fetching More.
Local Open Scope string_scope.
Local Open Scope list_scope.

(** X9.  Running [process_project_content] again on a project it returned
    for returns again and leaves the file system as it is: the directory
    that exists by now is accepted.  The second pool may complete its tasks
    in another order than the first, so the results are the same up to their
    order. *)
Theorem process_project_content_again
    sched sched' self project base user w w1 rs :
  process_project_content sched self project base user w = (w1, Ret rs) ->
  exists w2 rs',
    process_project_content sched' self project base user w1 = (w2, Ret rs')
    /\ Permutation rs' rs
    /\ fs w2 = fs w1.
Proof.
  intros (n & wv & wl & dv & dl & cs & Hn & Hwv & Hwl & Hdv & Hdl & Hmw
          & Hpool & Hmk & -> & ->)%process_project_content_inv.
  pose proof (mkdir_prefixes_made _ _ _ Hmk) as Hmade.
  eexists _, (as_completed sched' cs). split; [|split].
  - eapply process_project_content_eval; try done.
    intros q data Hq. cbn [fs]. by rewrite (Hmade q Hq).
  - by rewrite !as_completed_perm.
  - cbn [fs]. by rewrite mkdir_prefixes_again.
Qed.

End ContentAgain.

(* ===================================================================== *)
(** ** The added properties on concrete cases                             *)
(* ===================================================================== *)

Section CasesFacts.

Import Py Eff PosixPath TableauBackup Walk Fetching More Scenario Cases.
Local Open Scope string_scope.
Local Open Scope list_scope.

Lemma mkdir_clear_empty d : mkdir_clear ∅ d.
Proof. intros q data _. unfold lookup_path. by rewrite lookup_empty. Qed.


Lemma process_project_content_makes_directory_witness :
  exists w' n,
    process_project_content fifo self_ok sales "out" (Some "bob") w_empty
    = (w', Ret [ Coro_download Workbook "out/Sales" (VStr "101") (VStr "Q1")
                               (Some "bob");
                 Coro_download Datasource "out/Sales" (VStr "201")
                               (VStr "Region") (Some "bob") ])
    /\ sales !! "Name" = Some (VStr n)
    /\ (forall q, q ∈ prefixes (project_dir "out" n) ->
          lookup_path (fs w') (str q) = Some Dir)
    /\ adds_dirs (fs w_empty) (fs w').
Proof.
  assert (Hrun :
    process_project_content fifo self_ok sales "out" (Some "bob") w_empty
    = (fst (process_project_content fifo self_ok sales "out" (Some "bob")
                                    w_empty),
       Ret [ Coro_download Workbook "out/Sales" (VStr "101") (VStr "Q1")
                           (Some "bob");
             Coro_download Datasource "out/Sales" (VStr "201")
                           (VStr "Region") (Some "bob") ]))
    by (vm_compute; reflexivity).
  destruct (process_project_content_makes_directory
              fifo self_ok sales "out" (Some "bob") w_empty _ _ Hrun)
    as (n & Hn & Hdirs & Hadds).
  eexists _, n. split; [exact Hrun|]. split; [exact Hn|].
  split; [exact Hdirs|exact Hadds].
Defined.

Lemma process_project_content_again_witness :
  exists w1 w2,
    process_project_content fifo self_ok sales "out" (Some "bob") w_empty
    = (w1, Ret [ Coro_download Workbook "out/Sales" (VStr "101") (VStr "Q1")
                               (Some "bob");
                 Coro_download Datasource "out/Sales" (VStr "201")
                               (VStr "Region") (Some "bob") ])
    /\ process_project_content lifo self_ok sales "out" (Some "bob") w1
       = (w2, Ret [ Coro_download Datasource "out/Sales" (VStr "201")
                                  (VStr "Region") (Some "bob");
                    Coro_download Workbook "out/Sales" (VStr "101") (VStr "Q1")
                                  (Some "bob") ])
    /\ fs w2 = fs w1.
Proof.
  assert (Hrun :
    process_project_content fifo self_ok sales "out" (Some "bob") w_empty
    = (fst (process_project_content fifo self_ok sales "out" (Some "bob")
                                    w_empty),
       Ret [ Coro_download Workbook "out/Sales" (VStr "101") (VStr "Q1")
                           (Some "bob");
             Coro_download Datasource "out/Sales" (VStr "201")
                           (VStr "Region") (Some "bob") ]))
    by (vm_compute; reflexivity).
  destruct (process_project_content_again
              fifo lifo self_ok sales "out" (Some "bob") w_empty _ _ Hrun)
    as (w2 & rs' & Hagain & _ & Hfs).
  eexists _, w2. split; [exact Hrun|]. split; [|exact Hfs].
  rewrite Hagain. f_equal.
  assert (snd (process_project_content
                 lifo self_ok sales "out" (Some "bob")
                 (fst (process_project_content
                         fifo self_ok sales "out" (Some "bob") w_empty)))
          = Ret [ Coro_download Datasource "out/Sales" (VStr "201")
                                (VStr "Region") (Some "bob");
                  Coro_download Workbook "out/Sales" (VStr "101") (VStr "Q1")
                                (Some "bob") ]) as Hsnd
    by (vm_compute; reflexivity).
  rewrite Hagain in Hsnd. exact Hsnd.
Defined.

Lemma out_Sales_in_prefixes :
  Path "out/Sales" ∈ prefixes (project_dir "out" "Sales").
Proof. vm_compute. apply list_elem_of_In. right. left. reflexivity. Qed.

Lemma process_project_content_blocked_witness :
  exists w' e,
    process_project_content fifo self_ok sales "out" (Some "bob")
                            w_file_in_the_way
    = (w', Raise e)
    /\ (e = FileExistsError "out/Sales" \/ e = NotADirectoryError "out/Sales")
    /\ trace w' = [Mkdir "out/Sales"]
    /\ adds_dirs (fs w_file_in_the_way) (fs w').
Proof.
  exact (process_project_content_blocked
           fifo self_ok sales "out" (Some "bob") w_file_in_the_way "Sales"
           (Path "out/Sales") ["x"]%byte eq_refl out_Sales_in_prefixes
           eq_refl).
Defined.



Lemma walk_only_adds_directories_witness :
  exists w',
    create_and_fill_child_dir fifo 3 self_ok idx_flat "out" (VStr "1")
                              (Some "bob") w_empty
    = Some (w', Ret tt)
    /\ adds_dirs (fs w_empty) (fs w')
    /\ downloads (trace w') = [].
Proof.
  assert (Hrun :
    create_and_fill_child_dir fifo 3 self_ok idx_flat "out" (VStr "1")
                              (Some "bob") w_empty
    = Some (fst (default (w_empty, Ret tt)
                   (create_and_fill_child_dir
                      fifo 3 self_ok idx_flat "out" (VStr "1") (Some "bob")
                      w_empty)),
            Ret tt))
    by (vm_compute; reflexivity).
  destruct (walk_only_adds_directories
              fifo self_ok idx_flat "out" (Some "bob") 3 (VStr "1") w_empty
              _ _ Hrun)
    as [Hadds Hd].
  eexists. split; [exact Hrun|]. split; [exact Hadds|exact Hd].
Defined.

Lemma walk_child_failure_ends_the_walk_witness :
  exists w3,
    create_and_fill_child_dir fifo 2 self_ok idx_broken_child "out" (VStr "1")
                              (Some "bob") w_empty
    = Some (w3, Raise (KeyError "Name"))
    /\ visits (trace w3) = [VStr "1"; VStr "2"; VStr "3"].
Proof.
  pose (top := project "Top" [] [] [VStr "2"; VStr "3"; VStr "4"]).
  pose (w1 := fst (visit_project fifo self_ok top "out" (VStr "1")
                                 (Some "bob") w_empty)).
  pose (w2 := fst (default (w_empty, Ret tt)
                     (create_and_fill_child_dir
                        fifo 1 self_ok idx_broken_child "out" (VStr "2")
                        (Some "bob") w1))).
  pose (w3 := fst (default (w_empty, Ret tt)
                     (create_and_fill_child_dir
                        fifo 1 self_ok idx_broken_child "out" (VStr "3")
                        (Some "bob") w2))).
  exists w3. split; [|vm_compute; reflexivity].
  apply (walk_child_failure_ends_the_walk
           fifo self_ok idx_broken_child "out" (Some "bob") 1 (VStr "1") top
           w_empty w1 [VStr "2"] (VStr "3") [VStr "4"] w2 w3 (KeyError "Name"));
    vm_compute; reflexivity.
Defined.





Lemma walk_missing_child_dirs_witness :
  exists w1,
    create_and_fill_child_dir fifo 1 self_ok idx_no_children_key "out"
                              (VStr "1") (Some "bob") w_empty
    = Some (w1, Raise (KeyError "Child Dirs"))
    /\ lookup_path (fs w1) "out/Top" = Some Dir.
Proof.
  pose (top := ({[ "Name" := VStr "Top"; "Workbooks" := VList [];
                   "Datasources" := VList [] ]} : gmap string value)).
  pose (w1 := fst (process_project_content
                     fifo self_ok top "out" (Some "bob")
                     (logged w_empty (Visit (VStr "1"))))).
  exists w1. split; [|vm_compute; reflexivity].
  apply (walk_missing_child_dirs
           fifo self_ok idx_no_children_key "out" (Some "bob") 0 (VStr "1")
           top w_empty w1 []);
    vm_compute; reflexivity.
Defined.

Lemma run_signs_out_once_witness :
  exists self' w' r evs,
    backup_tableau fifo env_second_run (init cfg, w_empty) = ((self', w'), r)
    /\ trace w' = evs
    /\ sign_outs evs = 1%nat /\ last evs = Some SignOut
    /\ is_Some (server_ self').
Proof.
  destruct (run_signs_out_once fifo env_second_run (init cfg) w_empty eq_refl)
    as (self' & w' & r & evs & Hrun & Htr & Hout).
  exists self', w', r, evs. split; [exact Hrun|]. split; [exact Htr|].
  exact Hout.
Defined.

Lemma sign_out_failure_replaces_the_outcome_witness :
  exists self' w',
    backup_tableau fifo env_sign_out_fails (init cfg, w_empty)
    = ((self', w'), Raise (RuntimeError "Connection reset")).
Proof.
  exact (sign_out_failure_replaces_the_outcome
           fifo env_sign_out_fails (init cfg) w_empty srv_ok
           (RuntimeError "Connection reset") eq_refl eq_refl eq_refl eq_refl).
Defined.

Lemma commit_failure_is_logged_twice_witness :
  exists self' w' r evs,
    backup_tableau fifo env_push_rejected (init cfg, w_empty)
    = ((self', w'), r)
    /\ trace w'
       = evs ++ [ Log ERROR "Failed to commit/push changes: failed to push some refs";
                  Log ERROR "Backup failed: failed to push some refs";
                  SignOut ]
    /\ (sign_out env_push_rejected = None ->
        r = Raise (GitCommandError "failed to push some refs")).
Proof.
  exact (commit_failure_is_logged_twice
           fifo env_push_rejected (init cfg) w_empty
           (GitCommandError "failed to push some refs") eq_refl
           (or_intror (or_intror (conj eq_refl (conj eq_refl eq_refl))))).
Defined.

Lemma run_without_credentials_witness :
  backup_tableau fifo env_no_password (init cfg, w_empty)
  = ((init cfg,
      World ∅
            [ Log ERROR "Failed to connect to Tableau server: Tableau credentials not found in environment variables";
              Log ERROR "Backup failed: Tableau credentials not found in environment variables" ]),
     Raise (ValueError
              "Tableau credentials not found in environment variables")).
Proof.
  exact (run_without_credentials fifo env_no_password (init cfg) w_empty
           eq_refl eq_refl).
Defined.

Lemma run_submits_one_task_per_root_witness :
  exists self' w' r evs,
    backup_tableau fifo env_ok (init cfg, w_empty) = ((self', w'), r)
    /\ trace w' = evs
    /\ submitted evs
       = [ Coro_create_and_fill_child_dir
             (build_project_cache projects) "out" "1" (Some "bob") ]
    /\ project_cache self' = build_project_cache projects.
Proof.
  exact (run_submits_one_task_per_root fifo env_ok (init cfg) w_empty projects
           eq_refl eq_refl).
Defined.

Lemma canonical_conf : canonical "conf/config.yaml".
Proof.
  split; [reflexivity|]. intros Hin. apply list_elem_of_In in Hin.
  vm_compute in Hin. by destruct Hin as [|[|[]]].
Qed.

Lemma load_config_writes_defaults_witness :
  exists w',
    _load_config yaml_base_dir no_env "conf/config.yaml" w_empty
    = (w', Ret (default_config no_env))
    /\ fs w' !! "conf/config.yaml"
       = Some (File (list_byte_of_string "Tableau_Projects"))
    /\ lookup_path (fs w') "conf" = Some Dir.
Proof.
  destruct (load_config_writes_defaults
              yaml_base_dir no_env "conf/config.yaml" w_empty canonical_conf
              ltac:(discriminate) (mkdir_clear_empty _) eq_refl)
    as (w' & Hrun & Hfile & Hdirs & _).
  exists w'. split; [exact Hrun|]. split; [exact Hfile|].
  apply (Hdirs (Path "conf")). vm_compute. by left.
Defined.

Lemma new_object_from_written_defaults_witness :
  exists w' self,
    new yaml_base_dir no_env "conf/config.yaml" w_empty = (w', Ret self)
    /\ new yaml_base_dir env_other "conf/config.yaml" w' = (w', Ret self)
    /\ server_ self = None
    /\ project_cache self = ∅
    /\ max_workers self = 4%Z.
Proof.
  exact (new_object_from_written_defaults
           yaml_base_dir no_env env_other "conf/config.yaml" w_empty
           canonical_conf ltac:(discriminate) (mkdir_clear_empty _) eq_refl
           eq_refl).
Defined.

Lemma NoDup_full_cache : NoDup (keys full_cache).
Proof. apply (bool_decide_unpack _). vm_compute. reflexivity. Qed.

Lemma new_not_in_full_cache : "new" ∉ keys full_cache.
Proof. apply (bool_decide_unpack _). vm_compute. reflexivity. Qed.

Lemma lookup_parent_forgets_least_recent_witness :
  snd (lookup_parent self_listed "1"
         (fst (lookup_parent self_listed "new" full_cache)))
  = default ∅ (project_cache self_listed !! "1").
Proof.
  exact (lookup_parent_forgets_least_recent
           self_listed self_listed "new" full_cache "1" ∅ eq_refl
           NoDup_full_cache new_not_in_full_cache eq_refl).
Defined.

Lemma canonical_default : canonical "config.yaml".
Proof.
  split; [reflexivity|]. intros Hin. apply list_elem_of_In in Hin.
  vm_compute in Hin. by destruct Hin as [|[]].
Qed.

Lemma main_first_start_without_credentials_witness :
  exists w',
    main fifo yaml_base_dir no_env env_no_password None w_empty
    = (w', Raise (ValueError
                    "Tableau credentials not found in environment variables"))
    /\ fs w' !! "config.yaml"
       = Some (File (list_byte_of_string "Tableau_Projects"))
    /\ trace w'
       = [ Mkdir ".";
           Log ERROR "Failed to connect to Tableau server: Tableau credentials not found in environment variables";
           Log ERROR "Backup failed: Tableau credentials not found in environment variables" ].
Proof.
  exact (main_first_start_without_credentials
           fifo yaml_base_dir no_env env_no_password None w_empty
           canonical_default ltac:(discriminate) (mkdir_clear_empty _)
           eq_refl eq_refl).
Defined.

End CasesFacts.
